(** * Waste-tracking dashboard: verification and aggregation pipeline

    A shallow embedding of the verification workflow of [app.py]:
    [add_to_master_file_mess], [add_to_master_file_hostel],
    [approve_submission], [approve_all_collections],
    [aggregate_hostel_waste_collections], [save_pho_edit],
    [update_submission_with_edits] and the save branch of
    [show_edit_form], over an explicit model of the PostgreSQL tables
    they read and write.

    Beside the workflow it embeds the session functions
    ([init_session_state] to [clear_form_data]),
    [get_hostel_from_username] and [get_dynamic_hostels], the functions
    on the table of users ([add_user], [delete_user], [verify_password],
    [get_user_role], [get_user_name], [get_all_users],
    [create_default_admin]), the intake functions [save_mess_waste_data]
    and [save_hostel_waste_data], and the keys under which
    [load_pending_data_for_pho] groups the pending records and which
    [show_pho_dashboard] takes apart.

    Modelling choices.
    - A Python [dict] with string keys is a [gmap string pyval]; a table
      row is such a dictionary from column names to cells, which is also
      what [RealDictCursor] hands back.
    - Numbers ([int], [float], [Decimal]) are exact rationals [Q]; they
      are not told apart: binary rounding of [float], the 28-digit
      rounding of [Decimal] division and Python's refusal to add a
      [float] to a [Decimal] are not modelled.
    - Exceptions are values of [pyexc] carried by the error monad [res];
      every function of the source that wraps its body in
      [try/except Exception] turns a raised exception into its failure
      result and commits nothing.
    - The tables are those [create_tables] declares.
    - [get_db_connection] consults an oracle stored in the world: the
      list [connects] gives the outcome of the coming connection
      attempts (an empty list means every attempt succeeds).  A lost
      connection is the one fault of the environment that is modelled;
      a statement fails only for what its parameters are.
    - A statement executed on a connection yields the change it makes to
      the committed database; [conn.commit()] applies it.
    - A cell is coerced to its column's type as PostgreSQL does for
      numbers (rounding half away from zero to the column's scale,
      overflow as an error).  A value of another kind than the column's
      is rejected with [DatabaseError]: PostgreSQL would parse text
      that spells a number and would store a number's text in a text
      column; the rows the application loads never mix the kinds.  Text
      handed to a date column is taken to spell a date.
    - The [id] and [created_at] columns of the tables are left out: no
      statement of the modelled functions names them. *)

From Stdlib Require Import ZArith QArith Qround Lqa String Ascii List Lia.
From stdpp Require Import gmap strings pretty sorting.

Local Open Scope string_scope.

(** ** Python values and exceptions *)

Inductive pyval : Type :=
| PNum (q : Q)        (* int, float or Decimal *)
| PStr (s : string)   (* str *)
| PDate (s : string)  (* datetime.date / datetime.datetime, by its ISO text *)
| PNone.              (* None, SQL NULL *)

Inductive pyexc : Type :=
| TypeError
| ZeroDivisionError
| KeyError
| ValueError
| DatabaseError.

Inductive res (A : Type) : Type :=
| Ok (a : A)
| Raise (e : pyexc).

Arguments Ok {A} a.
Arguments Raise {A} e.

Definition bind {A B : Type} (m : res A) (k : A -> res B) : res B :=
  match m with
  | Ok a => k a
  | Raise e => Raise e
  end.

Notation "x <- m ;; k" := (bind m (fun x => k))
  (at level 100, m at next level, right associativity).

Definition is_ok {A : Type} (m : res A) : bool :=
  match m with Ok _ => true | Raise _ => false end.

Abbreviation pydict := (gmap string pyval).

(** [d.get(k, dflt)] *)
Definition dict_get (d : pydict) (k : string) (dflt : pyval) : pyval :=
  match d !! k with
  | Some v => v
  | None => dflt
  end.

(** [d[k]] *)
Definition dict_item (d : pydict) (k : string) : res pyval :=
  match d !! k with
  | Some v => Ok v
  | None => Raise KeyError
  end.

(** [k in d] *)
Definition dict_has (d : pydict) (k : string) : bool :=
  match d !! k with
  | Some _ => true
  | None => false
  end.

(** [a + b] *)
Definition py_add (a b : pyval) : res pyval :=
  match a, b with
  | PNum x, PNum y => Ok (PNum (x + y))
  | PStr s, PStr t => Ok (PStr (s ++ t))
  | _, _ => Raise TypeError
  end.

(** [a > 0] *)
Definition py_gt0 (a : pyval) : res bool :=
  match a with
  | PNum x => Ok (negb (Qle_bool x 0))
  | _ => Raise TypeError
  end.

(** [a / b] *)
Definition py_div (a b : pyval) : res pyval :=
  match a, b with
  | PNum x, PNum y =>
      if Qeq_bool y 0 then Raise ZeroDivisionError else Ok (PNum (x / y))
  | _, _ => Raise TypeError
  end.

(** [float(a)]; text is not parsed. *)
Definition py_float (a : pyval) : res pyval :=
  match a with
  | PNum x => Ok (PNum x)
  | PStr _ => Raise ValueError
  | _ => Raise TypeError
  end.

(** Left-nested sums [e1 + e2 + ... + en] as Python evaluates them. *)
Definition radd (acc : res pyval) (b : pyval) : res pyval :=
  a <- acc ;; py_add a b.

Notation "a .+ b" := (radd a b) (at level 50, left associativity).

(** ** Derived totals of a mess submission ([add_to_master_file_mess]) *)

Section MessTotals.
Variable data : pydict.

Let g (k : string) : pyval := dict_get data k (PNum 0).

Definition total_students_of : res pyval :=
  Ok (g "breakfast_students") .+ g "lunch_students"
    .+ g "snacks_students" .+ g "dinner_students".

Definition total_mess_waste_of : res pyval :=
  Ok (g "breakfast_student_waste") .+ g "breakfast_counter_waste"
    .+ g "breakfast_vegetable_peels" .+ g "lunch_student_waste"
    .+ g "lunch_counter_waste" .+ g "lunch_vegetable_peels"
    .+ g "snacks_student_waste" .+ g "snacks_counter_waste"
    .+ g "snacks_vegetable_peels" .+ g "dinner_student_waste"
    .+ g "dinner_counter_waste" .+ g "dinner_vegetable_peels"
    .+ g "mess_dry_waste".

Definition total_mess_waste_no_peels_of : res pyval :=
  Ok (g "breakfast_student_waste") .+ g "breakfast_counter_waste"
    .+ g "lunch_student_waste" .+ g "lunch_counter_waste"
    .+ g "snacks_student_waste" .+ g "snacks_counter_waste"
    .+ g "dinner_student_waste" .+ g "dinner_counter_waste"
    .+ g "mess_dry_waste".
End MessTotals.

(** [total / total_students if total_students > 0 else 0] *)
Definition per_capita (total total_students : pyval) : res pyval :=
  positive <- py_gt0 total_students ;;
  if positive then py_div total total_students else Ok (PNum 0).

Record mess_totals : Type := MessTotalsOf {
  mt_total_students : pyval;
  mt_total_mess_waste : pyval;
  mt_total_mess_waste_no_peels : pyval;
  mt_per_capita_mess_waste : pyval;
  mt_per_capita_mess_waste_no_peels : pyval
}.

(** Lines "Calculate totals" and "Handle zero student count", in order. *)
Definition mess_derived (data : pydict) : res mess_totals :=
  total_students <- total_students_of data ;;
  total_mess_waste <- total_mess_waste_of data ;;
  total_mess_waste_no_peels <- total_mess_waste_no_peels_of data ;;
  per_capita_mess_waste <- per_capita total_mess_waste total_students ;;
  per_capita_mess_waste_no_peels <-
    per_capita total_mess_waste_no_peels total_students ;;
  Ok (MessTotalsOf total_students total_mess_waste total_mess_waste_no_peels
        per_capita_mess_waste per_capita_mess_waste_no_peels).

(** ** Field groups, as the specification names them *)

Definition meals : list string := ["breakfast"; "lunch"; "snacks"; "dinner"].

Definition meal_components : list string :=
  ["student_waste"; "counter_waste"; "vegetable_peels"].

Definition meal_field (meal component : string) : string :=
  meal ++ "_" ++ component.

(** The 13 waste-component fields: 3 components for each of 4 meals, and
    the dry-waste field. *)
Definition waste_component_fields : list string :=
  flat_map (fun m => map (meal_field m) meal_components) meals
    ++ ["mess_dry_waste"].

Definition vegetable_peel_fields : list string :=
  map (fun m => meal_field m "vegetable_peels") meals.

Definition non_peel_fields : list string :=
  List.filter (fun k => negb (bool_decide (k ∈ vegetable_peel_fields)))
    waste_component_fields.

Definition student_count_fields : list string :=
  map (fun m => meal_field m "students") meals.

(** The number a field holds; an absent field counts as 0. *)
Definition is_num (v : pyval) : bool :=
  match v with PNum _ => true | _ => false end.

Definition num_of (v : pyval) : Q :=
  match v with PNum q => q | _ => 0 end.

Definition field_num (data : pydict) (k : string) : Q :=
  num_of (dict_get data k (PNum 0)).

Definition numeric_field (data : pydict) (k : string) : Prop :=
  is_num (dict_get data k (PNum 0)) = true.

Definition qsum (l : list Q) : Q := fold_right Qplus 0%Q l.

(** The same sum, associated to the left as Python evaluates a chain of
    [+]: [x1 + x2 + ... + xn]. *)
Definition qsum_left (l : list Q) : Q :=
  match l with
  | [] => 0%Q
  | x :: rest => fold_left Qplus rest x
  end.


(** ** PostgreSQL columns and cells *)

Inductive coltype : Type :=
| INTEGER
| DECIMAL (precision scale : nat)
| VARCHAR (n : nat)
| TEXT
| DATE
| TIMESTAMP.

Definition round_half_away (q : Q) : Z :=
  if Qle_bool 0 q then Qfloor (q + (1 # 2))
  else (- Qfloor (- q + (1 # 2)))%Z.

(** A value assigned to a [DECIMAL(precision, scale)] column. *)
Definition pg_numeric (precision scale : nat) (q : Q) : res Q :=
  let n := round_half_away (q * inject_Z (10 ^ Z.of_nat scale)) in
  if (Z.abs n <? 10 ^ Z.of_nat precision)%Z
  then Ok (Qred (n # Z.to_pos (10 ^ Z.of_nat scale)))
  else Raise DatabaseError.

(** A value assigned to an [INTEGER] column. *)
Definition pg_integer (q : Q) : res Q :=
  let n := round_half_away q in
  if ((-2147483648 <=? n) && (n <=? 2147483647))%Z
  then Ok (inject_Z n)
  else Raise DatabaseError.

Definition sql_store (ty : coltype) (v : pyval) : res pyval :=
  match v with
  | PNone => Ok PNone
  | PNum q =>
      match ty with
      | INTEGER => n <- pg_integer q ;; Ok (PNum n)
      | DECIMAL p s => n <- pg_numeric p s q ;; Ok (PNum n)
      | _ => Raise DatabaseError
      end
  | PStr s =>
      match ty with
      | VARCHAR n =>
          if (String.length s <=? n)%nat then Ok (PStr s)
          else Raise DatabaseError
      | TEXT => Ok (PStr s)
      | DATE | TIMESTAMP => Ok (PDate s)
      | _ => Raise DatabaseError
      end
  | PDate s =>
      match ty with
      | DATE | TIMESTAMP => Ok (PDate s)
      | _ => Raise DatabaseError
      end
  end.

Abbreviation schema := (list (string * coltype)).
Abbreviation cells := (list (string * pyval)).

Definition column_type (sch : schema) (c : string) : option coltype :=
  (list_to_map sch : gmap string coltype) !! c.

(** The parameters of a statement, each coerced to its column. *)
Fixpoint store_row (sch : schema) (cols : cells) : res cells :=
  match cols with
  | [] => Ok []
  | (c, v) :: rest =>
      match column_type sch c with
      | None => Raise DatabaseError
      | Some ty =>
          cell <- sql_store ty v ;;
          stored <- store_row sch rest ;;
          Ok ((c, cell) :: stored)
      end
  end.

(** ** Tables ([create_tables]) *)

Definition master_waste_data_columns : schema :=
  [("date", DATE); ("hostel", VARCHAR 20);
   ("total_students", INTEGER);
   ("breakfast_student_waste", DECIMAL 10 2);
   ("breakfast_counter_waste", DECIMAL 10 2);
   ("breakfast_vegetable_peels", DECIMAL 10 2);
   ("lunch_student_waste", DECIMAL 10 2);
   ("lunch_counter_waste", DECIMAL 10 2);
   ("lunch_vegetable_peels", DECIMAL 10 2);
   ("snacks_student_waste", DECIMAL 10 2);
   ("snacks_counter_waste", DECIMAL 10 2);
   ("snacks_vegetable_peels", DECIMAL 10 2);
   ("dinner_student_waste", DECIMAL 10 2);
   ("dinner_counter_waste", DECIMAL 10 2);
   ("dinner_vegetable_peels", DECIMAL 10 2);
   ("total_mess_waste", DECIMAL 10 2);
   ("total_mess_waste_no_peels", DECIMAL 10 2);
   ("per_capita_mess_waste", DECIMAL 10 4);
   ("per_capita_mess_waste_no_peels", DECIMAL 10 4);
   ("mess_dry_waste", DECIMAL 10 2);
   ("total_hostel_waste", DECIMAL 10 2);
   ("dry_waste", DECIMAL 10 2);
   ("wet_waste", DECIMAL 10 2);
   ("e_waste", DECIMAL 10 2);
   ("biomedical_waste", DECIMAL 10 2);
   ("hazardous_waste", DECIMAL 10 2)].

(** Every column but [date] and [hostel] is declared [DEFAULT 0]. *)
Definition master_defaults : pydict :=
  list_to_map
    (map (fun ct => (fst ct, PNum 0)) (drop 2 master_waste_data_columns)).

Definition mess_waste_submissions_columns : schema :=
  [("submission_id", VARCHAR 100); ("submission_date", DATE);
   ("hostel", VARCHAR 20);
   ("breakfast_students", INTEGER);
   ("breakfast_student_waste", DECIMAL 10 2);
   ("breakfast_counter_waste", DECIMAL 10 2);
   ("breakfast_vegetable_peels", DECIMAL 10 2);
   ("lunch_students", INTEGER);
   ("lunch_student_waste", DECIMAL 10 2);
   ("lunch_counter_waste", DECIMAL 10 2);
   ("lunch_vegetable_peels", DECIMAL 10 2);
   ("snacks_students", INTEGER);
   ("snacks_student_waste", DECIMAL 10 2);
   ("snacks_counter_waste", DECIMAL 10 2);
   ("snacks_vegetable_peels", DECIMAL 10 2);
   ("dinner_students", INTEGER);
   ("dinner_student_waste", DECIMAL 10 2);
   ("dinner_counter_waste", DECIMAL 10 2);
   ("dinner_vegetable_peels", DECIMAL 10 2);
   ("mess_dry_waste", DECIMAL 10 2);
   ("total_students", INTEGER);
   ("total_mess_waste", DECIMAL 10 2);
   ("remarks", TEXT); ("image_paths", TEXT);
   ("submitted_by", VARCHAR 50); ("submitted_at", TIMESTAMP);
   ("status", VARCHAR 20); ("verified_by", VARCHAR 50);
   ("verified_at", TIMESTAMP)].

Definition hostel_waste_submissions_columns : schema :=
  [("submission_id", VARCHAR 100); ("submission_date", DATE);
   ("hostel", VARCHAR 20);
   ("dry_waste", DECIMAL 10 2); ("wet_waste", DECIMAL 10 2);
   ("e_waste", DECIMAL 10 2); ("biomedical_waste", DECIMAL 10 2);
   ("hazardous_waste", DECIMAL 10 2); ("total_waste", DECIMAL 10 2);
   ("remarks", TEXT); ("image_paths", TEXT);
   ("submitted_by", VARCHAR 50); ("submitted_at", TIMESTAMP);
   ("status", VARCHAR 20); ("verified_by", VARCHAR 50);
   ("verified_at", TIMESTAMP)].

(** A row of [pho_edits]; the two JSONB cells hold the dictionaries
    their JSON text encodes. *)
Record pho_edit : Type := PhoEdit {
  pe_submission_id : string;
  pe_submission_type : string;
  pe_original_data : pydict;
  pe_edited_data : pydict;
  pe_edited_by : string;
  pe_edit_reason : string
}.

(** The submission tables are keyed by [submission_id] (UNIQUE), the
    master table by [(date, hostel)] (UNIQUE). *)
Record database : Type := Database {
  mess_waste_submissions : gmap string pydict;
  hostel_waste_submissions : gmap string pydict;
  master_waste_data : gmap (string * string) pydict;
  pho_edits : list pho_edit
}.

Record world : Type := World {
  db : database;
  connects : list bool;   (* outcomes of the coming connection attempts *)
  clock : string          (* datetime.now() *)
}.

Abbreviation change := (database -> database).

Definition get_db_connection (w : world) : bool * world :=
  match connects w with
  | [] => (true, w)
  | up :: later => (up, World (db w) later (clock w))
  end.

(** [conn.commit()] *)
Definition commit (c : change) (w : world) : world :=
  World (c (db w)) (connects w) (clock w).

Definition on_master (f : gmap (string * string) pydict ->
                          gmap (string * string) pydict) : change :=
  fun d => Database (mess_waste_submissions d) (hostel_waste_submissions d)
             (f (master_waste_data d)) (pho_edits d).

Definition on_mess_submissions
    (f : gmap string pydict -> gmap string pydict) : change :=
  fun d => Database (f (mess_waste_submissions d)) (hostel_waste_submissions d)
             (master_waste_data d) (pho_edits d).

Definition on_hostel_submissions
    (f : gmap string pydict -> gmap string pydict) : change :=
  fun d => Database (mess_waste_submissions d) (f (hostel_waste_submissions d))
             (master_waste_data d) (pho_edits d).

Definition on_pho_edits (f : list pho_edit -> list pho_edit) : change :=
  fun d => Database (mess_waste_submissions d) (hostel_waste_submissions d)
             (master_waste_data d) (f (pho_edits d)).

(** ** The master upsert *)

(** [DO UPDATE SET c = EXCLUDED.c] for the listed columns. *)
Definition set_from_excluded (excluded : pydict) (set_columns : list string)
    (row : pydict) : pydict :=
  foldr (fun c r => match excluded !! c with
                    | Some v => <[c := v]> r
                    | None => r
                    end) row set_columns.

(** [INSERT INTO master_waste_data (columns) VALUES (...)
     ON CONFLICT (date, hostel) DO UPDATE SET ...] *)
Definition upsert_row (key : string * string) (excluded : pydict)
    (set_columns : list string) (tbl : gmap (string * string) pydict)
    : gmap (string * string) pydict :=
  match tbl !! key with
  | None => <[key := excluded ∪ master_defaults]> tbl
  | Some row => <[key := set_from_excluded excluded set_columns row]> tbl
  end.

Definition upsert_master (values : cells) (set_columns : list string)
    : res change :=
  stored <- store_row master_waste_data_columns values ;;
  let excluded : pydict := list_to_map stored in
  match excluded !! "date", excluded !! "hostel" with
  | Some (PDate d), Some (PStr h) =>
      Ok (on_master (upsert_row (d, h) excluded set_columns))
  | _, _ => Raise DatabaseError   (* NOT NULL *)
  end.

Definition mess_insert_values (data : pydict) (t : mess_totals) : cells :=
  let g k := dict_get data k (PNum 0) in
  [("date", dict_get data "submission_date" PNone);
   ("hostel", dict_get data "hostel" PNone);
   ("total_students", mt_total_students t);
   ("breakfast_student_waste", g "breakfast_student_waste");
   ("breakfast_counter_waste", g "breakfast_counter_waste");
   ("breakfast_vegetable_peels", g "breakfast_vegetable_peels");
   ("lunch_student_waste", g "lunch_student_waste");
   ("lunch_counter_waste", g "lunch_counter_waste");
   ("lunch_vegetable_peels", g "lunch_vegetable_peels");
   ("snacks_student_waste", g "snacks_student_waste");
   ("snacks_counter_waste", g "snacks_counter_waste");
   ("snacks_vegetable_peels", g "snacks_vegetable_peels");
   ("dinner_student_waste", g "dinner_student_waste");
   ("dinner_counter_waste", g "dinner_counter_waste");
   ("dinner_vegetable_peels", g "dinner_vegetable_peels");
   ("total_mess_waste", mt_total_mess_waste t);
   ("total_mess_waste_no_peels", mt_total_mess_waste_no_peels t);
   ("per_capita_mess_waste", mt_per_capita_mess_waste t);
   ("per_capita_mess_waste_no_peels", mt_per_capita_mess_waste_no_peels t);
   ("mess_dry_waste", g "mess_dry_waste")].

Definition mess_update_columns : list string :=
  ["total_students"; "total_mess_waste"; "total_mess_waste_no_peels";
   "per_capita_mess_waste"; "per_capita_mess_waste_no_peels";
   "breakfast_student_waste"; "breakfast_counter_waste";
   "breakfast_vegetable_peels";
   "lunch_student_waste"; "lunch_counter_waste"; "lunch_vegetable_peels";
   "snacks_student_waste"; "snacks_counter_waste"; "snacks_vegetable_peels";
   "dinner_student_waste"; "dinner_counter_waste"; "dinner_vegetable_peels";
   "mess_dry_waste"].

(** The body of the [try] block of [add_to_master_file_mess]. *)
Definition mess_statement (data : pydict) : res change :=
  t <- mess_derived data ;;
  upsert_master (mess_insert_values data t) mess_update_columns.

Definition add_to_master_file_mess (data : pydict) (w : world) : world :=
  let (conn, w1) := get_db_connection w in
  if conn then
    match mess_statement data with
    | Ok c => commit c w1
    | Raise _ => w1          (* st.error; nothing is committed *)
    end
  else w1.

Definition total_hostel_waste_of (data : pydict) : res pyval :=
  let g k := dict_get data k (PNum 0) in
  Ok (g "dry_waste") .+ g "wet_waste" .+ g "e_waste"
    .+ g "biomedical_waste" .+ g "hazardous_waste".

Definition hostel_insert_values (data : pydict) (total_hostel_waste : pyval)
    : cells :=
  let g k := dict_get data k (PNum 0) in
  [("date", dict_get data "submission_date" PNone);
   ("hostel", dict_get data "hostel" PNone);
   ("total_hostel_waste", total_hostel_waste);
   ("dry_waste", g "dry_waste"); ("wet_waste", g "wet_waste");
   ("e_waste", g "e_waste"); ("biomedical_waste", g "biomedical_waste");
   ("hazardous_waste", g "hazardous_waste")].

Definition hostel_update_columns : list string :=
  ["total_hostel_waste"; "dry_waste"; "wet_waste"; "e_waste";
   "biomedical_waste"; "hazardous_waste"].

(** The body of the [try] block of [add_to_master_file_hostel]. *)
Definition hostel_statement (data : pydict) : res change :=
  total_hostel_waste <- total_hostel_waste_of data ;;
  upsert_master (hostel_insert_values data total_hostel_waste)
    hostel_update_columns.

Definition add_to_master_file_hostel (data : pydict) (w : world) : world :=
  let (conn, w1) := get_db_connection w in
  if conn then
    match hostel_statement data with
    | Ok c => commit c w1
    | Raise _ => w1
    end
  else w1.

(** ** Approval *)

(** The row [WHERE submission_id = %s] selects: comparing the column with
    NULL selects none; comparing it with a number or a date is an error. *)
Definition where_submission_id (v : pyval) : res (option string) :=
  match v with
  | PStr s => Ok (Some s)
  | PNone => Ok None
  | _ => Raise DatabaseError
  end.

(** [UPDATE table SET c = %s, ... WHERE submission_id = %s] *)
Definition update_submission (sch : schema) (assignments : cells)
    (submission_id : pyval) : res (gmap string pydict -> gmap string pydict) :=
  stored <- store_row sch assignments ;;
  key <- where_submission_id submission_id ;;
  Ok (fun tbl =>
        match key with
        | Some s => alter (fun row => list_to_map stored ∪ row) s tbl
        | None => tbl
        end).

Definition verified_assignments (pho_username timestamp : string) : cells :=
  [("status", PStr "verified"); ("verified_by", PStr pho_username);
   ("verified_at", PDate timestamp)].

Definition approve_submission (record_data : pydict) (pho_username : string)
    (w : world) : bool * world :=
  let (conn, w1) := get_db_connection w in
  if conn then
    let timestamp := clock w1 in
    if dict_has record_data "breakfast_students" then
      match (submission_id <- dict_item record_data "submission_id" ;;
             update_submission mess_waste_submissions_columns
               (verified_assignments pho_username timestamp) submission_id)
      with
      | Ok c =>
          let w2 := add_to_master_file_mess record_data w1 in
          (true, commit (on_mess_submissions c) w2)
      | Raise _ => (false, w1)
      end
    else
      match (submission_id <- dict_item record_data "submission_id" ;;
             update_submission hostel_waste_submissions_columns
               (verified_assignments pho_username timestamp) submission_id)
      with
      | Ok c =>
          let w2 := add_to_master_file_hostel record_data w1 in
          (true, commit (on_hostel_submissions c) w2)
      | Raise _ => (false, w1)
      end
  else (false, w1).

(** The loop discards what [approve_submission] returns; the function
    itself returns [None]. *)
Fixpoint approve_all_collections (records : list pydict)
    (pho_username : string) (w : world) : unit * world :=
  match records with
  | [] => (tt, w)
  | record :: rest =>
      let (_, w1) := approve_submission record pho_username w in
      approve_all_collections rest pho_username w1
  end.

(** ** Display totals of several collections *)

(** [totals[k] += float(record.get(k, 0))] *)
Definition add_to_total (k : string) (record : pydict) (totals : pydict)
    : res pydict :=
  current <- dict_item totals k ;;
  x <- py_float (dict_get record k (PNum 0)) ;;
  s <- py_add current x ;;
  Ok (<[k := s]> totals).

Definition add_collection (totals : pydict) (record : pydict) : res pydict :=
  t1 <- add_to_total "dry_waste" record totals ;;
  t2 <- add_to_total "wet_waste" record t1 ;;
  t3 <- add_to_total "e_waste" record t2 ;;
  t4 <- add_to_total "biomedical_waste" record t3 ;;
  t5 <- add_to_total "hazardous_waste" record t4 ;;
  add_to_total "total_waste" record t5.

Fixpoint add_collections (totals : pydict) (records : list pydict)
    : res pydict :=
  match records with
  | [] => Ok totals
  | record :: rest =>
      t <- add_collection totals record ;; add_collections t rest
  end.

Definition aggregate_hostel_waste_collections (records : list pydict)
    : res pydict :=
  match records with
  | [] => Ok ∅
  | first :: _ =>
      let totals : pydict :=
        list_to_map
          [("dry_waste", PNum 0); ("wet_waste", PNum 0); ("e_waste", PNum 0);
           ("biomedical_waste", PNum 0); ("hazardous_waste", PNum 0);
           ("total_waste", PNum 0);
           ("collection_count", PNum (inject_Z (Z.of_nat (length records))));
           ("submitted_by", dict_get first "submitted_by" (PStr "N/A"));
           ("submitted_at", dict_get first "submitted_at" (PStr "N/A"));
           ("hostel", dict_get first "hostel" (PStr "N/A"));
           ("submission_date",
            dict_get first "submission_date" (PStr "N/A"))] in
      add_collections totals records
  end.

(** ** Edit, then approve *)

(** [json.dumps] raises [TypeError] on a date or datetime object.  (It
    refuses a [Decimal] too; numbers not being told apart, every number
    counts as serializable here.) *)
Definition json_serializable (v : pyval) : bool :=
  match v with PDate _ => false | _ => true end.

Definition json_dumps (d : pydict) : res pydict :=
  if forallb (fun kv => json_serializable (snd kv)) (map_to_list d)
  then Ok d else Raise TypeError.

(** [INSERT INTO pho_edits (...) VALUES (...)]: [submission_id] is
    [VARCHAR(100) NOT NULL], [submission_type] is checked against the two
    variants, [edited_by] is [VARCHAR(50) NOT NULL]. *)
Definition insert_pho_edit (submission_id : pyval) (submission_type : string)
    (original edited : pydict) (pho_username edit_reason : string)
    : res change :=
  match submission_id with
  | PStr sid =>
      if (String.length sid <=? 100)%nat
         && (String.eqb submission_type "mess_waste"
             || String.eqb submission_type "hostel_waste")
         && (String.length pho_username <=? 50)%nat
      then Ok (on_pho_edits (fun edits =>
                 (edits ++ [PhoEdit sid submission_type original edited
                              pho_username edit_reason])%list))
      else Raise DatabaseError
  | _ => Raise DatabaseError
  end.

Definition save_pho_edit (submission_id : pyval) (submission_type : string)
    (original_data edited_data : pydict) (pho_username edit_reason : string)
    (w : world) : bool * world :=
  let (conn, w1) := get_db_connection w in
  if conn then
    match (original <- json_dumps original_data ;;
           edited <- json_dumps edited_data ;;
           insert_pho_edit submission_id submission_type original edited
             pho_username edit_reason)
    with
    | Ok c => (true, commit c w1)
    | Raise _ => (false, w1)
    end
  else (false, w1).

(** [[(k, d[k]) for k in keys]], raising [KeyError] at the first absent key. *)
Fixpoint dict_items (d : pydict) (keys : list string) : res cells :=
  match keys with
  | [] => Ok []
  | k :: rest =>
      v <- dict_item d k ;;
      vs <- dict_items d rest ;;
      Ok ((k, v) :: vs)
  end.

Definition mess_edit_columns : list string :=
  ["breakfast_students"; "breakfast_student_waste"; "breakfast_counter_waste";
   "breakfast_vegetable_peels";
   "lunch_students"; "lunch_student_waste"; "lunch_counter_waste";
   "lunch_vegetable_peels";
   "snacks_students"; "snacks_student_waste"; "snacks_counter_waste";
   "snacks_vegetable_peels";
   "dinner_students"; "dinner_student_waste"; "dinner_counter_waste";
   "dinner_vegetable_peels";
   "mess_dry_waste"; "total_students"; "total_mess_waste"].

Definition hostel_edit_columns : list string :=
  ["dry_waste"; "wet_waste"; "e_waste"; "biomedical_waste";
   "hazardous_waste"; "total_waste"].

Definition update_submission_with_edits (submission_id : pyval)
    (submission_type : string) (edited_data : pydict) (pho_username : string)
    (w : world) : bool * world :=
  let (conn, w1) := get_db_connection w in
  if conn then
    let timestamp := clock w1 in
    if String.eqb submission_type "mess_waste" then
      match (edits <- dict_items edited_data mess_edit_columns ;;
             update_submission mess_waste_submissions_columns
               (edits ++ verified_assignments pho_username timestamp)%list
               submission_id)
      with
      | Ok c => (true, commit (on_mess_submissions c) w1)
      | Raise _ => (false, w1)
      end
    else
      match (edits <- dict_items edited_data hostel_edit_columns ;;
             update_submission hostel_waste_submissions_columns
               (edits ++ verified_assignments pho_username timestamp)%list
               submission_id)
      with
      | Ok c => (true, commit (on_hostel_submissions c) w1)
      | Raise _ => (false, w1)
      end
  else (false, w1).

(** The numbers entered in the edit form, by field name. *)
Abbreviation form_values := (string -> Q).

(** "Prepare edited data" in [show_edit_form]. *)
Definition prepare_edited_data (submission_type : string) (f : form_values)
    : pydict :=
  if String.eqb submission_type "mess_waste" then
    list_to_map
      [("breakfast_students", PNum (f "breakfast_students"));
       ("breakfast_student_waste", PNum (f "breakfast_student_waste"));
       ("breakfast_counter_waste", PNum (f "breakfast_counter_waste"));
       ("breakfast_vegetable_peels", PNum (f "breakfast_vegetable_peels"));
       ("lunch_students", PNum (f "lunch_students"));
       ("lunch_student_waste", PNum (f "lunch_student_waste"));
       ("lunch_counter_waste", PNum (f "lunch_counter_waste"));
       ("lunch_vegetable_peels", PNum (f "lunch_vegetable_peels"));
       ("snacks_students", PNum (f "snacks_students"));
       ("snacks_student_waste", PNum (f "snacks_student_waste"));
       ("snacks_counter_waste", PNum (f "snacks_counter_waste"));
       ("snacks_vegetable_peels", PNum (f "snacks_vegetable_peels"));
       ("dinner_students", PNum (f "dinner_students"));
       ("dinner_student_waste", PNum (f "dinner_student_waste"));
       ("dinner_counter_waste", PNum (f "dinner_counter_waste"));
       ("dinner_vegetable_peels", PNum (f "dinner_vegetable_peels"));
       ("mess_dry_waste", PNum (f "mess_dry_waste"));
       ("total_students",
        PNum (f "breakfast_students" + f "lunch_students"
              + f "snacks_students" + f "dinner_students"));
       ("total_mess_waste",
        PNum (f "breakfast_student_waste" + f "breakfast_counter_waste"
              + f "breakfast_vegetable_peels"
              + f "lunch_student_waste" + f "lunch_counter_waste"
              + f "lunch_vegetable_peels"
              + f "snacks_student_waste" + f "snacks_counter_waste"
              + f "snacks_vegetable_peels"
              + f "dinner_student_waste" + f "dinner_counter_waste"
              + f "dinner_vegetable_peels"
              + f "mess_dry_waste"))]
  else
    list_to_map
      [("dry_waste", PNum (f "dry_waste"));
       ("wet_waste", PNum (f "wet_waste"));
       ("e_waste", PNum (f "e_waste"));
       ("biomedical_waste", PNum (f "biomedical_waste"));
       ("hazardous_waste", PNum (f "hazardous_waste"));
       ("total_waste",
        PNum (f "dry_waste" + f "wet_waste" + f "e_waste"
              + f "biomedical_waste" + f "hazardous_waste"))].

(** What the form reports after "Save Changes". *)
Inductive edit_outcome : Type :=
| ChangesSavedAndApproved    (* st.success *)
| ErrorUpdatingSubmission    (* st.error *)
| ErrorSavingEdit.           (* st.error *)

(** "Save edit and approve": the branch of [show_edit_form] taken when
    the form is submitted.  [record_data['submission_id']] is read
    outside any [try], so its [KeyError] escapes. *)
Definition show_edit_form (record_data : pydict) (submission_type : string)
    (pho_username : string) (f : form_values) (edit_reason : string)
    (w : world) : res (edit_outcome * world) :=
  let edited_data := prepare_edited_data submission_type f in
  submission_id <- dict_item record_data "submission_id" ;;
  let (saved, w1) :=
    save_pho_edit submission_id submission_type record_data edited_data
      pho_username edit_reason w in
  if saved then
    let (updated, w2) :=
      update_submission_with_edits submission_id submission_type edited_data
        pho_username w1 in
    if updated then Ok (ChangesSavedAndApproved, w2)
    else Ok (ErrorUpdatingSubmission, w2)
  else Ok (ErrorSavingEdit, w1).

(** ** Sequences of verifier actions *)

Inductive action : Type :=
| Approve (record_data : pydict) (pho_username : string)
| ApproveAll (records : list pydict) (pho_username : string)
| EditAndApprove (record_data : pydict) (submission_type : string)
    (pho_username : string) (f : form_values) (edit_reason : string).

Definition perform (a : action) (w : world) : world :=
  match a with
  | Approve r u => snd (approve_submission r u w)
  | ApproveAll rs u => snd (approve_all_collections rs u w)
  | EditAndApprove r ty u f reason =>
      match show_edit_form r ty u f reason w with
      | Ok (_, w') => w'
      | Raise _ => w
      end
  end.

Definition perform_all (actions : list action) (w : world) : world :=
  fold_left (fun w a => perform a w) actions w.

(** ** Notions used to state the properties *)

(** The hostel-group and mess-group columns of a master row. *)
Definition hostel_group : list string :=
  ["dry_waste"; "wet_waste"; "e_waste"; "biomedical_waste";
   "hazardous_waste"; "total_hostel_waste"].

Definition mess_group : list string :=
  ["total_students"; "total_mess_waste"; "total_mess_waste_no_peels";
   "per_capita_mess_waste"; "per_capita_mess_waste_no_peels"]
  ++ waste_component_fields.

(** Both aggregation functions run one statement on a connection of
    their own and commit it. *)
Definition run_statement (stmt : res change) (w : world) : world :=
  let (conn, w1) := get_db_connection w in
  if conn then match stmt with Ok c => commit c w1 | Raise _ => w1 end
  else w1.

(** The five waste categories of a hostel collection. *)
Definition waste_categories : list string :=
  ["dry_waste"; "wet_waste"; "e_waste"; "biomedical_waste"; "hazardous_waste"].

(** The [(date, hostel)] key a submission is aggregated under. *)
Definition master_key (data : pydict) : option (string * string) :=
  match sql_store DATE (dict_get data "submission_date" PNone),
        sql_store (VARCHAR 20) (dict_get data "hostel" PNone) with
  | Ok (PDate d), Ok (PStr h) => Some (d, h)
  | _, _ => None
  end.

(** What the approving [UPDATE] makes of a submission row. *)
Definition mark_verified (pho_username timestamp : string) (row : pydict)
    : pydict :=
  list_to_map (verified_assignments pho_username timestamp) ∪ row.

(** The submission table [approve_submission] updates for a record. *)
Definition table_of_record (record_data : pydict) (d : database)
    : gmap string pydict :=
  if dict_has record_data "breakfast_students"
  then mess_waste_submissions d else hostel_waste_submissions d.

(** The submission table [update_submission_with_edits] updates. *)
Definition table_of_type (submission_type : string) (d : database)
    : gmap string pydict :=
  if String.eqb submission_type "mess_waste"
  then mess_waste_submissions d else hostel_waste_submissions d.

(** The fields the edit form asks for. *)
Definition form_fields (submission_type : string) : list string :=
  if String.eqb submission_type "mess_waste"
  then student_count_fields ++ waste_component_fields
  else waste_categories.

(** The stored status of a submission, in whichever table holds it. *)
Definition stored_status (d : database) (sid : string) : option pyval :=
  match mess_waste_submissions d !! sid with
  | Some row => row !! "status"
  | None =>
      match hostel_waste_submissions d !! sid with
      | Some row => row !! "status"
      | None => None
      end
  end.

(** What [approve_submission] returns for each record of a list, in order. *)
Fixpoint approval_results (records : list pydict) (pho_username : string)
    (w : world) : list bool :=
  match records with
  | [] => []
  | record :: rest =>
      let (ok, w1) := approve_submission record pho_username w in
      ok :: approval_results rest pho_username w1
  end.

(** ** Sample submissions and database states *)

Module Sample.

(** The mess submission of the specification's scenario: hostel "2",
    2024-01-10, 50 students at breakfast. *)
Definition mess_record : pydict :=
  list_to_map
    [("submission_id", PStr "mess_2_20240110"); 
     ("submission_date", PStr "2024-01-10"); ("hostel", PStr "2");
     ("breakfast_students", PNum 50);
     ("breakfast_student_waste", PNum 3);
     ("breakfast_counter_waste", PNum 1);
     ("breakfast_vegetable_peels", PNum (1 # 2));
     ("lunch_students", PNum 0); ("lunch_student_waste", PNum 0);
     ("lunch_counter_waste", PNum 0); ("lunch_vegetable_peels", PNum 0);
     ("snacks_students", PNum 0); ("snacks_student_waste", PNum 0);
     ("snacks_counter_waste", PNum 0); ("snacks_vegetable_peels", PNum 0);
     ("dinner_students", PNum 0); ("dinner_student_waste", PNum 0);
     ("dinner_counter_waste", PNum 0); ("dinner_vegetable_peels", PNum 0);
     ("mess_dry_waste", PNum 0);
     ("total_students", PNum 50); ("total_mess_waste", PNum (9 # 2));
     ("submitted_by", PStr "pho_supervisor_2"); ("status", PStr "pending")].

(** The same submission as the cursor returns it, its date a date
    object. *)
Definition mess_record_loaded : pydict :=
  <["submission_date" := PDate "2024-01-10"]> mess_record.

(** A mess submission on a day without students. *)
Definition closed_day_record : pydict :=
  list_to_map
    [("submission_id", PStr "mess_2_20240111");
     ("submission_date", PStr "2024-01-11"); ("hostel", PStr "2");
     ("breakfast_students", PNum 0); ("mess_dry_waste", PNum (5 # 2));
     ("status", PStr "pending")].

(** A second mess submission for the same day and hostel. *)
Definition mess_record_late : pydict :=
  list_to_map
    [("submission_id", PStr "mess_2_20240110_b");
     ("submission_date", PStr "2024-01-10"); ("hostel", PStr "2");
     ("breakfast_students", PNum 40);
     ("breakfast_student_waste", PNum 10);
     ("status", PStr "pending")].

(** Two hostel collections of one day for one hostel. *)
Definition collection_1 : pydict :=
  list_to_map
    [("submission_id", PStr "hostel_2_20240110_1");
     ("submission_date", PStr "2024-01-10"); ("hostel", PStr "2");
     ("dry_waste", PNum 1); ("wet_waste", PNum 2); ("e_waste", PNum 0);
     ("biomedical_waste", PNum 0); ("hazardous_waste", PNum 0);
     ("total_waste", PNum 3); ("status", PStr "pending")].

Definition collection_2 : pydict :=
  list_to_map
    [("submission_id", PStr "hostel_2_20240110_2");
     ("submission_date", PStr "2024-01-10"); ("hostel", PStr "2");
     ("dry_waste", PNum 5); ("wet_waste", PNum 7); ("e_waste", PNum 0);
     ("biomedical_waste", PNum 0); ("hazardous_waste", PNum 0);
     ("total_waste", PNum 12); ("status", PStr "pending")].

Definition key : string * string := ("2024-01-10", "2").

Definition pending_db : database :=
  Database
    (list_to_map [("mess_2_20240110", mess_record);
                  ("mess_2_20240110_b", mess_record_late)])
    (list_to_map [("hostel_2_20240110_1", collection_1);
                  ("hostel_2_20240110_2", collection_2)])
    ∅ [].

(** Every connection attempt succeeds. *)
Definition world_up : world := World pending_db [] "2024-01-11 09:00:00".

(** The first connection attempt fails. *)
Definition world_down : world :=
  World pending_db [false] "2024-01-11 09:00:00".

(** The second connection attempt fails. *)
Definition world_flaky : world :=
  World pending_db [true; false] "2024-01-11 09:00:00".

(** After the second hostel collection was aggregated. *)
Definition world_hostel_done : world :=
  add_to_master_file_hostel collection_2 world_up.

(** The master row that aggregation leaves. *)
Definition hostel_only_row : pydict :=
  list_to_map
    [("date", PDate "2024-01-10"); ("hostel", PStr "2");
     ("total_hostel_waste", PNum 12); ("dry_waste", PNum 5);
     ("wet_waste", PNum 7)] ∪ master_defaults.

(** The mess submission approved, then the later one for the same day,
    which overwrites the mess group of the master row. *)
Definition world_approved : world :=
  snd (approve_submission mess_record "pho" world_up).

Definition world_approved_twice : world :=
  snd (approve_submission mess_record_late "pho" world_approved).

(** The verifier corrects the breakfast student waste from 3 to 2. *)
Definition corrected_form : form_values :=
  fun k => if String.eqb k "breakfast_student_waste" then 2%Q
           else field_num mess_record k.

Definition world_edited : world :=
  perform (EditAndApprove mess_record "mess_waste" "pho" corrected_form
             "weighed again") world_up.

End Sample.

(** ** Further notions used to state properties *)

(** The fields [aggregate_hostel_waste_collections] adds up. *)
Definition collection_fields : list string :=
  waste_categories ++ ["total_waste"].

(** The table and the columns [update_submission_with_edits] writes. *)
Definition columns_of_type (submission_type : string) : schema :=
  if String.eqb submission_type "mess_waste"
  then mess_waste_submissions_columns else hostel_waste_submissions_columns.

Definition edit_columns_of_type (submission_type : string) : list string :=
  if String.eqb submission_type "mess_waste"
  then mess_edit_columns else hostel_edit_columns.

(** ** Strings as Python handles them *)

(** [s.split(sep, 1)] for a one-character separator: the parts before and
    after its first occurrence, if it occurs. *)
Fixpoint split_once (sep : ascii) (s : string) : option (string * string) :=
  match s with
  | EmptyString => None
  | String a rest =>
      if Ascii.eqb a sep then Some (EmptyString, rest)
      else match split_once sep rest with
           | Some (before, after) => Some (String a before, after)
           | None => None
           end
  end.

(** [s.rsplit(sep, 1)]: the parts before and after the last occurrence. *)
Fixpoint rsplit_once (sep : ascii) (s : string) : option (string * string) :=
  match s with
  | EmptyString => None
  | String a rest =>
      match rsplit_once sep rest with
      | Some (before, after) => Some (String a before, after)
      | None => if Ascii.eqb a sep then Some (EmptyString, rest) else None
      end
  end.

(** [c in s] for a character. *)
Fixpoint has_char (c : ascii) (s : string) : bool :=
  match s with
  | EmptyString => false
  | String a rest => Ascii.eqb a c || has_char c rest
  end.

(** [s.replace(a, b)] for one-character [a] and [b]. *)
Fixpoint replace_char (a b : ascii) (s : string) : string :=
  match s with
  | EmptyString => EmptyString
  | String c rest =>
      String (if Ascii.eqb c a then b else c) (replace_char a b rest)
  end.

(** [s.startswith(p)] *)
Definition startswith (p s : string) : bool := String.prefix p s.

(** [old in s] *)
Fixpoint contains (old s : string) : bool :=
  match s with
  | EmptyString => String.prefix old EmptyString
  | String _ rest => String.prefix old s || contains old rest
  end.

(** [s.replace(old, new)] for a non-empty [old]: occurrences are replaced
    from the left and do not overlap.  [skip] counts the characters of a
    replaced occurrence still to be passed over. *)
Fixpoint replace_from (old new : string) (skip : nat) (s : string) : string :=
  match s with
  | EmptyString => EmptyString
  | String c rest =>
      match skip with
      | S n => replace_from old new n rest
      | O =>
          if String.prefix old s
          then new ++ replace_from old new (String.length old - 1) rest
          else String c (replace_from old new 0 rest)
      end
  end.

Definition replace (old new s : string) : string := replace_from old new 0 s.

(** ** Hostel codes *)

Definition get_hostel_from_username (username : string) : string :=
  if startswith "pho_supervisor_" username then
    let hostel_part := replace "pho_supervisor_" "" username in
    replace_char "_" "-" hostel_part
  else "".

(** ** Keys of the pending list *)

(** The keys [load_pending_data_for_pho] groups the pending records
    under, for a text hostel and the text of the date. *)
Definition mess_waste_key (hostel date_str : string) : string :=
  hostel ++ "_" ++ date_str ++ "_mess_waste".

Definition hostel_waste_key (hostel date_str : string) : string :=
  hostel ++ "_" ++ date_str ++ "_hostel_waste".

(** How [show_pho_dashboard] takes a key apart: the hostel, the date text
    and the waste type.  [None] stands for the [IndexError] of reading
    part 1 of a split that found no separator. *)
Definition parse_pending_key (key : string)
    : option (string * string * string) :=
  match rsplit_once "_" key with
  | None => None
  | Some (hostel_date, waste_type) =>
      match split_once "_" hostel_date with
      | None => None
      | Some (hostel, date_str) => Some (hostel, date_str, waste_type)
      end
  end.

(** ** The browser session ([st.session_state]) *)

Inductive sval : Type :=
| SNone
| SBool (b : bool)
| SNum (q : Q)
| SStr (s : string)
| SDict (d : pydict)              (* a form draft, a record *)
| SRecords (l : list pydict).     (* a list of records *)

Abbreviation session := (gmap string sval).

(** Python's truth value. *)
Definition truthy (v : sval) : bool :=
  match v with
  | SNone => false
  | SBool b => b
  | SNum q => negb (Qeq_bool q 0)
  | SStr s => negb (String.eqb s "")
  | SDict d => negb (Nat.eqb (size d) 0)
  | SRecords l => negb (Nat.eqb (length l) 0)
  end.

(** [st.session_state.get(k)] *)
Definition session_get (s : session) (k : string) : sval :=
  match s !! k with Some v => v | None => SNone end.

Definition SESSION_TIMEOUT : Q := 3600.

Definition session_defaults : list (string * sval) :=
  [("authentication_status", SNone); ("username", SNone); ("name", SNone);
   ("role", SNone); ("login_time", SNone); ("last_activity", SNone);
   ("mess_form_data", SDict ∅); ("waste_form_data", SDict ∅);
   ("session_token", SNone); ("persistent_auth", SNone);
   ("persistent_username", SNone); ("persistent_name", SNone);
   ("persistent_role", SNone); ("edit_record", SNone); ("edit_key", SNone);
   ("verify_record", SNone); ("verify_key", SNone);
   ("show_waste_details", SNone); ("waste_details_key", SNone)].

Definition init_session_state (s : session) : session :=
  fold_left (fun s kv => match s !! fst kv with
                         | Some _ => s
                         | None => <[fst kv := snd kv]> s
                         end) session_defaults s.

(** One [if k in st.session_state and st.session_state.k: target = ...]. *)
Definition preserve (persistent target : string) (s : session) : session :=
  match s !! persistent with
  | Some v => if truthy v then <[target := v]> s else s
  | None => s
  end.

Definition preserve_session_state (s : session) : session :=
  preserve "persistent_role" "role"
    (preserve "persistent_name" "name"
       (preserve "persistent_username" "username"
          (preserve "persistent_auth" "authentication_status" s))).

(** [time.time() - last_activity]: a [bool] counts as 0 or 1, anything
    else that is not a number raises [TypeError]. *)
Definition seconds_of (v : sval) : res Q :=
  match v with
  | SNum q => Ok q
  | SBool b => Ok (if b then 1%Q else 0%Q)
  | _ => Raise TypeError
  end.

Definition is_session_active (now : Q) (s : session) : res bool :=
  match session_get s "last_activity" with
  | SNone => Ok false
  | v => t <- seconds_of v ;;
         Ok (negb (Qle_bool SESSION_TIMEOUT (now - t)))
  end.

Definition update_activity_time (now : Q) (s : session) : session :=
  <["last_activity" := SNum now]> s.

Definition keys_to_clear : list string :=
  ["authentication_status"; "username"; "name"; "role"; "login_time";
   "last_activity"; "session_token"; "persistent_auth";
   "persistent_username"; "persistent_name"; "persistent_role"].

Definition clear_session_state (s : session) : session :=
  fold_left (fun s key => delete key s) keys_to_clear s.

(** [check_session_validity]: [now] is the first reading of [time.time()],
    [later] the second one, taken when an active session is refreshed.
    The flag tells whether the run ended in [st.rerun()]. *)
Definition check_session_validity (now later : Q) (s : session)
    : res (bool * session) :=
  let s := preserve_session_state s in
  if truthy (session_get s "authentication_status") then
    match session_get s "last_activity" with
    | SNone => Ok (false, update_activity_time now s)
    | _ =>
        active <- is_session_active now s ;;
        if negb active then Ok (true, clear_session_state s)
        else Ok (false, update_activity_time later s)
    end
  else Ok (false, s).

Definition save_form_data (form_key : string) (data : sval) (s : session)
    : session :=
  <[form_key := data]> s.

Definition load_form_data (form_key : string) (default : sval) (s : session)
    : sval :=
  match s !! form_key with
  | Some v => v
  | None => match default with SNone => SDict ∅ | d => d end
  end.

Definition clear_form_data (form_key : string) (s : session) : session :=
  delete form_key s.

(** ** Intake ([save_mess_waste_data], [save_hostel_waste_data]) *)

(** What a new submission gets in the columns the [INSERT] does not
    name: [submitted_at] its [DEFAULT CURRENT_TIMESTAMP], [status] its
    [DEFAULT 'pending'], the verifier's columns NULL. *)
Definition submission_defaults (now : string) : pydict :=
  list_to_map
    [("submitted_at", PDate now); ("status", PStr "pending");
     ("verified_by", PNone); ("verified_at", PNone)].

(** The columns of a submission declared [NOT NULL]. *)
Definition not_null_columns : list string :=
  ["submission_id"; "submission_date"; "hostel"; "submitted_by"].

Definition is_null (row : pydict) (c : string) : bool :=
  match row !! c with
  | Some PNone | None => true
  | Some _ => false
  end.

(** [INSERT INTO <submissions> (columns) VALUES (...)]: the table with
    the new row, unless a [NOT NULL] column is left empty or the
    [submission_id] is taken ([UNIQUE]). *)
Definition insert_submission (sch : schema) (values : cells) (now : string)
    (tbl : gmap string pydict) : res (gmap string pydict) :=
  stored <- store_row sch values ;;
  let row : pydict := list_to_map stored ∪ submission_defaults now in
  if existsb (is_null row) not_null_columns then Raise DatabaseError
  else
    match row !! "submission_id" with
    | Some (PStr sid) =>
        match tbl !! sid with
        | None => Ok (<[sid := row]> tbl)
        | Some _ => Raise DatabaseError
        end
    | _ => Raise DatabaseError
    end.

Definition mess_intake_columns : list string :=
  ["submission_date"; "hostel";
   "breakfast_students"; "breakfast_student_waste";
   "breakfast_counter_waste"; "breakfast_vegetable_peels";
   "lunch_students"; "lunch_student_waste";
   "lunch_counter_waste"; "lunch_vegetable_peels";
   "snacks_students"; "snacks_student_waste";
   "snacks_counter_waste"; "snacks_vegetable_peels";
   "dinner_students"; "dinner_student_waste";
   "dinner_counter_waste"; "dinner_vegetable_peels";
   "mess_dry_waste"; "total_students"; "total_mess_waste"; "remarks"].

Definition hostel_intake_columns : list string :=
  ["submission_date"; "hostel"; "dry_waste"; "wet_waste"; "e_waste";
   "biomedical_waste"; "hazardous_waste"; "total_waste"; "remarks"].

(** The parameters of the [INSERT]; [seconds] is [int(time.time())], so
    that [submission_id = str(int(time.time()))] is its decimal text. *)
Definition intake_values (columns : list string) (username : string)
    (data : pydict) (seconds : Z) : res cells :=
  let submission_id := pretty seconds in
  fields <- dict_items data columns ;;
  Ok (("submission_id", PStr submission_id)
      :: fields
      ++ [("image_paths", dict_get data "image_paths" (PStr ""));
          ("submitted_by", PStr username)])%list.

Definition save_mess_waste_data (username : string) (data : pydict)
    (seconds : Z) (w : world) : bool * world :=
  let (conn, w1) := get_db_connection w in
  if conn then
    match (values <- intake_values mess_intake_columns username data seconds ;;
           insert_submission mess_waste_submissions_columns values (clock w1)
             (mess_waste_submissions (db w1)))
    with
    | Ok tbl => (true, commit (on_mess_submissions (fun _ => tbl)) w1)
    | Raise _ => (false, w1)
    end
  else (false, w1).

Definition save_hostel_waste_data (username : string) (data : pydict)
    (seconds : Z) (w : world) : bool * world :=
  let (conn, w1) := get_db_connection w in
  if conn then
    match (values <- intake_values hostel_intake_columns username data
                       seconds ;;
           insert_submission hostel_waste_submissions_columns values
             (clock w1) (hostel_waste_submissions (db w1)))
    with
    | Ok tbl => (true, commit (on_hostel_submissions (fun _ => tbl)) w1)
    | Raise _ => (false, w1)
    end
  else (false, w1).

(** ** Users *)

(** A row of [users] without its [id] and [created_at]; the table is
    keyed by [username] (UNIQUE). *)
Record user : Type := User {
  full_name : string;
  password_hash : string;
  role : string
}.

Abbreviation users_table := (gmap string user).

(** The table [users] is kept beside the [database] of the submissions:
    a function that may write it returns its value, the table and the
    world. *)
Record outcome (A : Type) : Type := Outcome {
  returned : A;
  users_after : users_table;
  world_after : world
}.

Arguments Outcome {A} returned users_after world_after.
Arguments returned {A} o.
Arguments users_after {A} o.
Arguments world_after {A} o.

(** [CHECK (role IN ('admin', 'pho_supervisor', 'pho'))] *)
Definition user_roles : list string := ["admin"; "pho_supervisor"; "pho"].

(** [INSERT INTO users (username, name, password_hash, role)] *)
Definition insert_user (username name hash role : string)
    (users : users_table) : res users_table :=
  if ((String.length username <=? 50) && (String.length name <=? 100)
      && (String.length hash <=? 255) && (String.length role <=? 20))%nat
  then
    if bool_decide (role ∈ user_roles) then
      match users !! username with
      | None => Ok (<[username := User name hash role]> users)
      | Some _ => Raise DatabaseError
      end
    else Raise DatabaseError
  else Raise DatabaseError.

Section Bcrypt.

(** [bcrypt.hashpw(password, salt)] as text, and [bcrypt.checkpw]; a
    stored text that is no hash makes [checkpw] raise, which
    [verify_password] turns into [False]: [checkpw] is [false] there. *)
Variable hashpw : string -> string -> string.
Variable checkpw : string -> string -> bool.

(** [salt] is what [bcrypt.gensalt()] returns. *)
Definition add_user (username name password role salt : string)
    (users : users_table) (w : world) : outcome bool :=
  let (conn, w1) := get_db_connection w in
  if conn then
    match insert_user username name (hashpw password salt) role users with
    | Ok users' => Outcome true users' w1
    | Raise _ => Outcome false users w1
    end
  else Outcome false users w1.

Definition create_default_admin (salt : string) (users : users_table)
    (w : world) : outcome bool :=
  let (conn, w1) := get_db_connection w in
  if conn then
    match users !! "admin" with
    | None =>
        match insert_user "admin" "Administrator" (hashpw "admin123" salt)
                "admin" users with
        | Ok users' => Outcome true users' w1
        | Raise _ => Outcome false users w1
        end
    | Some _ => Outcome true users w1
    end
  else Outcome false users w1.

Definition verify_password (username password : string)
    (users : users_table) (w : world) : bool * world :=
  let (conn, w1) := get_db_connection w in
  if conn then
    match users !! username with
    | Some result => (checkpw password (password_hash result), w1)
    | None => (false, w1)
    end
  else (false, w1).

End Bcrypt.

Definition get_user_role (username : string) (users : users_table)
    (w : world) : string * world :=
  let (conn, w1) := get_db_connection w in
  if conn then
    match users !! username with
    | Some result => (role result, w1)
    | None => ("", w1)
    end
  else ("", w1).

Definition get_user_name (username : string) (users : users_table)
    (w : world) : string * world :=
  let (conn, w1) := get_db_connection w in
  if conn then
    match users !! username with
    | Some result => (full_name result, w1)
    | None => ("", w1)
    end
  else ("", w1).

Definition delete_user (username : string) (users : users_table)
    (w : world) : outcome bool :=
  let (conn, w1) := get_db_connection w in
  if conn then Outcome true (delete username users) w1
  else Outcome false users w1.

(** The rows of [SELECT username, name, role FROM users ORDER BY
    username], each with its [username].  The order is that of the
    database's collation, which is not modelled: the rows come in the
    order of [map_to_list], and nothing below depends on it. *)
Definition get_all_users (users : users_table) (w : world)
    : list (string * user) * world :=
  let (conn, w1) := get_db_connection w in
  if conn then (map_to_list users, w1) else ([], w1).

(** ** The list of hostels *)

(** Python's order of [str], by code point. *)
Definition string_le (a b : string) : Prop := String.leb a b = true.

#[global] Instance string_le_dec : RelDecision string_le.
Proof. intros a b. unfold string_le. apply _. Defined.

(** [sorted(list(hostels))] *)
Definition sorted (hostels : gset string) : list string :=
  merge_sort string_le (elements hostels).

Definition default_hostels : list string :=
  ["2"; "10"; "12-13-14"; "11"; "18"].

(** One turn of the loop over the users. *)
Definition add_hostel (hostels : gset string) (u : string * user)
    : gset string :=
  if String.eqb (role (snd u)) "pho_supervisor" then
    let hostel := get_hostel_from_username (fst u) in
    if negb (String.eqb hostel "") then {[hostel]} ∪ hostels else hostels
  else hostels.

Definition get_dynamic_hostels (users : users_table) (w : world)
    : list string * world :=
  let (rows, w1) := get_all_users users w in
  let hostels := fold_left add_hostel rows ∅ in
  (if decide (hostels = ∅) then default_hostels else sorted hostels, w1).

(** A hostel that has a supervisor: the code of some user of role
    [pho_supervisor], when it is not empty. *)
Definition supervised_hostel (users : users_table) (h : string) : Prop :=
  exists username u,
    users !! username = Some u /\ role u = "pho_supervisor"
    /\ get_hostel_from_username username = h /\ h <> "".

(** ** More sample submissions *)

Module Sample2.

(** One kilogram of student waste for three students. *)
Definition small_mess_record : pydict :=
  list_to_map
    [("submission_id", PStr "mess_11_20240112");
     ("submission_date", PDate "2024-01-12"); ("hostel", PStr "11");
     ("breakfast_students", PNum 3); ("breakfast_student_waste", PNum 1);
     ("status", PStr "pending")].

Definition small_mess_totals : mess_totals :=
  MessTotalsOf (PNum 3) (PNum 1) (PNum 1) (PNum (1 / 3)) (PNum (1 / 3)).

(** A hostel collection nobody stored. *)
Definition stray_collection : pydict :=
  list_to_map
    [("submission_id", PStr "hostel_18_20240112");
     ("submission_date", PDate "2024-01-12"); ("hostel", PStr "18");
     ("dry_waste", PNum 4); ("total_waste", PNum 4)].

(** A hostel collection whose wet waste is NULL. *)
Definition collection_with_null : pydict :=
  list_to_map
    [("submission_id", PStr "hostel_10_20240112");
     ("submission_date", PDate "2024-01-12"); ("hostel", PStr "10");
     ("dry_waste", PNum 4); ("wet_waste", PNone);
     ("status", PStr "pending")].

Definition world_with_null : world :=
  World (Database ∅ (list_to_map [("hostel_10_20240112", collection_with_null)])
           ∅ [])
    [] "2024-01-12 18:00:00".

(** The forms as the supervisor of hostel 2 fills them in. *)
Definition mess_form : pydict := <["remarks" := PStr ""]> Sample.mess_record.

Definition collection_form : pydict :=
  <["remarks" := PStr "morning round"]> Sample.collection_1.

(** A supervisor who was last active at second 1000, with a draft. *)
Definition logged_in_session : session :=
  list_to_map
    [("authentication_status", SBool true);
     ("username", SStr "pho_supervisor_2"); ("role", SStr "pho_supervisor");
     ("last_activity", SNum 1000); ("mess_form_data", SDict mess_form)].

(** A stand-in for bcrypt: the hash is the password followed by the
    salt, and a password is checked against the start of the hash. *)
Definition toy_hashpw (password salt : string) : string := password ++ salt.

Definition toy_checkpw (password hash : string) : bool :=
  String.prefix password hash.

Definition sample_users : users_table :=
  list_to_map
    [("admin", User "Administrator" "admin123s0" "admin");
     ("pho_supervisor_2", User "Ravi" "twos1" "pho_supervisor");
     ("pho_supervisor_12_13_14", User "Meena" "threes2" "pho_supervisor");
     ("pho_1", User "Officer" "phos3" "pho")].

Definition sample_users_added : users_table :=
  users_after
    (add_user toy_hashpw "pho_supervisor_11" "Asha" "secret" "pho_supervisor"
       "s4" sample_users Sample.world_up).

(** The submissions of [Sample] as rows of their tables: the date and the
    timestamp of submission are date objects, as the cursor returns
    them, and the columns the sample leaves out are there. *)
Definition as_stored (record : pydict) : pydict :=
  <["submission_date" := PDate "2024-01-10"]> record
  ∪ list_to_map
      [("remarks", PStr ""); ("image_paths", PStr "");
       ("submitted_by", PStr "pho_supervisor_2");
       ("submitted_at", PDate "2024-01-10 20:15:00");
       ("verified_by", PNone); ("verified_at", PNone)].

Definition stored_mess_row : pydict := as_stored Sample.mess_record.
Definition stored_collection_1 : pydict := as_stored Sample.collection_1.
Definition stored_collection_2 : pydict := as_stored Sample.collection_2.


Definition loaded_collection_1 : pydict :=
  <["data_type" := PStr "hostel_waste"]> stored_collection_1.

Definition loaded_collection_2 : pydict :=
  <["data_type" := PStr "hostel_waste"]> stored_collection_2.

(** A third collection of that day, whose wet waste is NULL. *)
Definition loaded_collection_3 : pydict :=
  <["submission_id" := PStr "hostel_2_20240110_3"]>
    (<["wet_waste" := PNone]> loaded_collection_2).

Definition stored_db : database :=
  Database
    (list_to_map [("mess_2_20240110", stored_mess_row)])
    (list_to_map [("hostel_2_20240110_1", stored_collection_1);
                  ("hostel_2_20240110_2", stored_collection_2)])
    ∅ [].

Definition world_stored : world :=
  World stored_db [] "2024-01-11 09:00:00".



End Sample2.

(** * Properties *)

(** ** Arithmetic of the derived totals *)

Lemma numeric_field_get (data : pydict) (k : string) :
  numeric_field data k ->
  dict_get data k (PNum 0) = PNum (field_num data k).
Proof.
  unfold numeric_field, field_num.
  destruct (dict_get data k (PNum 0)); simpl; congruence.
Qed.

Lemma radd_num (x y : Q) : Ok (PNum x) .+ PNum y = Ok (PNum (x + y)).
Proof. reflexivity. Qed.

(** Solves [In k l] for a literal key and a closed list of keys. *)
Ltac in_fields := simpl; repeat (first [left; reflexivity | right]).

(** Replaces the reads of the listed fields by the numbers they hold. *)
Ltac read_fields data H :=
  repeat match goal with
  | |- context [dict_get data ?k (PNum 0)] =>
      rewrite (numeric_field_get data k) by (apply H; in_fields)
  end.

Lemma total_mess_waste_numeric (data : pydict) :
  (forall k, In k waste_component_fields -> numeric_field data k) ->
  total_mess_waste_of data =
    Ok (PNum (qsum_left (map (field_num data) waste_component_fields)))
  /\ total_mess_waste_no_peels_of data =
    Ok (PNum (qsum_left (map (field_num data) non_peel_fields))).
Proof.
  intros H. unfold total_mess_waste_of, total_mess_waste_no_peels_of.
  read_fields data H. split; reflexivity.
Qed.

Lemma fold_left_Qplus (l : list Q) (x : Q) :
  (fold_left Qplus l x == x + qsum l)%Q.
Proof.
  revert x. induction l as [|y l IH]; intros x; simpl.
  - ring.
  - rewrite IH. ring.
Qed.

Lemma qsum_left_qsum (l : list Q) : (qsum_left l == qsum l)%Q.
Proof.
  destruct l as [|x l]; simpl; [reflexivity | apply fold_left_Qplus].
Qed.

Lemma qsum_without_peels (f : string -> Q) :
  (forall k, In k vegetable_peel_fields -> 0 <= f k)%Q ->
  (qsum (map f non_peel_fields) <= qsum (map f waste_component_fields))%Q.
Proof.
  intros H.
  assert (H1 := H "breakfast_vegetable_peels" ltac:(in_fields)).
  assert (H2 := H "lunch_vegetable_peels" ltac:(in_fields)).
  assert (H3 := H "snacks_vegetable_peels" ltac:(in_fields)).
  assert (H4 := H "dinner_vegetable_peels" ltac:(in_fields)).
  change non_peel_fields with
    ["breakfast_student_waste"; "breakfast_counter_waste";
     "lunch_student_waste"; "lunch_counter_waste";
     "snacks_student_waste"; "snacks_counter_waste";
     "dinner_student_waste"; "dinner_counter_waste"; "mess_dry_waste"].
  change waste_component_fields with
    ["breakfast_student_waste"; "breakfast_counter_waste";
     "breakfast_vegetable_peels";
     "lunch_student_waste"; "lunch_counter_waste"; "lunch_vegetable_peels";
     "snacks_student_waste"; "snacks_counter_waste"; "snacks_vegetable_peels";
     "dinner_student_waste"; "dinner_counter_waste"; "dinner_vegetable_peels";
     "mess_dry_waste"].
  cbn [map qsum fold_right].
  lra.
Qed.

(** C7. For a mess submission whose 13 waste-component fields hold
    numbers (an absent field counting as 0), [add_to_master_file_mess]
    computes [total_mess_waste] as the sum of the 13 fields and
    [total_mess_waste_no_peels] as the sum of the 9 fields that are not
    vegetable peels; when the peel fields are non-negative the second
    is at most the first. *)
Theorem total_mess_waste_is_component_sum (data : pydict) :
  (forall k, In k waste_component_fields -> numeric_field data k) ->
  exists t n : Q,
    total_mess_waste_of data = Ok (PNum t)
    /\ total_mess_waste_no_peels_of data = Ok (PNum n)
    /\ (t == qsum (map (field_num data) waste_component_fields))%Q
    /\ (n == qsum (map (field_num data) non_peel_fields))%Q
    /\ length waste_component_fields = 13%nat
    /\ length non_peel_fields = 9%nat
    /\ ((forall k, In k waste_component_fields -> 0 <= field_num data k)%Q ->
        (n <= t)%Q).
Proof.
  intros H. destruct (total_mess_waste_numeric data H) as [Ht Hn].
  eexists _, _. split; [exact Ht|]. split; [exact Hn|].
  split; [apply qsum_left_qsum|]. split; [apply qsum_left_qsum|].
  split; [reflexivity|]. split; [reflexivity|].
  intros Hpos. rewrite !qsum_left_qsum. apply qsum_without_peels.
  intros k Hk. apply Hpos. revert Hk. simpl. intuition (subst; in_fields).
Qed.

Lemma radd_raises_type_error (acc : res pyval) (b : pyval) :
  (forall e, acc = Raise e -> e = TypeError) ->
  forall e, acc .+ b = Raise e -> e = TypeError.
Proof.
  intros Hacc e. destruct acc as [a|e']; simpl.
  - destruct a, b; simpl; congruence.
  - intros [= <-]. now apply Hacc.
Qed.

Ltac sum_raises :=
  repeat (apply radd_raises_type_error); intros ? ?; discriminate.

Lemma per_capita_raises_type_error (total students : pyval) (e : pyexc) :
  per_capita total students = Raise e -> e = TypeError.
Proof.
  unfold per_capita. destruct students as [s| | |]; simpl; try congruence.
  destruct (Qle_bool s 0) eqn:Hs; simpl; [congruence|].
  destruct total as [t| | |]; simpl; try congruence.
  destruct (Qeq_bool s 0) eqn:Hz; [|congruence].
  apply Qeq_bool_iff in Hz.
  assert (Qle_bool s 0 = true) by (apply Qle_bool_iff; rewrite Hz; apply Qle_refl).
  congruence.
Qed.

Lemma mess_derived_raises_type_error (data : pydict) (e : pyexc) :
  mess_derived data = Raise e -> e = TypeError.
Proof.
  unfold mess_derived.
  destruct (total_students_of data) as [s|e1] eqn:Hs; simpl.
  2:{ intros [= <-]. revert Hs. unfold total_students_of. sum_raises. }
  destruct (total_mess_waste_of data) as [t|e1] eqn:Ht; simpl.
  2:{ intros [= <-]. revert Ht. unfold total_mess_waste_of. sum_raises. }
  destruct (total_mess_waste_no_peels_of data) as [n|e1] eqn:Hn; simpl.
  2:{ intros [= <-]. revert Hn. unfold total_mess_waste_no_peels_of.
      sum_raises. }
  destruct (per_capita t s) as [pc|e1] eqn:Hpc; simpl.
  2:{ intros [= <-]. eapply per_capita_raises_type_error; eauto. }
  destruct (per_capita n s) as [pcn|e1] eqn:Hpcn; simpl; [discriminate|].
  intros [= <-]. eapply per_capita_raises_type_error; eauto.
Qed.

Lemma per_capita_positive (t s : Q) :
  (0 < s)%Q -> per_capita (PNum t) (PNum s) = Ok (PNum (t / s)).
Proof.
  intros Hs. unfold per_capita. simpl.
  destruct (Qle_bool s 0) eqn:Hle.
  - apply Qle_bool_iff in Hle. lra.
  - simpl. destruct (Qeq_bool s 0) eqn:Hz; [|reflexivity].
    apply Qeq_bool_iff in Hz. lra.
Qed.

Lemma per_capita_not_positive (total : pyval) (s : Q) :
  (s <= 0)%Q -> per_capita total (PNum s) = Ok (PNum 0).
Proof.
  intros Hs. unfold per_capita. simpl.
  apply Qle_bool_iff in Hs. now rewrite Hs.
Qed.

Lemma total_students_numeric (data : pydict) :
  (forall k, In k student_count_fields -> numeric_field data k) ->
  total_students_of data =
    Ok (PNum (qsum_left (map (field_num data) student_count_fields))).
Proof.
  intros H. unfold total_students_of. read_fields data H. reflexivity.
Qed.

(** C6. The derived totals of a mess submission never raise
    [ZeroDivisionError]; when the student counts and the waste
    components hold numbers they are computed, the two per-capita
    figures being the totals divided by [total_students] when it is
    positive and exactly 0 when it is 0 (or negative). *)
Theorem per_capita_guards_zero_students (data : pydict) :
  mess_derived data <> Raise ZeroDivisionError
  /\ ((forall k, In k (student_count_fields ++ waste_component_fields) ->
                 numeric_field data k) ->
      exists s t n pc pcn : Q,
        total_students_of data = Ok (PNum s)
        /\ total_mess_waste_of data = Ok (PNum t)
        /\ total_mess_waste_no_peels_of data = Ok (PNum n)
        /\ mess_derived data =
             Ok (MessTotalsOf (PNum s) (PNum t) (PNum n) (PNum pc) (PNum pcn))
        /\ ((0 < s)%Q -> pc = (t / s)%Q /\ pcn = (n / s)%Q)
        /\ ((s == 0)%Q -> pc = 0%Q /\ pcn = 0%Q)
        /\ ((s < 0)%Q -> pc = 0%Q /\ pcn = 0%Q)).
Proof.
  split.
  { intros H. apply mess_derived_raises_type_error in H. discriminate. }
  intros H.
  assert (Hs : forall k, In k student_count_fields -> numeric_field data k)
    by (intros k Hk; apply H, in_or_app; now left).
  assert (Hw : forall k, In k waste_component_fields -> numeric_field data k)
    by (intros k Hk; apply H, in_or_app; now right).
  pose proof (total_students_numeric data Hs) as Es.
  destruct (total_mess_waste_numeric data Hw) as [Et En].
  set (s := qsum_left (map (field_num data) student_count_fields)) in *.
  set (t := qsum_left (map (field_num data) waste_component_fields)) in *.
  set (n := qsum_left (map (field_num data) non_peel_fields)) in *.
  unfold mess_derived. rewrite Es, Et, En. cbn [bind].
  destruct (Qlt_le_dec 0 s) as [Hpos|Hle].
  - rewrite !per_capita_positive by assumption. cbn [bind].
    exists s, t, n, (t / s)%Q, (n / s)%Q.
    repeat split; try reflexivity; intros; lra.
  - rewrite !per_capita_not_positive by assumption. cbn [bind].
    exists s, t, n, 0%Q, 0%Q.
    repeat split; try reflexivity; intros; lra.
Qed.

(** ** The master upsert: frame and idempotence *)

Lemma get_db_connection_up (w : world) :
  connects w = [] -> get_db_connection w = (true, w).
Proof. unfold get_db_connection. now intros ->. Qed.

Lemma store_row_keys (sch : schema) (cols stored : cells) :
  store_row sch cols = Ok stored -> stored.*1 = cols.*1.
Proof.
  revert stored. induction cols as [|[c v] rest IH]; intros stored; simpl.
  - now intros [= <-].
  - destruct (column_type sch c) as [ty|]; [|discriminate].
    destruct (sql_store ty v) as [cell|]; [|discriminate]. simpl.
    destruct (store_row sch rest) as [st|]; [|discriminate]. simpl.
    intros [= <-]. simpl. f_equal. now apply IH.
Qed.

Lemma lookup_set_from_excluded (ex : pydict) (cols : list string)
    (row : pydict) (c : string) :
  set_from_excluded ex cols row !! c =
    if decide (c ∈ cols)
    then match ex !! c with Some v => Some v | None => row !! c end
    else row !! c.
Proof.
  induction cols as [|a l IH].
  - simpl. destruct (decide (c ∈ [])) as [H|]; [|reflexivity].
    now apply elem_of_nil in H.
  - destruct (decide (a = c)) as [->|Hne].
    + simpl. destruct (decide (c ∈ c :: l)) as [_|H]; [|set_solver].
      destruct (ex !! c) as [v|] eqn:E.
      * now rewrite lookup_insert_eq.
      * rewrite IH. now destruct (decide (c ∈ l)); rewrite ?E.
    + assert (set_from_excluded ex (a :: l) row !! c
              = set_from_excluded ex l row !! c) as ->.
      { simpl. destruct (ex !! a); [now rewrite lookup_insert_ne|reflexivity]. }
      rewrite IH.
      destruct (decide (c ∈ l)) as [H1|H1], (decide (c ∈ a :: l)) as [H2|H2];
        try reflexivity; exfalso; rewrite elem_of_cons in H2;
        intuition congruence.
Qed.

Lemma set_from_excluded_idem (ex : pydict) (cols : list string)
    (row : pydict) :
  set_from_excluded ex cols (set_from_excluded ex cols row)
  = set_from_excluded ex cols row.
Proof.
  apply map_eq. intros c. rewrite !lookup_set_from_excluded.
  destruct (decide (c ∈ cols)); [|reflexivity].
  now destruct (ex !! c).
Qed.

Lemma set_from_excluded_inserted (ex : pydict) (cols : list string) :
  set_from_excluded ex cols (ex ∪ master_defaults) = ex ∪ master_defaults.
Proof.
  apply map_eq. intros c. rewrite lookup_set_from_excluded.
  destruct (decide (c ∈ cols)); [|reflexivity].
  destruct (ex !! c) as [v|] eqn:E; [|reflexivity].
  symmetry. now apply lookup_union_Some_l.
Qed.

Lemma upsert_row_idem (key : string * string) (ex : pydict)
    (cols : list string) (tbl : gmap (string * string) pydict) :
  upsert_row key ex cols (upsert_row key ex cols tbl)
  = upsert_row key ex cols tbl.
Proof.
  unfold upsert_row. destruct (tbl !! key) as [row|] eqn:E;
    rewrite lookup_insert_eq, insert_insert_eq.
  - now rewrite set_from_excluded_idem.
  - now rewrite set_from_excluded_inserted.
Qed.

Lemma upsert_row_other (key key' : string * string) (ex : pydict)
    (cols : list string) (tbl : gmap (string * string) pydict) :
  key <> key' -> upsert_row key ex cols tbl !! key' = tbl !! key'.
Proof.
  intros Hne. unfold upsert_row.
  destruct (tbl !! key); now rewrite lookup_insert_ne.
Qed.

Lemma upsert_row_existing (key : string * string) (ex : pydict)
    (cols : list string) (tbl : gmap (string * string) pydict) (row : pydict) :
  tbl !! key = Some row ->
  upsert_row key ex cols tbl !! key = Some (set_from_excluded ex cols row).
Proof. intros E. unfold upsert_row. rewrite E. apply lookup_insert_eq. Qed.

Lemma upsert_row_new (key : string * string) (ex : pydict)
    (cols : list string) (tbl : gmap (string * string) pydict) :
  tbl !! key = None ->
  upsert_row key ex cols tbl !! key = Some (ex ∪ master_defaults).
Proof. intros E. unfold upsert_row. rewrite E. apply lookup_insert_eq. Qed.

Lemma upsert_master_inv (values : cells) (cols : list string) (ch : change) :
  upsert_master values cols = Ok ch ->
  exists stored d h,
    store_row master_waste_data_columns values = Ok stored
    /\ (list_to_map stored : pydict) !! "date" = Some (PDate d)
    /\ (list_to_map stored : pydict) !! "hostel" = Some (PStr h)
    /\ ch = on_master (upsert_row (d, h) (list_to_map stored) cols).
Proof.
  unfold upsert_master.
  destruct (store_row master_waste_data_columns values) as [stored|];
    [|discriminate]. cbn [bind].
  destruct (_ !! "date") as [[| |d|]|] eqn:Ed; try discriminate.
  destruct (_ !! "hostel") as [[|h| |]|] eqn:Eh; try discriminate.
  intros [= <-]. now exists stored, d, h.
Qed.

Lemma add_to_master_file_mess_run (data : pydict) (w : world) :
  add_to_master_file_mess data w = run_statement (mess_statement data) w.
Proof. reflexivity. Qed.

Lemma add_to_master_file_hostel_run (data : pydict) (w : world) :
  add_to_master_file_hostel data w = run_statement (hostel_statement data) w.
Proof. reflexivity. Qed.

Lemma run_statement_cases (stmt : res change) (w : world) :
  db (run_statement stmt w) = db w
  \/ exists c, stmt = Ok c /\ db (run_statement stmt w) = c (db w).
Proof.
  unfold run_statement, get_db_connection.
  destruct (connects w) as [|[] later]; simpl; auto;
    destruct stmt as [c|]; simpl; eauto.
Qed.

Lemma run_statement_up (stmt : res change) (w : world) :
  connects w = [] ->
  run_statement stmt w
  = match stmt with Ok c => commit c w | Raise _ => w end.
Proof.
  intros H. unfold run_statement. now rewrite get_db_connection_up.
Qed.

Lemma upsert_frame (values : cells) (cols : list string) (ch : change)
    (d : database) (key : string * string) :
  upsert_master values cols = Ok ch ->
  (forall row, master_waste_data d !! key = Some row ->
     exists row', master_waste_data (ch d) !! key = Some row'
       /\ forall c, c ∉ cols -> row' !! c = row !! c)
  /\ (master_waste_data d !! key = None ->
      forall row', master_waste_data (ch d) !! key = Some row' ->
      forall c, c ∉ values.*1 -> row' !! c = master_defaults !! c).
Proof.
  intros H. apply upsert_master_inv in H as (st & dt & h & Hst & _ & _ & ->).
  apply store_row_keys in Hst. simpl.
  destruct (decide ((dt, h) = key)) as [<-|Hne].
  - split.
    + intros row E. rewrite (upsert_row_existing _ _ _ _ _ E).
      eexists; split; [reflexivity|]. intros c Hc.
      rewrite lookup_set_from_excluded. now destruct (decide (c ∈ cols)).
    + intros E row'. rewrite (upsert_row_new _ _ _ _ E). intros [= <-] c Hc.
      apply lookup_union_r, not_elem_of_list_to_map_1. now rewrite Hst.
  - split.
    + intros row E. rewrite upsert_row_other by assumption. eauto.
    + intros E row'. rewrite upsert_row_other by assumption. congruence.
Qed.

Lemma mess_update_columns_group (c : string) :
  c ∈ mess_update_columns -> In c mess_group.
Proof.
  intros H. apply list_elem_of_In in H. revert H.
  simpl. intuition (subst; in_fields).
Qed.

Lemma hostel_update_columns_group (c : string) :
  c ∈ hostel_update_columns -> In c hostel_group.
Proof.
  intros H. apply list_elem_of_In in H. revert H.
  simpl. intuition (subst; in_fields).
Qed.

Lemma hostel_group_default (data : pydict) (t : mess_totals) (c : string) :
  In c hostel_group ->
  (c ∉ fmap fst (mess_insert_values data t))
  /\ master_defaults !! c = Some (PNum 0)
  /\ ~ In c mess_group.
Proof.
  simpl. intros H.
  repeat (destruct H as [<-|H]; [repeat split; compute_done|]).
  destruct H.
Qed.

Lemma mess_group_default (data : pydict) (t : pyval) (c : string) :
  In c mess_group ->
  (c ∉ fmap fst (hostel_insert_values data t))
  /\ master_defaults !! c = Some (PNum 0)
  /\ ~ In c hostel_group.
Proof.
  simpl. intros H.
  repeat (destruct H as [<-|H]; [repeat split; compute_done|]).
  destruct H.
Qed.

(** C1. Whatever row the master table holds under a key, the mess
    aggregation leaves every column outside the mess group, so every
    hostel-group column, as it was, and the hostel aggregation leaves
    every column outside the hostel group, so every mess-group column, as
    it was; a row that either aggregation inserts has the other group's
    columns at 0. *)
Theorem aggregation_preserves_other_group
    (data : pydict) (w : world) (key : string * string) :
  (forall row, master_waste_data (db w) !! key = Some row ->
     exists row',
       master_waste_data (db (add_to_master_file_mess data w)) !! key
         = Some row'
       /\ (forall c, ~ In c mess_group -> row' !! c = row !! c)
       /\ (forall c, In c hostel_group -> row' !! c = row !! c))
  /\ (forall row, master_waste_data (db w) !! key = Some row ->
     exists row',
       master_waste_data (db (add_to_master_file_hostel data w)) !! key
         = Some row'
       /\ (forall c, ~ In c hostel_group -> row' !! c = row !! c)
       /\ (forall c, In c mess_group -> row' !! c = row !! c))
  /\ (master_waste_data (db w) !! key = None ->
      forall row',
        master_waste_data (db (add_to_master_file_mess data w)) !! key
          = Some row' ->
        forall c, In c hostel_group -> row' !! c = Some (PNum 0))
  /\ (master_waste_data (db w) !! key = None ->
      forall row',
        master_waste_data (db (add_to_master_file_hostel data w)) !! key
          = Some row' ->
        forall c, In c mess_group -> row' !! c = Some (PNum 0)).
Proof.
  rewrite add_to_master_file_mess_run, add_to_master_file_hostel_run.
  split; [|split; [|split]].
  - intros row E.
    assert (exists row',
      master_waste_data (db (run_statement (mess_statement data) w)) !! key
        = Some row'
      /\ forall c, ~ In c mess_group -> row' !! c = row !! c)
      as (row' & E' & Hframe).
    { destruct (run_statement_cases (mess_statement data) w)
        as [->|(c & Hc & ->)]; [eauto|].
      unfold mess_statement in Hc.
      destruct (mess_derived data) as [t|]; [|discriminate].
      destruct (upsert_frame _ _ _ (db w) key Hc) as [Hup _].
      destruct (Hup row E) as (row' & E' & Hframe).
      exists row'. split; [assumption|]. intros col Hcol. apply Hframe.
      intros Hin. now apply Hcol, mess_update_columns_group. }
    exists row'. repeat split; try assumption.
    intros c Hc. apply Hframe.
    now apply (hostel_group_default data (MessTotalsOf PNone PNone PNone PNone PNone)).
  - intros row E.
    assert (exists row',
      master_waste_data (db (run_statement (hostel_statement data) w)) !! key
        = Some row'
      /\ forall c, ~ In c hostel_group -> row' !! c = row !! c)
      as (row' & E' & Hframe).
    { destruct (run_statement_cases (hostel_statement data) w)
        as [->|(c & Hc & ->)]; [eauto|].
      unfold hostel_statement in Hc.
      destruct (total_hostel_waste_of data) as [t|]; [|discriminate].
      destruct (upsert_frame _ _ _ (db w) key Hc) as [Hup _].
      destruct (Hup row E) as (row' & E' & Hframe).
      exists row'. split; [assumption|]. intros col Hcol. apply Hframe.
      intros Hin. now apply Hcol, hostel_update_columns_group. }
    exists row'. repeat split; try assumption.
    intros c Hc. apply Hframe. now apply (mess_group_default data PNone).
  - intros E row'.
    destruct (run_statement_cases (mess_statement data) w)
      as [->|(c & Hc & ->)]; [congruence|].
    unfold mess_statement in Hc.
    destruct (mess_derived data) as [t|]; [|discriminate].
    destruct (upsert_frame _ _ _ (db w) key Hc) as [_ Hnew].
    intros E' col Hcol.
    destruct (hostel_group_default data t col Hcol) as (Hout & Hdef & _).
    now rewrite (Hnew E row' E' col Hout).
  - intros E row'.
    destruct (run_statement_cases (hostel_statement data) w)
      as [->|(c & Hc & ->)]; [congruence|].
    unfold hostel_statement in Hc.
    destruct (total_hostel_waste_of data) as [t|]; [|discriminate].
    destruct (upsert_frame _ _ _ (db w) key Hc) as [_ Hnew].
    intros E' col Hcol.
    destruct (mess_group_default data t col Hcol) as (Hout & Hdef & _).
    now rewrite (Hnew E row' E' col Hout).
Qed.

Lemma statement_idempotent (values : cells) (cols : list string)
    (ch : change) (d : database) :
  upsert_master values cols = Ok ch -> ch (ch d) = ch d.
Proof.
  intros H. apply upsert_master_inv in H as (st & dt & h & _ & _ & _ & ->).
  unfold on_master. cbn. now rewrite upsert_row_idem.
Qed.

(** C5. With the database reachable, applying
    [add_to_master_file_mess] a second time to the same submission
    leaves the whole database, hence the master row of the submission,
    exactly as the first application left it. *)
Theorem mess_aggregation_idempotent (data : pydict) (w : world) :
  connects w = [] ->
  add_to_master_file_mess data (add_to_master_file_mess data w)
  = add_to_master_file_mess data w.
Proof.
  intros Hup. rewrite !add_to_master_file_mess_run.
  rewrite (run_statement_up _ w Hup).
  destruct (mess_statement data) as [c|e] eqn:Hc.
  - rewrite run_statement_up by assumption.
    unfold commit. cbn. f_equal.
    unfold mess_statement in Hc.
    destruct (mess_derived data) as [t|]; [|discriminate].
    now apply (statement_idempotent _ _ _ _ Hc).
  - now rewrite run_statement_up by assumption.
Qed.


(** ** Later collections overwrite earlier ones *)

(** Membership of a literal entry in a closed list of cells. *)
Ltac in_cells :=
  apply list_elem_of_In; simpl; repeat (first [left; reflexivity | right]).

(** Runs a tactic for every member of a closed list of field names. *)
Ltac each_field H tac :=
  simpl in H; repeat (destruct H as [<-|H]; [tac|]); destruct H.

Lemma store_row_lookup (sch : schema) (cols stored : cells)
    (c : string) (v : pyval) :
  store_row sch cols = Ok stored ->
  NoDup cols.*1 -> (c, v) ∈ cols ->
  exists ty cell,
    column_type sch c = Some ty /\ sql_store ty v = Ok cell
    /\ (list_to_map stored : pydict) !! c = Some cell.
Proof.
  revert stored. induction cols as [|[c0 v0] rest IH]; intros stored; simpl.
  - intros _ _ H. now apply elem_of_nil in H.
  - destruct (column_type sch c0) as [ty|] eqn:Ety; [|discriminate].
    destruct (sql_store ty v0) as [cell|] eqn:Ecell; [|discriminate]. simpl.
    destruct (store_row sch rest) as [st|] eqn:Est; [|discriminate]. simpl.
    intros [= <-] Hnd Hin. apply NoDup_cons in Hnd as [Hfresh Hnd].
    apply elem_of_cons in Hin as [[= -> ->]|Hin].
    + exists ty, cell. repeat split; try assumption. apply lookup_insert_eq.
    + destruct (IH st eq_refl Hnd Hin) as (ty' & cell' & ? & ? & ?).
      exists ty', cell'. repeat split; try assumption.
      simpl. rewrite lookup_insert_ne; [assumption|].
      intros ->. apply Hfresh. apply list_elem_of_fmap. now exists (c, v).
Qed.

Lemma upsert_row_sets (key : string * string) (ex : pydict)
    (cols : list string) (tbl : gmap (string * string) pydict)
    (c : string) (v : pyval) :
  c ∈ cols -> ex !! c = Some v ->
  exists row, upsert_row key ex cols tbl !! key = Some row
              /\ row !! c = Some v.
Proof.
  intros Hc Hv. destruct (tbl !! key) as [row|] eqn:E.
  - rewrite (upsert_row_existing _ _ _ _ _ E). eexists; split; [reflexivity|].
    rewrite lookup_set_from_excluded, Hv. now destruct (decide (c ∈ cols)).
  - rewrite (upsert_row_new _ _ _ _ E). eexists; split; [reflexivity|].
    now apply lookup_union_Some_l.
Qed.

(** What a successful hostel statement does, column by column. *)
Lemma hostel_statement_inv (data : pydict) (ch : change)
    (key : string * string) :
  hostel_statement data = Ok ch -> master_key data = Some key ->
  exists ex : pydict,
    ch = on_master (upsert_row key ex hostel_update_columns)
    /\ (forall c, In c hostel_group -> is_Some (ex !! c))
    /\ (forall c, In c waste_categories ->
          exists v, sql_store (DECIMAL 10 2) (dict_get data c (PNum 0)) = Ok v
                    /\ ex !! c = Some v).
Proof.
  unfold hostel_statement.
  destruct (total_hostel_waste_of data) as [t|]; [|discriminate]. cbn [bind].
  intros H Hkey.
  apply upsert_master_inv in H as (st & d & h & Hst & Hd & Hh & ->).
  assert (Hnd : NoDup (hostel_insert_values data t).*1) by compute_done.
  assert (Hlook : forall c v, (c, v) ∈ hostel_insert_values data t ->
            exists ty cell,
              column_type master_waste_data_columns c = Some ty
              /\ sql_store ty v = Ok cell
              /\ (list_to_map st : pydict) !! c = Some cell)
    by (intros c v; apply store_row_lookup; assumption).
  exists (list_to_map st). split; [|split].
  - destruct (Hlook "date" (dict_get data "submission_date" PNone))
      as (ty1 & c1 & T1 & S1 & L1); [in_cells|].
    destruct (Hlook "hostel" (dict_get data "hostel" PNone))
      as (ty2 & c2 & T2 & S2 & L2); [in_cells|].
    vm_compute in T1, T2. injection T1 as <-. injection T2 as <-.
    rewrite Hd in L1. rewrite Hh in L2.
    injection L1 as <-. injection L2 as <-.
    unfold master_key in Hkey. rewrite S1, S2 in Hkey. now injection Hkey as <-.
  - intros c Hc.
    destruct ((list_to_map st : pydict) !! c) as [v|] eqn:E; [eauto|].
    exfalso. apply not_elem_of_list_to_map in E. apply E.
    rewrite (store_row_keys _ _ _ Hst). clear -Hc.
    each_field Hc ltac:(compute_done).
  - intros c Hc.
    assert (Hin : (c, dict_get data c (PNum 0)) ∈ hostel_insert_values data t)
      by (clear -Hc; each_field Hc ltac:(in_cells)).
    destruct (Hlook c _ Hin) as (ty & v & T & S & L).
    exists v. split; [|assumption].
    assert (ty = DECIMAL 10 2) as <-; [|assumption].
    clear -Hc T.
    each_field Hc ltac:(vm_compute in T; congruence).
Qed.

Lemma add_to_total_spec (k : string) (record totals totals' : pydict) :
  add_to_total k record totals = Ok totals' ->
  exists s, totals' = <[k := s]> totals
    /\ forall cur, totals !! k = Some (PNum cur) ->
         s = PNum (cur + field_num record k).
Proof.
  unfold add_to_total, dict_item, field_num.
  destruct (totals !! k) as [cur|]; [|discriminate]. cbn [bind].
  destruct (dict_get record k (PNum 0)) as [x| | |]; try discriminate.
  cbn [py_float bind].
  destruct cur as [q| | |]; try discriminate. cbn [py_add bind].
  intros [= <-]. eexists; split; [reflexivity|]. now intros ? [= <-].
Qed.

Lemma add_collection_spec (totals totals' record : pydict) (c : string)
    (cur : Q) :
  add_collection totals record = Ok totals' ->
  In c waste_categories ->
  totals !! c = Some (PNum cur) ->
  totals' !! c = Some (PNum (cur + field_num record c)).
Proof.
  unfold add_collection. intros H Hc Hcur.
  destruct (add_to_total "dry_waste" record totals) as [t1|] eqn:E1;
    [|discriminate]. cbn [bind] in H.
  destruct (add_to_total "wet_waste" record t1) as [t2|] eqn:E2;
    [|discriminate]. cbn [bind] in H.
  destruct (add_to_total "e_waste" record t2) as [t3|] eqn:E3;
    [|discriminate]. cbn [bind] in H.
  destruct (add_to_total "biomedical_waste" record t3) as [t4|] eqn:E4;
    [|discriminate]. cbn [bind] in H.
  destruct (add_to_total "hazardous_waste" record t4) as [t5|] eqn:E5;
    [|discriminate]. cbn [bind] in H.
  apply add_to_total_spec in E1 as (s1 & -> & S1).
  apply add_to_total_spec in E2 as (s2 & -> & S2).
  apply add_to_total_spec in E3 as (s3 & -> & S3).
  apply add_to_total_spec in E4 as (s4 & -> & S4).
  apply add_to_total_spec in E5 as (s5 & -> & S5).
  apply add_to_total_spec in H as (s6 & -> & S6).
  each_field Hc ltac:(simplify_map_eq; first [ erewrite S1 by eassumption
    | erewrite S2 by eassumption | erewrite S3 by eassumption
    | erewrite S4 by eassumption | erewrite S5 by eassumption ]; reflexivity).
Qed.

(** ** Approval *)

Lemma upsert_statement_master_only (values : cells) (cols : list string)
    (ch : change) :
  upsert_master values cols = Ok ch -> exists f, ch = on_master f.
Proof.
  intros H. apply upsert_master_inv in H as (? & ? & ? & _ & _ & _ & ->).
  eauto.
Qed.

Lemma mess_statement_master_only (data : pydict) (ch : change) :
  mess_statement data = Ok ch -> exists f, ch = on_master f.
Proof.
  unfold mess_statement. destruct (mess_derived data); [|discriminate].
  apply upsert_statement_master_only.
Qed.

Lemma hostel_statement_master_only (data : pydict) (ch : change) :
  hostel_statement data = Ok ch -> exists f, ch = on_master f.
Proof.
  unfold hostel_statement.
  destruct (total_hostel_waste_of data); [|discriminate].
  apply upsert_statement_master_only.
Qed.

(** The aggregation functions touch the master table only. *)
Lemma run_statement_master_only (stmt : res change) (w : world) :
  (forall ch, stmt = Ok ch -> exists f, ch = on_master f) ->
  mess_waste_submissions (db (run_statement stmt w))
    = mess_waste_submissions (db w)
  /\ hostel_waste_submissions (db (run_statement stmt w))
    = hostel_waste_submissions (db w)
  /\ pho_edits (db (run_statement stmt w)) = pho_edits (db w).
Proof.
  intros H. destruct (run_statement_cases stmt w) as [->|(c & Hc & ->)];
    [auto|]. destruct (H c Hc) as [f ->]. auto.
Qed.

Lemma run_statement_clock (stmt : res change) (w : world) :
  clock (run_statement stmt w) = clock w.
Proof.
  unfold run_statement, get_db_connection.
  destruct (connects w) as [|[] ?]; simpl; try reflexivity;
    now destruct stmt.
Qed.

Lemma store_verified_assignments (sch : schema) (u ts : string) :
  column_type sch "status" = Some (VARCHAR 20) ->
  column_type sch "verified_by" = Some (VARCHAR 50) ->
  column_type sch "verified_at" = Some TIMESTAMP ->
  (String.length u <= 50)%nat ->
  store_row sch (verified_assignments u ts) = Ok (verified_assignments u ts).
Proof.
  intros H1 H2 H3 Hu. unfold verified_assignments. cbn [store_row].
  rewrite H1, H2, H3. cbn [sql_store].
  apply Nat.leb_le in Hu. rewrite Hu. reflexivity.
Qed.

(** C2 (as the code has it). [approve_submission] never looks at the
    stored status.  With the database reachable, a record that carries a
    text [submission_id] and a verifier name of at most 50 characters is
    approved whatever its row held before: the call returns [True], the
    row (if there is one) is rewritten as verified, and the aggregation is
    applied to the record again. *)
Theorem approve_submission_ignores_status
    (record_data : pydict) (pho_username : string) (w : world)
    (sid : string) :
  connects w = [] ->
  record_data !! "submission_id" = Some (PStr sid) ->
  (String.length pho_username <= 50)%nat ->
  approve_submission record_data pho_username w
  = (true,
     if dict_has record_data "breakfast_students"
     then commit (on_mess_submissions
                    (alter (mark_verified pho_username (clock w)) sid))
            (add_to_master_file_mess record_data w)
     else commit (on_hostel_submissions
                    (alter (mark_verified pho_username (clock w)) sid))
            (add_to_master_file_hostel record_data w))
  /\ forall row,
       table_of_record record_data (db w) !! sid = Some row ->
       table_of_record record_data
         (db (snd (approve_submission record_data pho_username w))) !! sid
       = Some (mark_verified pho_username (clock w) row)
       /\ mark_verified pho_username (clock w) row !! "status"
          = Some (PStr "verified").
Proof.
  intros Hup Hsid Hu.
  assert (E : approve_submission record_data pho_username w
    = (true,
       if dict_has record_data "breakfast_students"
       then commit (on_mess_submissions
                      (alter (mark_verified pho_username (clock w)) sid))
              (add_to_master_file_mess record_data w)
       else commit (on_hostel_submissions
                      (alter (mark_verified pho_username (clock w)) sid))
              (add_to_master_file_hostel record_data w))).
  { unfold approve_submission. rewrite (get_db_connection_up w Hup).
    unfold dict_item. rewrite Hsid. cbn [bind]. unfold update_submission.
    destruct (dict_has record_data "breakfast_students").
    - rewrite store_verified_assignments by (reflexivity || assumption).
      reflexivity.
    - rewrite store_verified_assignments by (reflexivity || assumption).
      reflexivity. }
  split; [exact E|]. intros row Hrow. rewrite E. cbn [snd].
  split; [|apply lookup_union_Some_l; reflexivity].
  unfold table_of_record in *.
  destruct (dict_has record_data "breakfast_students"); cbn.
  - rewrite add_to_master_file_mess_run.
    destruct (run_statement_master_only (mess_statement record_data) w
                (mess_statement_master_only record_data)) as (-> & _ & _).
    rewrite lookup_alter_eq, Hrow. reflexivity.
  - rewrite add_to_master_file_hostel_run.
    destruct (run_statement_master_only (hostel_statement record_data) w
                (hostel_statement_master_only record_data)) as (_ & -> & _).
    rewrite lookup_alter_eq, Hrow. reflexivity.
Qed.

(** C9 (as the code has it). [approve_all_collections] applies
    [approve_submission] to every record in order, whatever the earlier
    calls returned, and returns nothing: one result per record is
    produced and discarded. *)
Theorem approve_all_collections_attempts_each
    (records : list pydict) (pho_username : string) (w : world) :
  approve_all_collections records pho_username w
  = (tt, fold_left (fun w r => snd (approve_submission r pho_username w))
           records w)
  /\ length (approval_results records pho_username w) = length records
  /\ forall before after,
       records = (before ++ after)%list ->
       snd (approve_all_collections records pho_username w)
       = snd (approve_all_collections after pho_username
                (snd (approve_all_collections before pho_username w))).
Proof.
  assert (Hfold : forall rs w0,
    approve_all_collections rs pho_username w0
    = (tt, fold_left (fun w r => snd (approve_submission r pho_username w))
             rs w0)).
  { induction rs as [|r rs IH]; intros w0; simpl; [reflexivity|].
    destruct (approve_submission r pho_username w0) as [ok w1]. apply IH. }
  split; [apply Hfold|]. split.
  - revert w. induction records as [|r rs IH]; intros w; simpl; [reflexivity|].
    destruct (approve_submission r pho_username w) as [ok w1]. simpl.
    now rewrite IH.
  - intros before after ->. rewrite !Hfold. cbn [snd]. apply fold_left_app.
Qed.

(** ** Edit, then approve *)

Lemma save_pho_edit_cases (submission_id : pyval) (ty : string)
    (original edited : pydict) (u reason : string) (w : world) :
  let r := save_pho_edit submission_id ty original edited u reason w in
  (fst r = false /\ db (snd r) = db w)
  \/ (fst r = true
      /\ exists sid, submission_id = PStr sid
         /\ db (snd r)
            = on_pho_edits
                (fun edits =>
                   (edits ++ [PhoEdit sid ty original edited u reason])%list)
                (db w)).
Proof.
  unfold save_pho_edit, get_db_connection.
  assert (Hbody : forall w1 : world, db w1 = db w ->
    let r := match (o <- json_dumps original ;; e <- json_dumps edited ;;
                    insert_pho_edit submission_id ty o e u reason) with
             | Ok c => (true, commit c w1)
             | Raise _ => (false, w1)
             end in
    (fst r = false /\ db (snd r) = db w)
    \/ (fst r = true
        /\ exists sid, submission_id = PStr sid
           /\ db (snd r)
              = on_pho_edits
                  (fun edits =>
                     (edits ++ [PhoEdit sid ty original edited u reason])%list)
                  (db w))).
  { intros w1 Hdb. unfold json_dumps.
    destruct (forallb _ (map_to_list original)); [|simpl; auto].
    destruct (forallb _ (map_to_list edited)); [|simpl; auto].
    cbn [bind]. unfold insert_pho_edit.
    destruct submission_id as [|sid| |]; try (simpl; auto).
    destruct (_ && _); cbn [fst snd]; [right|auto]. split; [reflexivity|].
    exists sid. split; [reflexivity|]. cbn. now rewrite Hdb. }
  destruct (connects w) as [|[] later]; cbv zeta; cbn [fst snd db]; auto;
    now apply Hbody.
Qed.

Lemma dict_items_keys (d : pydict) (keys : list string) (items : cells) :
  dict_items d keys = Ok items -> items.*1 = keys.
Proof.
  revert items. induction keys as [|k rest IH]; intros items; simpl.
  - now intros [= <-].
  - destruct (dict_item d k); [|discriminate]. simpl.
    destruct (dict_items d rest) as [vs|]; [|discriminate]. simpl.
    intros [= <-]. simpl. f_equal. now apply IH.
Qed.

(** A successful editing [UPDATE] leaves the addressed row verified. *)
Lemma update_submission_verifies (sch : schema) (keys : list string)
    (edited : pydict) (u ts : string) (submission_id : pyval)
    (c : gmap string pydict -> gmap string pydict) :
  NoDup (keys ++ (verified_assignments u ts).*1) ->
  column_type sch "status" = Some (VARCHAR 20) ->
  (edits <- dict_items edited keys ;;
   update_submission sch (edits ++ verified_assignments u ts)%list
     submission_id) = Ok c ->
  forall sid tbl row,
    submission_id = PStr sid -> tbl !! sid = Some row ->
    exists row', c tbl !! sid = Some row'
                 /\ row' !! "status" = Some (PStr "verified").
Proof.
  intros Hnd Hty. destruct (dict_items edited keys) as [edits|] eqn:Ee;
    [|discriminate]. cbn [bind]. unfold update_submission.
  destruct (store_row sch _) as [stored|] eqn:Es; [|discriminate].
  cbn [bind]. intros H sid tbl row -> Hrow. cbn in H. injection H as <-.
  rewrite lookup_alter_eq, Hrow. eexists; split; [reflexivity|].
  apply lookup_union_Some_l.
  destruct (store_row_lookup _ _ _ "status" (PStr "verified") Es)
    as (ty & cell & T & S & L).
  - rewrite fmap_app, (dict_items_keys _ _ _ Ee). exact Hnd.
  - apply elem_of_app. right. unfold verified_assignments.
    apply elem_of_cons. now left.
  - rewrite Hty in T. injection T as <-. cbn in S. injection S as <-.
    exact L.
Qed.

Lemma update_submission_with_edits_cases (submission_id : pyval)
    (ty : string) (edited : pydict) (u : string) (w : world) :
  let r := update_submission_with_edits submission_id ty edited u w in
  (fst r = false /\ db (snd r) = db w)
  \/ (fst r = true
      /\ master_waste_data (db (snd r)) = master_waste_data (db w)
      /\ pho_edits (db (snd r)) = pho_edits (db w)
      /\ forall sid row,
           submission_id = PStr sid ->
           table_of_type ty (db w) !! sid = Some row ->
           exists row', table_of_type ty (db (snd r)) !! sid = Some row'
                        /\ row' !! "status" = Some (PStr "verified")).
Proof.
  unfold update_submission_with_edits, get_db_connection, table_of_type.
  assert (Hbody : forall w1 : world, db w1 = db w ->
    let r :=
      if String.eqb ty "mess_waste" then
        match (edits <- dict_items edited mess_edit_columns ;;
               update_submission mess_waste_submissions_columns
                 (edits ++ verified_assignments u (clock w1))%list
                 submission_id) with
        | Ok c => (true, commit (on_mess_submissions c) w1)
        | Raise _ => (false, w1)
        end
      else
        match (edits <- dict_items edited hostel_edit_columns ;;
               update_submission hostel_waste_submissions_columns
                 (edits ++ verified_assignments u (clock w1))%list
                 submission_id) with
        | Ok c => (true, commit (on_hostel_submissions c) w1)
        | Raise _ => (false, w1)
        end in
    (fst r = false /\ db (snd r) = db w)
    \/ (fst r = true
        /\ master_waste_data (db (snd r)) = master_waste_data (db w)
        /\ pho_edits (db (snd r)) = pho_edits (db w)
        /\ forall sid row,
             submission_id = PStr sid ->
             (if String.eqb ty "mess_waste"
              then mess_waste_submissions (db w)
              else hostel_waste_submissions (db w)) !! sid = Some row ->
             exists row',
               (if String.eqb ty "mess_waste"
                then mess_waste_submissions (db (snd r))
                else hostel_waste_submissions (db (snd r))) !! sid
               = Some row'
               /\ row' !! "status" = Some (PStr "verified"))).
  { intros w1 Hdb. destruct (String.eqb ty "mess_waste").
    - match goal with |- context [match ?m with Ok _ => _ | Raise _ => _ end] =>
        destruct m as [c|] eqn:Ec end; cbn [fst snd]; [right|left; auto].
      split; [reflexivity|]. cbn. rewrite Hdb.
      split; [reflexivity|]. split; [reflexivity|].
      intros sid row Hs Hrow.
      eapply update_submission_verifies; [| |exact Ec|exact Hs|exact Hrow];
        [compute_done|reflexivity].
    - match goal with |- context [match ?m with Ok _ => _ | Raise _ => _ end] =>
        destruct m as [c|] eqn:Ec end; cbn [fst snd]; [right|left; auto].
      split; [reflexivity|]. cbn. rewrite Hdb.
      split; [reflexivity|]. split; [reflexivity|].
      intros sid row Hs Hrow.
      eapply update_submission_verifies; [| |exact Ec|exact Hs|exact Hrow];
        [compute_done|reflexivity]. }
  destruct (connects w) as [|[] later]; cbv zeta; cbn [fst snd db]; auto;
    now apply Hbody.
Qed.

(** What "Save Changes" does, outcome by outcome. *)
Lemma show_edit_form_cases (record_data : pydict) (ty u : string)
    (f : form_values) (reason : string) (w : world)
    (o : edit_outcome) (w' : world) :
  show_edit_form record_data ty u f reason w = Ok (o, w') ->
  exists submission_id,
    record_data !! "submission_id" = Some submission_id
    /\ match o with
       | ErrorSavingEdit => db w' = db w
       | ErrorUpdatingSubmission =>
           exists sid,
             submission_id = PStr sid
             /\ db w'
                = on_pho_edits
                    (fun edits =>
                       (edits ++ [PhoEdit sid ty record_data
                                    (prepare_edited_data ty f) u reason])%list)
                    (db w)
       | ChangesSavedAndApproved =>
           exists sid,
             submission_id = PStr sid
             /\ pho_edits (db w')
                = (pho_edits (db w)
                   ++ [PhoEdit sid ty record_data
                         (prepare_edited_data ty f) u reason])%list
             /\ master_waste_data (db w') = master_waste_data (db w)
             /\ forall row,
                  table_of_type ty (db w) !! sid = Some row ->
                  exists row',
                    table_of_type ty (db w') !! sid = Some row'
                    /\ row' !! "status" = Some (PStr "verified")
       end.
Proof.
  unfold show_edit_form, dict_item.
  destruct (record_data !! "submission_id") as [submission_id|];
    [|discriminate]. cbn [bind].
  pose proof (save_pho_edit_cases submission_id ty record_data
                (prepare_edited_data ty f) u reason w) as Hs.
  destruct (save_pho_edit submission_id ty record_data
              (prepare_edited_data ty f) u reason w) as [saved w1].
  cbv zeta in Hs. cbn [fst snd] in Hs.
  pose proof (update_submission_with_edits_cases submission_id ty
                (prepare_edited_data ty f) u w1) as Hu.
  destruct (update_submission_with_edits submission_id ty
              (prepare_edited_data ty f) u w1) as [updated w2].
  cbv zeta in Hu. cbn [fst snd] in Hu.
  destruct saved.
  - destruct Hs as [[? _]|(_ & sid & -> & Hs)]; [discriminate|].
    destruct updated; intros [= <- <-]; exists (PStr sid);
      (split; [reflexivity|]).
    + destruct Hu as [[? _]|(_ & Hm & He & Hrow)]; [discriminate|].
      exists sid. split; [reflexivity|]. rewrite He, Hm, Hs. cbn.
      split; [reflexivity|]. split; [reflexivity|].
      intros row Erow. apply (Hrow sid row eq_refl).
      rewrite Hs. unfold table_of_type in *. cbn.
      now destruct (String.eqb ty "mess_waste").
    + destruct Hu as [[_ Hdb]|[? _]]; [|discriminate].
      exists sid. split; [reflexivity|]. now rewrite Hdb.
  - destruct Hs as [[_ Hs]|[? _]]; [|discriminate].
    intros [= <- <-]. exists submission_id. now split.
Qed.


(** ** The edit log only grows *)

Lemma approve_submission_pho_edits (record_data : pydict) (u : string)
    (w : world) :
  pho_edits (db (snd (approve_submission record_data u w)))
  = pho_edits (db w).
Proof.
  unfold approve_submission, get_db_connection.
  assert (Hbody : forall w1 : world, db w1 = db w ->
    pho_edits (db (snd (
      if dict_has record_data "breakfast_students" then
        match (submission_id <- dict_item record_data "submission_id" ;;
               update_submission mess_waste_submissions_columns
                 (verified_assignments u (clock w1)) submission_id) with
        | Ok c => (true, commit (on_mess_submissions c)
                           (add_to_master_file_mess record_data w1))
        | Raise _ => (false, w1)
        end
      else
        match (submission_id <- dict_item record_data "submission_id" ;;
               update_submission hostel_waste_submissions_columns
                 (verified_assignments u (clock w1)) submission_id) with
        | Ok c => (true, commit (on_hostel_submissions c)
                           (add_to_master_file_hostel record_data w1))
        | Raise _ => (false, w1)
        end))) = pho_edits (db w)).
  { intros w1 Hdb. destruct (dict_has record_data "breakfast_students").
    - match goal with |- context [match ?m with Ok _ => _ | Raise _ => _ end] =>
        destruct m as [c|] end; cbn; [|now rewrite Hdb].
      rewrite add_to_master_file_mess_run.
      destruct (run_statement_master_only (mess_statement record_data) w1
                  (mess_statement_master_only record_data)) as (_ & _ & ->).
      now rewrite Hdb.
    - match goal with |- context [match ?m with Ok _ => _ | Raise _ => _ end] =>
        destruct m as [c|] end; cbn; [|now rewrite Hdb].
      rewrite add_to_master_file_hostel_run.
      destruct (run_statement_master_only (hostel_statement record_data) w1
                  (hostel_statement_master_only record_data)) as (_ & _ & ->).
      now rewrite Hdb. }
  destruct (connects w) as [|[] later]; cbv zeta; try reflexivity;
    now apply Hbody.
Qed.

Lemma approve_all_collections_pho_edits (records : list pydict) (u : string)
    (w : world) :
  pho_edits (db (snd (approve_all_collections records u w)))
  = pho_edits (db w).
Proof.
  revert w. induction records as [|r rs IH]; intros w; simpl; [reflexivity|].
  pose proof (approve_submission_pho_edits r u w) as H.
  destruct (approve_submission r u w) as [ok w1]. rewrite IH. exact H.
Qed.

Lemma perform_pho_edits (a : action) (w : world) :
  pho_edits (db w) `prefix_of` pho_edits (db (perform a w)).
Proof.
  destruct a as [r u|rs u|r ty u f reason]; simpl.
  - now rewrite approve_submission_pho_edits.
  - now rewrite approve_all_collections_pho_edits.
  - destruct (show_edit_form r ty u f reason w) as [[o w']|] eqn:E;
      [|reflexivity].
    apply show_edit_form_cases in E as (v & _ & H). destruct o.
    + destruct H as (sid & _ & -> & _). now apply prefix_app_r.
    + destruct H as (sid & _ & ->). cbn. now apply prefix_app_r.
    + now rewrite H.
Qed.

Lemma perform_all_pho_edits (actions : list action) (w : world) :
  pho_edits (db w) `prefix_of` pho_edits (db (perform_all actions w)).
Proof.
  revert w. induction actions as [|a rest IH]; intros w; simpl; [reflexivity|].
  etransitivity; [apply (perform_pho_edits a)|apply IH].
Qed.

(** X15. Rows loaded from the database carry date objects, which
    [json.dumps] refuses: the edit is then not saved and nothing is
    written. *)
Lemma save_pho_edit_rejects_dates (submission_id : pyval) (ty : string)
    (original edited : pydict) (u reason : string) (w : world)
    (k s : string) :
  original !! k = Some (PDate s) ->
  fst (save_pho_edit submission_id ty original edited u reason w) = false
  /\ db (snd (save_pho_edit submission_id ty original edited u reason w))
     = db w.
Proof.
  intros Hk. unfold save_pho_edit, get_db_connection.
  assert (json_dumps original = Raise TypeError) as E.
  { unfold json_dumps.
    destruct (forallb _ (map_to_list original)) eqn:F; [|reflexivity].
    rewrite forallb_forall in F.
    specialize (F (k, PDate s)). cbn in F.
    assert (false = true); [|discriminate]. apply F.
    apply list_elem_of_In. now apply elem_of_map_to_list. }
  rewrite E. cbn [bind].
  destruct (connects w) as [|[] later]; auto.
Qed.

(** * The properties on the sample data *)

Import Sample.

(** The scenario of the specification: total 4.5 for 50 students, 0.09
    per head; approved directly, the master row shows the mess total and
    no hostel waste. *)
Example scenario_totals :
  mess_derived mess_record
  = Ok (MessTotalsOf (PNum 50) (PNum (9 # 2)) (PNum 4)
          (PNum ((9 # 2) / 50)) (PNum (4 / 50))).
Proof. reflexivity. Qed.

Example scenario_master_row :
  fst (approve_submission mess_record "pho" world_up) = true
  /\ map (fun c => master_waste_data (db world_approved) !! key
                     ≫= (fun row : pydict => row !! c))
       ["total_mess_waste"; "total_students"; "per_capita_mess_waste";
        "total_hostel_waste"]
     = [Some (PNum (9 # 2)); Some (PNum 50); Some (PNum (9 # 100));
        Some (PNum 0)].
Proof. split; vm_compute; reflexivity. Qed.

Example closed_day_per_capita :
  mess_derived closed_day_record
  = Ok (MessTotalsOf (PNum 0) (PNum (5 # 2)) (PNum (5 # 2))
          (PNum 0) (PNum 0)).
Proof. reflexivity. Qed.

Lemma mess_record_numeric (k : string) :
  In k (student_count_fields ++ waste_component_fields) ->
  numeric_field mess_record k.
Proof. intros Hk. each_field Hk ltac:(reflexivity). Qed.

Lemma aggregation_preserves_other_group_witness :
  master_waste_data (db world_hostel_done) !! key = Some hostel_only_row
  /\ exists row',
       master_waste_data
         (db (add_to_master_file_mess mess_record world_hostel_done)) !! key
       = Some row'
       /\ (forall c, In c hostel_group -> row' !! c = hostel_only_row !! c)
       /\ row' !! "total_mess_waste" = Some (PNum (9 # 2)).
Proof.
  assert (E : master_waste_data (db world_hostel_done) !! key
              = Some hostel_only_row) by reflexivity.
  split; [exact E|].
  destruct (aggregation_preserves_other_group mess_record world_hostel_done
              key) as [H _].
  destruct (H hostel_only_row E) as (row' & E' & _ & Hh).
  exists row'. split; [exact E'|]. split; [exact Hh|].
  assert (Some row' ≫= (fun row : pydict => row !! "total_mess_waste")
          = Some (PNum (9 # 2))) as Hv
    by (rewrite <- E'; vm_compute; reflexivity).
  exact Hv.
Defined.

Lemma mess_aggregation_idempotent_witness :
  add_to_master_file_mess mess_record
    (add_to_master_file_mess mess_record world_up)
  = add_to_master_file_mess mess_record world_up.
Proof. apply (mess_aggregation_idempotent mess_record world_up). reflexivity. Defined.

Lemma per_capita_guards_zero_students_witness :
  mess_derived mess_record <> Raise ZeroDivisionError
  /\ exists s t n pc pcn : Q,
       total_students_of mess_record = Ok (PNum s)
       /\ total_mess_waste_of mess_record = Ok (PNum t)
       /\ total_mess_waste_no_peels_of mess_record = Ok (PNum n)
       /\ mess_derived mess_record =
            Ok (MessTotalsOf (PNum s) (PNum t) (PNum n) (PNum pc) (PNum pcn))
       /\ ((0 < s)%Q -> pc = (t / s)%Q /\ pcn = (n / s)%Q)
       /\ ((s == 0)%Q -> pc = 0%Q /\ pcn = 0%Q)
       /\ ((s < 0)%Q -> pc = 0%Q /\ pcn = 0%Q).
Proof.
  destruct (per_capita_guards_zero_students mess_record) as [H1 H2].
  split; [exact H1|]. apply H2. exact mess_record_numeric.
Defined.

Lemma total_mess_waste_is_component_sum_witness :
  exists t n : Q,
    total_mess_waste_of mess_record = Ok (PNum t)
    /\ total_mess_waste_no_peels_of mess_record = Ok (PNum n)
    /\ (t == qsum (map (field_num mess_record) waste_component_fields))%Q
    /\ (n == qsum (map (field_num mess_record) non_peel_fields))%Q
    /\ length waste_component_fields = 13%nat
    /\ length non_peel_fields = 9%nat
    /\ ((forall k, In k waste_component_fields ->
                   0 <= field_num mess_record k)%Q -> (n <= t)%Q).
Proof.
  apply (total_mess_waste_is_component_sum mess_record).
  intros k Hk. apply mess_record_numeric, in_or_app. now right.
Defined.

(** A submission already verified is approved a second time: the call
    returns [True] and its totals replace those a later approval had put
    in the master row. *)
Lemma approve_submission_accepts_verified :
  stored_status (db world_approved_twice) "mess_2_20240110"
    = Some (PStr "verified")
  /\ master_waste_data (db world_approved_twice) !! key
       ≫= (fun row : pydict => row !! "total_mess_waste") = Some (PNum 10)
  /\ fst (approve_submission mess_record "pho2" world_approved_twice) = true
  /\ master_waste_data
       (db (snd (approve_submission mess_record "pho2" world_approved_twice)))
       !! key ≫= (fun row : pydict => row !! "total_mess_waste")
     = Some (PNum (9 # 2)).
Proof. repeat split; vm_compute; reflexivity. Qed.

Lemma approve_submission_ignores_status_witness :
  approve_submission mess_record "pho2" world_approved_twice
  = (true,
     if dict_has mess_record "breakfast_students"
     then commit (on_mess_submissions
                    (alter (mark_verified "pho2" (clock world_approved_twice))
                       "mess_2_20240110"))
            (add_to_master_file_mess mess_record world_approved_twice)
     else commit (on_hostel_submissions
                    (alter (mark_verified "pho2" (clock world_approved_twice))
                       "mess_2_20240110"))
            (add_to_master_file_hostel mess_record world_approved_twice))
  /\ forall row,
       table_of_record mess_record (db world_approved_twice)
         !! "mess_2_20240110" = Some row ->
       table_of_record mess_record
         (db (snd (approve_submission mess_record "pho2"
                     world_approved_twice))) !! "mess_2_20240110"
       = Some (mark_verified "pho2" (clock world_approved_twice) row)
       /\ mark_verified "pho2" (clock world_approved_twice) row !! "status"
          = Some (PStr "verified").
Proof.
  apply (approve_submission_ignores_status mess_record "pho2"
           world_approved_twice "mess_2_20240110").
  - reflexivity.
  - reflexivity.
  - simpl. lia.
Defined.

(** One run in which the approval succeeds and one in which it fails
    return the same value to the caller. *)
Lemma approve_all_collections_hides_failures :
  approval_results [collection_1] "pho" world_up = [true]
  /\ approval_results [collection_1] "pho" world_down = [false]
  /\ fst (approve_all_collections [collection_1] "pho" world_up)
     = fst (approve_all_collections [collection_1] "pho" world_down).
Proof. repeat split; vm_compute; reflexivity. Qed.

(** The record as the cursor returns it cannot be saved as an edit. *)
Example loaded_record_is_not_saved :
  show_edit_form mess_record_loaded "mess_waste" "pho" corrected_form
    "weighed again" world_up
  = Ok (ErrorSavingEdit, world_up).
Proof. reflexivity. Qed.

(** * Further properties of the aggregation *)

Lemma set_from_excluded_commute (ex1 ex2 : pydict) (cols1 cols2 : list string)
    (row : pydict) :
  (forall c, c ∈ cols1 -> c ∈ cols2 -> False) ->
  set_from_excluded ex1 cols1 (set_from_excluded ex2 cols2 row)
  = set_from_excluded ex2 cols2 (set_from_excluded ex1 cols1 row).
Proof.
  intros Hdisj. apply map_eq. intros c. rewrite !lookup_set_from_excluded.
  destruct (decide (c ∈ cols1)) as [H1|H1], (decide (c ∈ cols2)) as [H2|H2];
    try reflexivity.
  destruct (Hdisj c H1 H2).
Qed.

Lemma upsert_row_commute (k1 k2 : string * string) (ex1 ex2 : pydict)
    (cols1 cols2 : list string) (tbl : gmap (string * string) pydict) :
  (k1 = k2 ->
     (forall c, c ∈ cols1 -> c ∈ cols2 -> False)
     /\ (forall c, c ∈ cols1 -> is_Some (ex1 !! c) /\ ex2 !! c = None)
     /\ (forall c, c ∈ cols2 -> is_Some (ex2 !! c) /\ ex1 !! c = None)
     /\ (forall c, c ∉ cols1 -> c ∉ cols2 -> ex1 !! c = ex2 !! c)) ->
  upsert_row k1 ex1 cols1 (upsert_row k2 ex2 cols2 tbl)
  = upsert_row k2 ex2 cols2 (upsert_row k1 ex1 cols1 tbl).
Proof.
  intros H. destruct (decide (k1 = k2)) as [<-|Hne].
  - destruct (H eq_refl) as (Hdisj & H1 & H2 & H3). clear H.
    unfold upsert_row. destruct (tbl !! k1) as [row|] eqn:E;
      rewrite !lookup_insert_eq, !insert_insert_eq; f_equal.
    + now apply set_from_excluded_commute.
    + apply map_eq. intros c. rewrite !lookup_set_from_excluded.
      destruct (decide (c ∈ cols1)) as [I1|I1],
               (decide (c ∈ cols2)) as [I2|I2].
      * destruct (Hdisj c I1 I2).
      * destruct (H1 c I1) as [[v Hv] _]. rewrite Hv.
        symmetry. now apply lookup_union_Some_l.
      * destruct (H2 c I2) as [[v Hv] _]. rewrite Hv.
        now apply lookup_union_Some_l.
      * rewrite !lookup_union, (H3 c I1 I2). reflexivity.
  - unfold upsert_row.
    destruct (tbl !! k1) as [r1|] eqn:E1, (tbl !! k2) as [r2|] eqn:E2;
      rewrite !lookup_insert_ne by congruence; rewrite ?E1, ?E2;
      now apply insert_insert_ne.
Qed.

Lemma upsert_master_excluded (values : cells) (cols : list string)
    (ch : change) :
  upsert_master values cols = Ok ch ->
  exists (ex : pydict) d h,
    ch = on_master (upsert_row (d, h) ex cols)
    /\ ex !! "date" = Some (PDate d) /\ ex !! "hostel" = Some (PStr h)
    /\ forall c, ex !! c = None <-> c ∉ values.*1.
Proof.
  intros H. apply upsert_master_inv in H as (st & d & h & Hst & Hd & Hh & ->).
  exists (list_to_map st), d, h. repeat split; try assumption.
  - intros E. apply not_elem_of_list_to_map in E.
    now rewrite <- (store_row_keys _ _ _ Hst).
  - intros E. apply not_elem_of_list_to_map.
    now rewrite (store_row_keys _ _ _ Hst).
Qed.

Lemma mess_columns_facts (m : pydict) (t : mess_totals) (h : pydict)
    (th : pyval) :
  Forall (fun c => c ∈ (mess_insert_values m t).*1
                   /\ (c ∉ (hostel_insert_values h th).*1)
                   /\ (c ∉ hostel_update_columns)) mess_update_columns
  /\ Forall (fun c => c ∈ (hostel_insert_values h th).*1
                      /\ (c ∉ (mess_insert_values m t).*1)
                      /\ (c ∉ mess_update_columns)) hostel_update_columns
  /\ Forall (fun c => c = "date" \/ c = "hostel" \/ c ∈ mess_update_columns)
       (mess_insert_values m t).*1
  /\ Forall (fun c => c = "date" \/ c = "hostel" \/ c ∈ hostel_update_columns)
       (hostel_insert_values h th).*1.
Proof. repeat split; compute_done. Qed.

(** X1. With the connection up, aggregating a mess record and a hostel
    record gives the same database in either order:
    [add_to_master_file_mess] and [add_to_master_file_hostel] commute,
    also when both records are of the same date and hostel. *)
Theorem aggregations_commute (m h : pydict) (w : world) :
  connects w = [] ->
  add_to_master_file_hostel h (add_to_master_file_mess m w)
  = add_to_master_file_mess m (add_to_master_file_hostel h w).
Proof.
  intros Hup.
  rewrite !add_to_master_file_mess_run, !add_to_master_file_hostel_run.
  rewrite (run_statement_up (mess_statement m) w Hup),
    (run_statement_up (hostel_statement h) w Hup).
  destruct (mess_statement m) as [cm|] eqn:Em,
           (hostel_statement h) as [ch|] eqn:Eh;
    rewrite !run_statement_up by assumption; rewrite ?Em, ?Eh;
    try reflexivity.
  unfold commit. cbn [db connects clock]. f_equal.
  unfold mess_statement in Em. unfold hostel_statement in Eh.
  destruct (mess_derived m) as [t|]; [|discriminate].
  destruct (total_hostel_waste_of h) as [th|]; [|discriminate].
  cbn [bind] in Em, Eh.
  apply upsert_master_excluded in Em as (exm & dm & hm & -> & Dm & Hm & Km).
  apply upsert_master_excluded in Eh as (exh & dh & hh & -> & Dh & Hh & Kh).
  destruct (mess_columns_facts m t h th) as (F1 & F2 & F3 & F4).
  rewrite Forall_forall in F1, F2, F3, F4.
  unfold on_master. cbn. f_equal.
  apply upsert_row_commute. intros [= -> ->].
  assert (Some_iff : forall (ex : pydict) c, is_Some (ex !! c) <-> ex !! c <> None)
    by (intros ex c; rewrite <- not_eq_None_Some; tauto).
  split; [|split; [|split]].
  - intros c I1 I2. now destruct (F2 c I1) as (_ & _ & N).
  - intros c I. destruct (F2 c I) as (A & B & _). split.
    + apply Some_iff. rewrite Kh. tauto.
    + now apply Km.
  - intros c I. destruct (F1 c I) as (A & B & _). split.
    + apply Some_iff. rewrite Km. tauto.
    + now apply Kh.
  - intros c N1 N2.
    destruct (decide (c = "date")) as [->|Nd]; [congruence|].
    destruct (decide (c = "hostel")) as [->|Nh]; [congruence|].
    assert (exm !! c = None) as ->.
    { apply Km. intros I. destruct (F3 c I) as [?|[?|?]]; tauto. }
    apply Kh. intros I. destruct (F4 c I) as [?|[?|?]]; tauto.
Qed.

(** The key of a successful upsert is the stored date and hostel. *)
Lemma upsert_master_key (dv hv : pyval) (rest : cells) (cols : list string)
    (ch : change) :
  upsert_master (("date", dv) :: ("hostel", hv) :: rest) cols = Ok ch ->
  exists (ex : pydict) d h,
    sql_store DATE dv = Ok (PDate d)
    /\ sql_store (VARCHAR 20) hv = Ok (PStr h)
    /\ ch = on_master (upsert_row (d, h) ex cols)
    /\ ex !! "date" = Some (PDate d) /\ ex !! "hostel" = Some (PStr h)
    /\ (forall c v, (c, v) ∈ rest -> NoDup ("date" :: "hostel" :: rest.*1) ->
          exists ty cell,
            column_type master_waste_data_columns c = Some ty
            /\ sql_store ty v = Ok cell /\ ex !! c = Some cell).
Proof.
  intros H.
  pose proof (upsert_master_inv _ _ _ H) as (st & d & h & Hst & Hd & Hh & ->).
  exists (list_to_map st), d, h.
  assert (Hlook : forall c v,
            (c, v) ∈ ("date", dv) :: ("hostel", hv) :: rest ->
            NoDup ("date" :: "hostel" :: rest.*1) ->
            exists ty cell,
              column_type master_waste_data_columns c = Some ty
              /\ sql_store ty v = Ok cell
              /\ (list_to_map st : pydict) !! c = Some cell).
  { intros c v Hin Hnd. eapply store_row_lookup; eauto. }
  cbn [store_row] in Hst.
  change (column_type master_waste_data_columns "date") with (Some DATE) in Hst.
  change (column_type master_waste_data_columns "hostel")
    with (Some (VARCHAR 20)) in Hst.
  cbv beta iota in Hst.
  destruct (sql_store DATE dv) as [cd|] eqn:Sd; cbn [bind] in Hst;
    [|discriminate].
  destruct (sql_store (VARCHAR 20) hv) as [chh|] eqn:Sh; cbn [bind] in Hst;
    [|discriminate].
  destruct (store_row master_waste_data_columns rest) as [st'|];
    cbn [bind] in Hst; [|discriminate]. injection Hst as <-.
  rewrite list_to_map_cons, lookup_insert_eq in Hd.
  rewrite !list_to_map_cons, lookup_insert_ne, lookup_insert_eq in Hh
    by discriminate.
  injection Hd as ->. injection Hh as ->.
  repeat split; try reflexivity.
  - rewrite list_to_map_cons. apply lookup_insert_eq.
  - rewrite !list_to_map_cons, lookup_insert_ne by discriminate.
    apply lookup_insert_eq.
  - intros c v Hin Hnd. apply Hlook; [|assumption].
    apply elem_of_cons. right. apply elem_of_cons. now right.
Qed.

Lemma statement_key (data : pydict) (rest : cells) (cols : list string)
    (ch : change) :
  upsert_master (("date", dict_get data "submission_date" PNone)
                 :: ("hostel", dict_get data "hostel" PNone) :: rest) cols
    = Ok ch ->
  exists (ex : pydict) key,
    master_key data = Some key
    /\ ch = on_master (upsert_row key ex cols)
    /\ ex !! "date" = Some (PDate (fst key))
    /\ ex !! "hostel" = Some (PStr (snd key))
    /\ (forall c v, (c, v) ∈ rest -> NoDup ("date" :: "hostel" :: rest.*1) ->
          exists ty cell,
            column_type master_waste_data_columns c = Some ty
            /\ sql_store ty v = Ok cell /\ ex !! c = Some cell).
Proof.
  intros H.
  apply upsert_master_key in H as (ex & d & h & Sd & Sh & -> & Ed & Eh & L).
  exists ex, (d, h). unfold master_key. rewrite Sd, Sh. auto.
Qed.

Lemma run_statement_one_row (data : pydict) (stmt : res change)
    (cols : list string) (w : world) :
  (forall ch, stmt = Ok ch ->
     exists (ex : pydict) key,
       master_key data = Some key /\ ch = on_master (upsert_row key ex cols)) ->
  mess_waste_submissions (db (run_statement stmt w))
    = mess_waste_submissions (db w)
  /\ hostel_waste_submissions (db (run_statement stmt w))
     = hostel_waste_submissions (db w)
  /\ pho_edits (db (run_statement stmt w)) = pho_edits (db w)
  /\ forall k, master_key data <> Some k ->
       master_waste_data (db (run_statement stmt w)) !! k
       = master_waste_data (db w) !! k.
Proof.
  intros H. destruct (run_statement_cases stmt w) as [->|(c & Hc & ->)];
    [auto|].
  destruct (H c Hc) as (ex & key & Hk & ->). cbn.
  repeat split. intros k Hne. apply upsert_row_other. congruence.
Qed.

Lemma mess_statement_key (data : pydict) (ch : change) :
  mess_statement data = Ok ch ->
  exists (ex : pydict) key,
    master_key data = Some key
    /\ ch = on_master (upsert_row key ex mess_update_columns).
Proof.
  unfold mess_statement. destruct (mess_derived data) as [t|]; [|discriminate].
  cbn [bind]. intros H. apply statement_key in H as (ex & key & ? & ? & _).
  eauto.
Qed.

Lemma hostel_statement_key (data : pydict) (ch : change) :
  hostel_statement data = Ok ch ->
  exists (ex : pydict) key,
    master_key data = Some key
    /\ ch = on_master (upsert_row key ex hostel_update_columns).
Proof.
  unfold hostel_statement.
  destruct (total_hostel_waste_of data) as [t|]; [|discriminate].
  cbn [bind]. intros H. apply statement_key in H as (ex & key & ? & ? & _).
  eauto.
Qed.

Lemma add_to_master_file_mess_one_row (data : pydict) (w : world) :
  mess_waste_submissions (db (add_to_master_file_mess data w))
    = mess_waste_submissions (db w)
  /\ hostel_waste_submissions (db (add_to_master_file_mess data w))
     = hostel_waste_submissions (db w)
  /\ pho_edits (db (add_to_master_file_mess data w)) = pho_edits (db w)
  /\ forall k, master_key data <> Some k ->
       master_waste_data (db (add_to_master_file_mess data w)) !! k
       = master_waste_data (db w) !! k.
Proof.
  rewrite add_to_master_file_mess_run.
  apply (run_statement_one_row data _ mess_update_columns).
  apply mess_statement_key.
Qed.

Lemma add_to_master_file_hostel_one_row (data : pydict) (w : world) :
  mess_waste_submissions (db (add_to_master_file_hostel data w))
    = mess_waste_submissions (db w)
  /\ hostel_waste_submissions (db (add_to_master_file_hostel data w))
     = hostel_waste_submissions (db w)
  /\ pho_edits (db (add_to_master_file_hostel data w)) = pho_edits (db w)
  /\ forall k, master_key data <> Some k ->
       master_waste_data (db (add_to_master_file_hostel data w)) !! k
       = master_waste_data (db w) !! k.
Proof.
  rewrite add_to_master_file_hostel_run.
  apply (run_statement_one_row data _ hostel_update_columns).
  apply hostel_statement_key.
Qed.

(** X2. Either aggregation leaves both submission tables and the edit
    log as they are, and changes no master row but the one of the
    record's date and hostel. *)
Theorem aggregation_touches_one_row (data : pydict) (w : world) :
  (mess_waste_submissions (db (add_to_master_file_mess data w))
     = mess_waste_submissions (db w)
   /\ hostel_waste_submissions (db (add_to_master_file_mess data w))
      = hostel_waste_submissions (db w)
   /\ pho_edits (db (add_to_master_file_mess data w)) = pho_edits (db w)
   /\ forall k, master_key data <> Some k ->
        master_waste_data (db (add_to_master_file_mess data w)) !! k
        = master_waste_data (db w) !! k)
  /\ (mess_waste_submissions (db (add_to_master_file_hostel data w))
        = mess_waste_submissions (db w)
      /\ hostel_waste_submissions (db (add_to_master_file_hostel data w))
         = hostel_waste_submissions (db w)
      /\ pho_edits (db (add_to_master_file_hostel data w)) = pho_edits (db w)
      /\ forall k, master_key data <> Some k ->
           master_waste_data (db (add_to_master_file_hostel data w)) !! k
           = master_waste_data (db w) !! k).
Proof.
  split.
  - apply add_to_master_file_mess_one_row.
  - apply add_to_master_file_hostel_one_row.
Qed.

(** ** Values the aggregation refuses *)

Lemma radd_not_ok_l (acc : res pyval) (b : pyval) :
  is_ok acc = false -> is_ok (acc .+ b) = false.
Proof. now destruct acc. Qed.

Lemma radd_none_r (acc : res pyval) : is_ok (acc .+ PNone) = false.
Proof. destruct acc as [[]|]; reflexivity. Qed.

Lemma radd_none_l (b : pyval) : is_ok (Ok PNone .+ b) = false.
Proof. reflexivity. Qed.

(** [each_field], computing the list of names first. *)
Ltac each_key H tac :=
  cbv in H; repeat (destruct H as [<-|H]; [tac|]); destruct H.

Ltac sum_has_none :=
  repeat first [ apply radd_none_r | apply radd_none_l | apply radd_not_ok_l ].

Lemma dict_get_none (data : pydict) (k : string) :
  data !! k = Some PNone -> dict_get data k (PNum 0) = PNone.
Proof. unfold dict_get. now intros ->. Qed.

Lemma mess_derived_none (data : pydict) (k : string) :
  In k (student_count_fields ++ waste_component_fields) ->
  data !! k = Some PNone -> is_ok (mess_derived data) = false.
Proof.
  intros Hk Hn. apply dict_get_none in Hn.
  assert (H : is_ok (total_students_of data) = false
              \/ is_ok (total_mess_waste_of data) = false).
  { unfold total_students_of, total_mess_waste_of.
    each_key Hk ltac:(rewrite Hn;
      first [left; sum_has_none; fail | right; sum_has_none; fail]). }
  unfold mess_derived. destruct H as [H|H].
  - now destruct (total_students_of data).
  - destruct (total_students_of data); [|reflexivity]. cbn [bind].
    now destruct (total_mess_waste_of data).
Qed.

Lemma total_hostel_waste_none (data : pydict) (k : string) :
  In k waste_categories ->
  data !! k = Some PNone -> is_ok (total_hostel_waste_of data) = false.
Proof.
  intros Hk Hn. apply dict_get_none in Hn. unfold total_hostel_waste_of.
  each_key Hk ltac:(rewrite Hn; sum_has_none).
Qed.

Lemma mess_aggregation_rejects (data : pydict) (w : world) :
  (exists k, In k (student_count_fields ++ waste_component_fields)
             /\ data !! k = Some PNone)
  \/ master_key data = None ->
  db (add_to_master_file_mess data w) = db w.
Proof.
  rewrite add_to_master_file_mess_run. intros H.
  destruct (run_statement_cases (mess_statement data) w)
    as [E|(c & Hc & _)]; [exact E|]. exfalso.
  destruct H as [(k & Hk & Hn)|Hkey].
  - pose proof (mess_derived_none data k Hk Hn) as Hd.
    unfold mess_statement in Hc. now destruct (mess_derived data).
  - apply mess_statement_key in Hc as (? & ? & ? & _). congruence.
Qed.

Lemma hostel_aggregation_rejects (data : pydict) (w : world) :
  (exists k, In k waste_categories /\ data !! k = Some PNone)
  \/ master_key data = None ->
  db (add_to_master_file_hostel data w) = db w.
Proof.
  rewrite add_to_master_file_hostel_run. intros H.
  destruct (run_statement_cases (hostel_statement data) w)
    as [E|(c & Hc & _)]; [exact E|]. exfalso.
  destruct H as [(k & Hk & Hn)|Hkey].
  - pose proof (total_hostel_waste_none data k Hk Hn) as Hd.
    unfold hostel_statement in Hc. now destruct (total_hostel_waste_of data).
  - apply hostel_statement_key in Hc as (? & ? & ? & _). congruence.
Qed.

(** X3. A record with [None] in a field the aggregation adds up (a
    student count or a waste component of a mess record, a waste category
    of a hostel record), or whose date and hostel give no key of the
    master table, is not aggregated: the database is unchanged. *)
Theorem aggregation_rejects_missing_values (data : pydict) (w : world) :
  ((exists k, In k (student_count_fields ++ waste_component_fields)
              /\ data !! k = Some PNone)
   \/ master_key data = None ->
   db (add_to_master_file_mess data w) = db w)
  /\ ((exists k, In k waste_categories /\ data !! k = Some PNone)
      \/ master_key data = None ->
      db (add_to_master_file_hostel data w) = db w).
Proof.
  split.
  - apply mess_aggregation_rejects.
  - apply hostel_aggregation_rejects.
Qed.

(** ** What the aggregation stores *)

Lemma upsert_row_result (key : string * string) (ex : pydict)
    (cols : list string) (tbl : gmap (string * string) pydict) :
  exists row,
    upsert_row key ex cols tbl !! key = Some row
    /\ forall c, c ∈ cols -> is_Some (ex !! c) -> row !! c = ex !! c.
Proof.
  destruct (tbl !! key) as [row|] eqn:E.
  - rewrite (upsert_row_existing _ _ _ _ _ E). eexists; split; [reflexivity|].
    intros c Hc [v Hv]. rewrite lookup_set_from_excluded, Hv.
    now destruct (decide (c ∈ cols)).
  - rewrite (upsert_row_new _ _ _ _ E). eexists; split; [reflexivity|].
    intros c Hc [v Hv]. rewrite Hv. now apply lookup_union_Some_l.
Qed.

(** X4. With the connection up, once the mess statement is accepted the
    master row of the record's date and hostel holds the derived totals as
    their columns store them: [total_students] as an integer, the two
    totals to 2 decimal places, the two per-capita values to 4. *)
Theorem mess_aggregation_stores_totals
    (data : pydict) (w : world) (key : string * string) (d : mess_totals) :
  connects w = [] ->
  mess_derived data = Ok d ->
  master_key data = Some key ->
  is_ok (mess_statement data) = true ->
  exists row : pydict,
    master_waste_data (db (add_to_master_file_mess data w)) !! key = Some row
    /\ (exists v, sql_store INTEGER (mt_total_students d) = Ok v
                  /\ row !! "total_students" = Some v)
    /\ (exists v, sql_store (DECIMAL 10 2) (mt_total_mess_waste d) = Ok v
                  /\ row !! "total_mess_waste" = Some v)
    /\ (exists v,
          sql_store (DECIMAL 10 2) (mt_total_mess_waste_no_peels d) = Ok v
          /\ row !! "total_mess_waste_no_peels" = Some v)
    /\ (exists v,
          sql_store (DECIMAL 10 4) (mt_per_capita_mess_waste d) = Ok v
          /\ row !! "per_capita_mess_waste" = Some v)
    /\ (exists v,
          sql_store (DECIMAL 10 4) (mt_per_capita_mess_waste_no_peels d) = Ok v
          /\ row !! "per_capita_mess_waste_no_peels" = Some v).
Proof.
  intros Hup Hd Hkey Hok. rewrite add_to_master_file_mess_run.
  rewrite (run_statement_up _ w Hup).
  destruct (mess_statement data) as [ch|] eqn:E; [clear Hok|discriminate].
  unfold mess_statement in E. rewrite Hd in E. cbn [bind] in E.
  apply statement_key in E as (ex & key' & Hk & -> & _ & _ & L).
  rewrite Hkey in Hk. injection Hk as <-.
  assert (Hnd : NoDup ("date" :: "hostel"
                       :: (drop 2 (mess_insert_values data d)).*1))
    by compute_done.
  assert (Hcol : forall c v ty,
            (c, v) ∈ drop 2 (mess_insert_values data d) ->
            column_type master_waste_data_columns c = Some ty ->
            c ∈ mess_update_columns ->
            forall row : pydict,
              (forall c', c' ∈ mess_update_columns -> is_Some (ex !! c') ->
                          row !! c' = ex !! c') ->
              exists cell, sql_store ty v = Ok cell /\ row !! c = Some cell).
  { intros c v ty Hin Hty Hc row Hrow.
    destruct (L c v Hin Hnd) as (ty' & cell & T & S & Ex).
    rewrite Hty in T. injection T as <-.
    exists cell. split; [assumption|]. rewrite Hrow; eauto. }
  unfold commit, on_master. cbn [db master_waste_data].
  destruct (upsert_row_result key ex mess_update_columns
              (master_waste_data (db w))) as (row & Er & Hrow).
  exists row. split; [exact Er|].
  repeat split;
    (eapply Hcol; [in_cells|reflexivity|compute_done|exact Hrow]).
Qed.

(** * Further properties of the approval *)

Lemma store_verified_assignments_inv (sch : schema) (u ts : string)
    (stored : cells) :
  column_type sch "status" = Some (VARCHAR 20) ->
  column_type sch "verified_by" = Some (VARCHAR 50) ->
  column_type sch "verified_at" = Some TIMESTAMP ->
  store_row sch (verified_assignments u ts) = Ok stored ->
  stored = verified_assignments u ts /\ (String.length u <= 50)%nat.
Proof.
  intros H1 H2 H3. unfold verified_assignments. cbn [store_row].
  rewrite H1, H2, H3. cbn [sql_store].
  destruct (String.length u <=? 50)%nat eqn:E.
  - intros [= <-]. split; [reflexivity|]. now apply Nat.leb_le.
  - discriminate.
Qed.

(** The approving [UPDATE], when it is accepted. *)
Lemma approving_update (sch : schema) (u ts : string) (v : pyval)
    (c : gmap string pydict -> gmap string pydict) :
  column_type sch "status" = Some (VARCHAR 20) ->
  column_type sch "verified_by" = Some (VARCHAR 50) ->
  column_type sch "verified_at" = Some TIMESTAMP ->
  update_submission sch (verified_assignments u ts) v = Ok c ->
  exists o, where_submission_id v = Ok o
    /\ c = (fun tbl => match o with
                       | Some s => alter (mark_verified u ts) s tbl
                       | None => tbl
                       end).
Proof.
  intros H1 H2 H3. unfold update_submission.
  destruct (store_row sch (verified_assignments u ts)) as [st|] eqn:E;
    [|discriminate].
  apply store_verified_assignments_inv in E as [-> _]; try assumption.
  cbn [bind]. destruct (where_submission_id v) as [o|]; [|discriminate].
  cbn [bind]. intros [= <-]. now exists o.
Qed.

(** The pieces of the database an approval can change. *)
Lemma approve_submission_cases (record_data : pydict) (u : string)
    (w : world) :
  let r := approve_submission record_data u w in
  let w1 := snd (get_db_connection w) in
  (fst r = false /\ db (snd r) = db w)
  \/ (fst r = true
      /\ fst (get_db_connection w) = true
      /\ exists v o,
           record_data !! "submission_id" = Some v
           /\ where_submission_id v = Ok o
           /\ snd r
              = if dict_has record_data "breakfast_students"
                then commit (on_mess_submissions
                               (fun tbl =>
                                  match o with
                                  | Some s =>
                                      alter (mark_verified u (clock w)) s tbl
                                  | None => tbl
                                  end))
                       (add_to_master_file_mess record_data w1)
                else commit (on_hostel_submissions
                               (fun tbl =>
                                  match o with
                                  | Some s =>
                                      alter (mark_verified u (clock w)) s tbl
                                  | None => tbl
                                  end))
                       (add_to_master_file_hostel record_data w1)).
Proof.
  cbv zeta. unfold approve_submission.
  assert (Hdb : db (snd (get_db_connection w)) = db w
                /\ clock (snd (get_db_connection w)) = clock w).
  { unfold get_db_connection. now destruct (connects w). }
  destruct (get_db_connection w) as [[] w1]; cbn [fst snd] in *;
    [|left; tauto].
  destruct Hdb as [Hdb Hclock]. rewrite Hclock.
  unfold dict_item.
  destruct (record_data !! "submission_id") as [v|]; cbn [bind];
    [|destruct (dict_has record_data "breakfast_students"); left; auto].
  destruct (dict_has record_data "breakfast_students").
  - destruct (update_submission mess_waste_submissions_columns _ v)
      as [c|] eqn:E; [|left; auto].
    apply approving_update in E as (o & Ho & ->); try reflexivity.
    right. cbn [fst snd]. repeat split. now exists v, o.
  - destruct (update_submission hostel_waste_submissions_columns _ v)
      as [c|] eqn:E; [|left; auto].
    apply approving_update in E as (o & Ho & ->); try reflexivity.
    right. cbn [fst snd]. repeat split. now exists v, o.
Qed.

(** X5. An approval that returns [False] has written nothing.  It
    returns [False] when the record has no [submission_id], when the
    verifier's name exceeds the 50 characters of [verified_by], and when
    the connection fails. *)
Theorem failed_approval_writes_nothing (record_data : pydict) (u : string)
    (w : world) :
  (fst (approve_submission record_data u w) = false ->
   db (snd (approve_submission record_data u w)) = db w)
  /\ (record_data !! "submission_id" = None ->
      fst (approve_submission record_data u w) = false)
  /\ ((50 < String.length u)%nat ->
      fst (approve_submission record_data u w) = false)
  /\ (forall later, connects w = false :: later ->
      approve_submission record_data u w
      = (false, World (db w) later (clock w))).
Proof.
  split; [|split; [|split]].
  - intros H. destruct (approve_submission_cases record_data u w)
      as [[_ E]|[E _]]; [exact E|congruence].
  - intros H. destruct (approve_submission_cases record_data u w)
      as [[E _]|(_ & _ & v & o & Hv & _)]; [exact E|congruence].
  - intros H. unfold approve_submission.
    destruct (get_db_connection w) as [[] w1]; [|reflexivity].
    assert (Hst : forall sch,
              column_type sch "status" = Some (VARCHAR 20) ->
              column_type sch "verified_by" = Some (VARCHAR 50) ->
              column_type sch "verified_at" = Some TIMESTAMP ->
              forall v, update_submission sch
                          (verified_assignments u (clock w1)) v
                        = Raise DatabaseError).
    { intros sch H1 H2 H3 v. unfold update_submission.
      destruct (store_row sch _) as [st|e] eqn:E.
      - apply store_verified_assignments_inv in E as [_ E]; try assumption.
        lia.
      - unfold verified_assignments in E. cbn [store_row] in E.
        rewrite H1, H2, H3 in E. cbn [sql_store] in E.
        destruct (String.length u <=? 50)%nat; [discriminate|].
        cbn in E. now injection E as <-. }
    unfold dict_item.
    destruct (dict_has record_data "breakfast_students"),
             (record_data !! "submission_id"); cbn [bind];
      rewrite ?Hst by reflexivity; reflexivity.
  - intros later H. unfold approve_submission, get_db_connection.
    now rewrite H.
Qed.

Lemma add_to_master_mess_tables (data : pydict) (w : world) :
  mess_waste_submissions (db (add_to_master_file_mess data w))
    = mess_waste_submissions (db w)
  /\ hostel_waste_submissions (db (add_to_master_file_mess data w))
     = hostel_waste_submissions (db w).
Proof.
  rewrite add_to_master_file_mess_run.
  destruct (run_statement_master_only (mess_statement data) w
              (mess_statement_master_only data)) as (-> & -> & _). auto.
Qed.

Lemma add_to_master_hostel_tables (data : pydict) (w : world) :
  mess_waste_submissions (db (add_to_master_file_hostel data w))
    = mess_waste_submissions (db w)
  /\ hostel_waste_submissions (db (add_to_master_file_hostel data w))
     = hostel_waste_submissions (db w).
Proof.
  rewrite add_to_master_file_hostel_run.
  destruct (run_statement_master_only (hostel_statement data) w
              (hostel_statement_master_only data)) as (-> & -> & _). auto.
Qed.

Lemma connection_keeps_db (w : world) : db (snd (get_db_connection w)) = db w.
Proof. unfold get_db_connection. now destruct (connects w). Qed.

(** X6. Approving a record whose [submission_id] is not in its table
    returns [True] all the same: the [UPDATE] matches no row, both
    submission tables stay as they are, and the record is aggregated into
    the master table. *)
Theorem approval_of_unknown_submission
    (record_data : pydict) (u : string) (w : world) (sid : string) :
  connects w = [] ->
  record_data !! "submission_id" = Some (PStr sid) ->
  (String.length u <= 50)%nat ->
  table_of_record record_data (db w) !! sid = None ->
  fst (approve_submission record_data u w) = true
  /\ mess_waste_submissions (db (snd (approve_submission record_data u w)))
     = mess_waste_submissions (db w)
  /\ hostel_waste_submissions (db (snd (approve_submission record_data u w)))
     = hostel_waste_submissions (db w)
  /\ master_waste_data (db (snd (approve_submission record_data u w)))
     = master_waste_data
         (db (if dict_has record_data "breakfast_students"
              then add_to_master_file_mess record_data w
              else add_to_master_file_hostel record_data w)).
Proof.
  intros Hup Hsid Hu Hrow.
  assert (E : approve_submission record_data u w
    = (true,
       if dict_has record_data "breakfast_students"
       then commit (on_mess_submissions
                      (alter (mark_verified u (clock w)) sid))
              (add_to_master_file_mess record_data w)
       else commit (on_hostel_submissions
                      (alter (mark_verified u (clock w)) sid))
              (add_to_master_file_hostel record_data w))).
  { unfold approve_submission. rewrite (get_db_connection_up w Hup).
    unfold dict_item. rewrite Hsid. cbn [bind]. unfold update_submission.
    destruct (dict_has record_data "breakfast_students");
      rewrite store_verified_assignments by (reflexivity || assumption);
      reflexivity. }
  rewrite E. cbn [fst snd]. split; [reflexivity|].
  unfold table_of_record in Hrow.
  destruct (dict_has record_data "breakfast_students"); cbn.
  - destruct (add_to_master_mess_tables record_data w) as [-> ->].
    repeat split. apply map_eq. intros i. rewrite lookup_alter.
    destruct (decide (sid = i)) as [<-|]; [now rewrite Hrow|reflexivity].
  - destruct (add_to_master_hostel_tables record_data w) as [-> ->].
    repeat split. apply map_eq. intros i. rewrite lookup_alter.
    destruct (decide (sid = i)) as [<-|]; [now rewrite Hrow|reflexivity].
Qed.

(** X7. An approval changes no submission but the one whose id the
    record carries, nothing in the submission table of the other kind,
    and no master row but the one of the record's date and hostel. *)
Theorem approval_touches_one_submission
    (record_data : pydict) (u : string) (w : world) :
  (forall sid,
     record_data !! "submission_id" <> Some (PStr sid) ->
     mess_waste_submissions (db (snd (approve_submission record_data u w)))
       !! sid = mess_waste_submissions (db w) !! sid
     /\ hostel_waste_submissions
          (db (snd (approve_submission record_data u w))) !! sid
        = hostel_waste_submissions (db w) !! sid)
  /\ (dict_has record_data "breakfast_students" = true ->
      hostel_waste_submissions (db (snd (approve_submission record_data u w)))
      = hostel_waste_submissions (db w))
  /\ (dict_has record_data "breakfast_students" = false ->
      mess_waste_submissions (db (snd (approve_submission record_data u w)))
      = mess_waste_submissions (db w))
  /\ (forall k, master_key record_data <> Some k ->
      master_waste_data (db (snd (approve_submission record_data u w))) !! k
      = master_waste_data (db w) !! k).
Proof.
  pose proof (approve_submission_cases record_data u w) as H.
  cbv zeta in H.
  destruct H as [[_ E]|(_ & _ & v & o & Hv & Ho & E)].
  - rewrite E. repeat split; auto.
  - rewrite E. clear E.
    pose proof (add_to_master_file_mess_one_row record_data
                  (snd (get_db_connection w))) as (Mm & Mh & _ & Mk).
    pose proof (add_to_master_file_hostel_one_row record_data
                  (snd (get_db_connection w))) as (Hm & Hh & _ & Hk).
    rewrite connection_keeps_db in Mm, Mh, Mk, Hm, Hh, Hk.
    assert (Hsel : forall (tbl : gmap string pydict) sid,
              record_data !! "submission_id" <> Some (PStr sid) ->
              match o with
              | Some s => alter (mark_verified u (clock w)) s tbl
              | None => tbl
              end !! sid = tbl !! sid).
    { intros tbl sid Hne. destruct o as [s|]; [|reflexivity].
      apply lookup_alter_ne. intros ->. apply Hne. rewrite Hv. f_equal.
      destruct v; cbn in Ho; congruence. }
    destruct (dict_has record_data "breakfast_students"); cbn.
    + rewrite Mm, Mh. repeat split; auto; try discriminate;
        try (now apply Hsel).
    + rewrite Hm, Hh. repeat split; auto; try discriminate;
        try (now apply Hsel).
Qed.

(** X8. When a stored submission has [None] in a field the aggregation
    adds up, approving it returns [True] and marks the row verified, but
    the master table is unchanged: the failure of the aggregation does
    not reach the approval. *)
Theorem approval_without_aggregate
    (record_data : pydict) (u : string) (w : world) (sid k : string)
    (row : pydict) :
  connects w = [] ->
  record_data !! "submission_id" = Some (PStr sid) ->
  (String.length u <= 50)%nat ->
  table_of_record record_data (db w) !! sid = Some row ->
  In k (if dict_has record_data "breakfast_students"
        then student_count_fields ++ waste_component_fields
        else waste_categories) ->
  record_data !! k = Some PNone ->
  fst (approve_submission record_data u w) = true
  /\ master_waste_data (db (snd (approve_submission record_data u w)))
     = master_waste_data (db w)
  /\ exists row',
       table_of_record record_data
         (db (snd (approve_submission record_data u w))) !! sid = Some row'
       /\ row' !! "status" = Some (PStr "verified").
Proof.
  intros Hup Hsid Hu Hrow Hk Hn.
  pose proof (approve_submission_cases record_data u w) as H.
  cbv zeta in H. rewrite (get_db_connection_up w Hup) in H. cbn [snd] in H.
  assert (Hstore : forall sch,
            column_type sch "status" = Some (VARCHAR 20) ->
            column_type sch "verified_by" = Some (VARCHAR 50) ->
            column_type sch "verified_at" = Some TIMESTAMP ->
            is_ok (update_submission sch (verified_assignments u (clock w))
                     (PStr sid)) = true).
  { intros sch H1 H2 H3. unfold update_submission.
    now rewrite store_verified_assignments. }
  destruct H as [[E _]|(E & _ & v & o & Hv & Ho & Ew)].
  { exfalso. revert E. unfold approve_submission.
    rewrite (get_db_connection_up w Hup). unfold dict_item. rewrite Hsid.
    cbn [bind].
    destruct (dict_has record_data "breakfast_students").
    - pose proof (Hstore mess_waste_submissions_columns
                    eq_refl eq_refl eq_refl) as S.
      now destruct (update_submission mess_waste_submissions_columns _ _).
    - pose proof (Hstore hostel_waste_submissions_columns
                    eq_refl eq_refl eq_refl) as S.
      now destruct (update_submission hostel_waste_submissions_columns _ _). }
  split; [exact E|]. rewrite Ew. clear Ew E.
  rewrite Hsid in Hv. injection Hv as <-. cbn in Ho. injection Ho as <-.
  pose proof (mess_aggregation_rejects record_data w) as Rm.
  pose proof (hostel_aggregation_rejects record_data w) as Rh.
  unfold table_of_record in *.
  destruct (dict_has record_data "breakfast_students"); cbn.
  - rewrite Rm by eauto. split; [reflexivity|].
    rewrite lookup_alter_eq, Hrow. eexists; split; [reflexivity|].
    apply lookup_union_Some_l. reflexivity.
  - rewrite Rh by eauto. split; [reflexivity|].
    rewrite lookup_alter_eq, Hrow. eexists; split; [reflexivity|].
    apply lookup_union_Some_l. reflexivity.
Qed.

(** * Display totals of several collections *)

Lemma add_to_total_numeric (k : string) (record totals : pydict) (cur : Q) :
  totals !! k = Some (PNum cur) -> numeric_field record k ->
  add_to_total k record totals
  = Ok (<[k := PNum (cur + field_num record k)]> totals).
Proof.
  intros Ht Hr. unfold add_to_total, dict_item. rewrite Ht. cbn [bind].
  rewrite (numeric_field_get record k Hr). reflexivity.
Qed.

Lemma add_collection_numeric (totals record : pydict)
    (c1 c2 c3 c4 c5 c6 : Q) :
  totals !! "dry_waste" = Some (PNum c1) ->
  totals !! "wet_waste" = Some (PNum c2) ->
  totals !! "e_waste" = Some (PNum c3) ->
  totals !! "biomedical_waste" = Some (PNum c4) ->
  totals !! "hazardous_waste" = Some (PNum c5) ->
  totals !! "total_waste" = Some (PNum c6) ->
  (forall k, In k collection_fields -> numeric_field record k) ->
  add_collection totals record
  = Ok (<["total_waste" := PNum (c6 + field_num record "total_waste")]>
        (<["hazardous_waste" := PNum (c5 + field_num record "hazardous_waste")]>
        (<["biomedical_waste" :=
             PNum (c4 + field_num record "biomedical_waste")]>
        (<["e_waste" := PNum (c3 + field_num record "e_waste")]>
        (<["wet_waste" := PNum (c2 + field_num record "wet_waste")]>
        (<["dry_waste" := PNum (c1 + field_num record "dry_waste")]>
           totals)))))).
Proof.
  intros H1 H2 H3 H4 H5 H6 Hn. unfold add_collection.
  rewrite (add_to_total_numeric "dry_waste" _ _ c1) by
    (assumption || (apply Hn; in_fields)). cbn [bind].
  rewrite (add_to_total_numeric "wet_waste" _ _ c2) by
    (first [apply Hn; in_fields | now rewrite !lookup_insert_ne by discriminate]).
  cbn [bind].
  rewrite (add_to_total_numeric "e_waste" _ _ c3) by
    (first [apply Hn; in_fields | now rewrite !lookup_insert_ne by discriminate]).
  cbn [bind].
  rewrite (add_to_total_numeric "biomedical_waste" _ _ c4) by
    (first [apply Hn; in_fields | now rewrite !lookup_insert_ne by discriminate]).
  cbn [bind].
  rewrite (add_to_total_numeric "hazardous_waste" _ _ c5) by
    (first [apply Hn; in_fields | now rewrite !lookup_insert_ne by discriminate]).
  cbn [bind].
  rewrite (add_to_total_numeric "total_waste" _ _ c6) by
    (first [apply Hn; in_fields | now rewrite !lookup_insert_ne by discriminate]).
  reflexivity.
Qed.

Lemma add_collections_numeric (records : list pydict) :
  forall (totals : pydict) (c1 c2 c3 c4 c5 c6 : Q),
  totals !! "dry_waste" = Some (PNum c1) ->
  totals !! "wet_waste" = Some (PNum c2) ->
  totals !! "e_waste" = Some (PNum c3) ->
  totals !! "biomedical_waste" = Some (PNum c4) ->
  totals !! "hazardous_waste" = Some (PNum c5) ->
  totals !! "total_waste" = Some (PNum c6) ->
  (forall r k, In r records -> In k collection_fields -> numeric_field r k) ->
  exists result,
    add_collections totals records = Ok result
    /\ (let total k c :=
          result !! k
          = Some (PNum (fold_left Qplus
                          (map (fun r => field_num r k) records) c)) in
        total "dry_waste" c1 /\ total "wet_waste" c2 /\ total "e_waste" c3
        /\ total "biomedical_waste" c4 /\ total "hazardous_waste" c5
        /\ total "total_waste" c6)
    /\ forall k, ~ In k collection_fields -> result !! k = totals !! k.
Proof.
  induction records as [|r rs IH]; intros totals c1 c2 c3 c4 c5 c6
    H1 H2 H3 H4 H5 H6 Hn.
  - exists totals. cbn. auto 10.
  - cbn [add_collections].
    rewrite (add_collection_numeric totals r c1 c2 c3 c4 c5 c6); try assumption;
      [|intros k Hk; apply Hn; [now left|assumption]].
    cbn [bind].
    match goal with |- context [add_collections ?t rs] =>
      destruct (IH t (c1 + field_num r "dry_waste")%Q
                  (c2 + field_num r "wet_waste")%Q
                  (c3 + field_num r "e_waste")%Q
                  (c4 + field_num r "biomedical_waste")%Q
                  (c5 + field_num r "hazardous_waste")%Q
                  (c6 + field_num r "total_waste")%Q)
        as (result & E & Hsum & Hother)
    end;
      try (now rewrite ?lookup_insert_eq;
           repeat (rewrite lookup_insert_ne by discriminate;
                   rewrite ?lookup_insert_eq)).
    { intros r' k Hr Hk. apply Hn; [now right|assumption]. }
    exists result. split; [exact E|]. split; [exact Hsum|].
    intros k Hk. rewrite (Hother k Hk).
    assert (forall x, In x collection_fields -> x <> k)
      by (intros x Hx ->; contradiction).
    rewrite !lookup_insert_ne by (apply H; in_fields). reflexivity.
Qed.

(** X9. For one or more collections with numeric fields,
    [aggregate_hostel_waste_collections] returns, for each of the five
    waste categories and for [total_waste], the sum over the collections;
    [collection_count] is their number, [hostel] and [submission_date]
    are those of the first collection. *)
Theorem display_totals_are_sums (first : pydict) (rest : list pydict) :
  (forall r k, In r (first :: rest) -> In k collection_fields ->
               numeric_field r k) ->
  exists totals,
    aggregate_hostel_waste_collections (first :: rest) = Ok totals
    /\ (forall k, In k collection_fields ->
          totals !! k
          = Some (PNum (fold_left Qplus
                          (map (fun r => field_num r k) (first :: rest)) 0%Q)))
    /\ totals !! "collection_count"
       = Some (PNum (inject_Z (Z.of_nat (length (first :: rest)))))
    /\ totals !! "hostel" = Some (dict_get first "hostel" (PStr "N/A"))
    /\ totals !! "submission_date"
       = Some (dict_get first "submission_date" (PStr "N/A")).
Proof.
  intros Hn. unfold aggregate_hostel_waste_collections.
  match goal with |- context [add_collections ?t (first :: rest)] =>
    destruct (add_collections_numeric (first :: rest) t 0 0 0 0 0 0)
      as (result & E & Hsum & Hother); try reflexivity; [exact Hn|];
    exists result; split; [exact E|]
  end.
  cbv zeta in Hsum. destruct Hsum as (S1 & S2 & S3 & S4 & S5 & S6).
  split; [|split; [|split]].
  - intros k Hk. each_key Hk ltac:(assumption).
  - rewrite Hother by (cbv; intuition discriminate). reflexivity.
  - rewrite Hother by (cbv; intuition discriminate). reflexivity.
  - rewrite Hother by (cbv; intuition discriminate). reflexivity.
Qed.

Lemma add_to_total_none (k : string) (record totals : pydict) :
  record !! k = Some PNone -> is_ok (add_to_total k record totals) = false.
Proof.
  intros H. unfold add_to_total, dict_item.
  destruct (totals !! k); [|reflexivity]. cbn [bind].
  now rewrite (dict_get_none record k H).
Qed.

Lemma add_collection_none (totals record : pydict) (k : string) :
  In k collection_fields -> record !! k = Some PNone ->
  is_ok (add_collection totals record) = false.
Proof.
  intros Hk Hn. unfold add_collection.
  each_key Hk ltac:(
    repeat first
      [ apply (add_to_total_none _ _ _ Hn)
      | match goal with
        | |- is_ok (bind (add_to_total ?key record ?t) _) = false =>
            let E := fresh "E" in
            destruct (add_to_total key record t) eqn:E; cbn [bind];
            [ try (exfalso;
                   let X := fresh "X" in
                   assert (X := add_to_total_none _ _ t Hn);
                   rewrite E in X; discriminate)
            | reflexivity ]
        end ]).
Qed.

Lemma add_collections_none (records : list pydict) (r : pydict) (k : string) :
  In r records -> In k collection_fields -> r !! k = Some PNone ->
  forall totals, is_ok (add_collections totals records) = false.
Proof.
  intros Hr Hk Hn. induction records as [|r0 rs IH]; [destruct Hr|].
  intros totals. cbn [add_collections].
  destruct Hr as [->|Hr].
  - pose proof (add_collection_none totals r k Hk Hn) as H.
    now destruct (add_collection totals r).
  - destruct (add_collection totals r0); [|reflexivity]. cbn [bind].
    now apply IH.
Qed.

(** X10. [aggregate_hostel_waste_collections] returns the empty
    dictionary for no record, and raises as soon as one record has [None]
    in a field it adds up. *)
Theorem display_totals_edge_cases :
  aggregate_hostel_waste_collections [] = Ok ∅
  /\ forall records r k,
       In r records -> In k collection_fields -> r !! k = Some PNone ->
       is_ok (aggregate_hostel_waste_collections records) = false.
Proof.
  split; [reflexivity|]. intros records r k Hr Hk Hn.
  unfold aggregate_hostel_waste_collections.
  destruct records as [|first rest]; [destruct Hr|].
  now apply (add_collections_none _ r k).
Qed.

(** * Further properties of the edit flow *)

Lemma dict_items_lookup (d : pydict) (keys : list string) (items : cells) :
  dict_items d keys = Ok items ->
  forall k, k ∈ keys -> exists x, d !! k = Some x /\ (k, x) ∈ items.
Proof.
  revert items. induction keys as [|k0 rest IH]; intros items; simpl.
  - intros _ k Hk. now apply elem_of_nil in Hk.
  - unfold dict_item. destruct (d !! k0) as [x0|] eqn:E0; [|discriminate].
    cbn [bind]. destruct (dict_items d rest) as [vs|]; [|discriminate].
    cbn [bind]. intros [= <-] k Hk.
    apply elem_of_cons in Hk as [->|Hk].
    + exists x0. split; [assumption|]. apply elem_of_cons. now left.
    + destruct (IH vs eq_refl k Hk) as (x & Hx & Hin).
      exists x. split; [assumption|]. apply elem_of_cons. now right.
Qed.

Lemma dict_items_missing (d : pydict) (keys : list string) (k : string) :
  k ∈ keys -> d !! k = None -> dict_items d keys = Raise KeyError.
Proof.
  intros Hk Hn. induction keys as [|k0 rest IH]; [now apply elem_of_nil in Hk|].
  simpl. unfold dict_item.
  destruct (decide (k0 = k)) as [->|Hne]; [now rewrite Hn|].
  apply elem_of_cons in Hk as [->|Hk]; [congruence|].
  destruct (d !! k0); [|reflexivity]. cbn [bind]. now rewrite (IH Hk).
Qed.

Lemma update_submission_row (sch : schema) (assignments : cells)
    (sid : string) (c : gmap string pydict -> gmap string pydict) :
  update_submission sch assignments (PStr sid) = Ok c ->
  NoDup assignments.*1 ->
  forall tbl row, tbl !! sid = Some row ->
  exists row',
    c tbl !! sid = Some row'
    /\ (forall k x, (k, x) ∈ assignments ->
          exists ty cell,
            column_type sch k = Some ty /\ sql_store ty x = Ok cell
            /\ row' !! k = Some cell)
    /\ (forall k, k ∉ assignments.*1 -> row' !! k = row !! k).
Proof.
  unfold update_submission.
  destruct (store_row sch assignments) as [stored|] eqn:Es; [|discriminate].
  cbn. intros [= <-] Hnd tbl row Hrow.
  rewrite lookup_alter_eq, Hrow. eexists; split; [reflexivity|]. split.
  - intros k x Hin.
    destruct (store_row_lookup _ _ _ k x Es Hnd Hin) as (ty & cell & T & S & L).
    exists ty, cell. repeat split; try assumption.
    now apply lookup_union_Some_l.
  - intros k Hk. apply lookup_union_r, not_elem_of_list_to_map_1.
    now rewrite (store_row_keys _ _ _ Es).
Qed.

(** What an accepted editing [UPDATE] is. *)
Lemma update_submission_with_edits_success (sid ty : string)
    (edited : pydict) (u : string) (w : world) :
  fst (update_submission_with_edits (PStr sid) ty edited u w) = true ->
  exists edits c,
    dict_items edited (edit_columns_of_type ty) = Ok edits
    /\ update_submission (columns_of_type ty)
         (edits ++ verified_assignments u (clock w))%list (PStr sid) = Ok c
    /\ table_of_type ty
         (db (snd (update_submission_with_edits (PStr sid) ty edited u w)))
       = c (table_of_type ty (db w)).
Proof.
  unfold update_submission_with_edits, columns_of_type, edit_columns_of_type,
    table_of_type.
  assert (Hw : db (snd (get_db_connection w)) = db w
               /\ clock (snd (get_db_connection w)) = clock w).
  { unfold get_db_connection. now destruct (connects w). }
  destruct (get_db_connection w) as [[] w1]; cbn [fst snd] in *;
    [|discriminate].
  destruct Hw as [Hdb Hclock]. rewrite Hclock.
  destruct (String.eqb ty "mess_waste").
  - destruct (dict_items edited mess_edit_columns) as [edits|];
      cbn [bind]; [|discriminate].
    destruct (update_submission mess_waste_submissions_columns _ _)
      as [c|] eqn:E; [|discriminate].
    intros _. exists edits, c. cbn. now rewrite Hdb.
  - destruct (dict_items edited hostel_edit_columns) as [edits|];
      cbn [bind]; [|discriminate].
    destruct (update_submission hostel_waste_submissions_columns _ _)
      as [c|] eqn:E; [|discriminate].
    intros _. exists edits, c. cbn. now rewrite Hdb.
Qed.

(** X11. When [update_submission_with_edits] returns [True] for a stored
    submission, the row holds every edited field as its column stores the
    entered value, the status [verified] and the verifier's name; every
    other column of the row is as before. *)
Theorem edit_stores_entered_values (sid ty : string) (edited : pydict)
    (u : string) (w : world) (row : pydict) :
  fst (update_submission_with_edits (PStr sid) ty edited u w) = true ->
  table_of_type ty (db w) !! sid = Some row ->
  exists row',
    table_of_type ty
      (db (snd (update_submission_with_edits (PStr sid) ty edited u w)))
      !! sid = Some row'
    /\ (forall k, In k (edit_columns_of_type ty) ->
          exists x colty cell,
            edited !! k = Some x
            /\ column_type (columns_of_type ty) k = Some colty
            /\ sql_store colty x = Ok cell
            /\ row' !! k = Some cell)
    /\ row' !! "status" = Some (PStr "verified")
    /\ row' !! "verified_by" = Some (PStr u)
    /\ (forall k,
          ~ In k (edit_columns_of_type ty
                  ++ ["status"; "verified_by"; "verified_at"]) ->
          row' !! k = row !! k).
Proof.
  intros Hok Hrow.
  destruct (update_submission_with_edits_success sid ty edited u w Hok)
    as (edits & c & Hitems & Hc & ->).
  assert (Hkeys : ((edits ++ verified_assignments u (clock w))%list).*1
                  = (edit_columns_of_type ty
                     ++ ["status"; "verified_by"; "verified_at"])%list).
  { rewrite fmap_app, (dict_items_keys _ _ _ Hitems). reflexivity. }
  assert (Hnd : NoDup ((edits ++ verified_assignments u (clock w))%list).*1).
  { rewrite Hkeys. unfold edit_columns_of_type.
    destruct (String.eqb ty "mess_waste"); compute_done. }
  destruct (update_submission_row _ _ _ _ Hc Hnd _ _ Hrow)
    as (row' & E & Hset & Hkeep).
  exists row'. split; [exact E|]. split; [|split; [|split]].
  - intros k Hk. apply list_elem_of_In in Hk.
    destruct (dict_items_lookup _ _ _ Hitems k Hk) as (x & Hx & Hin).
    destruct (Hset k x) as (colty & cell & T & S & L).
    { apply elem_of_app. now left. }
    exists x, colty, cell. auto.
  - destruct (Hset "status" (PStr "verified")) as (colty & cell & T & S & L).
    { apply elem_of_app. right. in_cells. }
    unfold columns_of_type in T.
    destruct (String.eqb ty "mess_waste"); vm_compute in T;
      injection T as <-; cbn in S; now injection S as <-.
  - destruct (Hset "verified_by" (PStr u)) as (colty & cell & T & S & L).
    { apply elem_of_app. right. in_cells. }
    unfold columns_of_type in T.
    destruct (String.eqb ty "mess_waste"); vm_compute in T;
      injection T as <-; cbn [sql_store] in S;
      destruct (String.length u <=? 50)%nat; try discriminate;
      now injection S as <-.
  - intros k Hk. apply Hkeep. rewrite Hkeys. now rewrite list_elem_of_In.
Qed.

(** X12. If the edited data lack one of the fields the [UPDATE] names,
    [update_submission_with_edits] returns [False] and changes nothing. *)
Theorem edit_with_missing_field_fails (submission_id : pyval) (ty : string)
    (edited : pydict) (u : string) (w : world) (k : string) :
  In k (edit_columns_of_type ty) -> edited !! k = None ->
  fst (update_submission_with_edits submission_id ty edited u w) = false
  /\ db (snd (update_submission_with_edits submission_id ty edited u w))
     = db w.
Proof.
  intros Hk Hn. apply list_elem_of_In in Hk.
  unfold update_submission_with_edits, edit_columns_of_type in *.
  pose proof (connection_keeps_db w) as Hdb.
  destruct (get_db_connection w) as [[] w1]; cbn [fst snd] in *; [|auto].
  destruct (String.eqb ty "mess_waste");
    rewrite (dict_items_missing _ _ k Hk Hn); cbn; auto.
Qed.

(** X13. The totals the edit form puts into the edited data
    ([total_students] and [total_mess_waste], or [total_waste]) are the
    totals the aggregation derives from the same edited data. *)
Theorem edited_totals_agree_with_aggregation (f : form_values) :
  (exists s t : Q,
     prepare_edited_data "mess_waste" f !! "total_students" = Some (PNum s)
     /\ prepare_edited_data "mess_waste" f !! "total_mess_waste"
        = Some (PNum t)
     /\ total_students_of (prepare_edited_data "mess_waste" f) = Ok (PNum s)
     /\ total_mess_waste_of (prepare_edited_data "mess_waste" f)
        = Ok (PNum t))
  /\ (exists t : Q,
        prepare_edited_data "hostel_waste" f !! "total_waste" = Some (PNum t)
        /\ total_hostel_waste_of (prepare_edited_data "hostel_waste" f)
           = Ok (PNum t)).
Proof.
  split.
  - eexists _, _. repeat split; reflexivity.
  - eexists. split; reflexivity.
Qed.

(** X14. The save branch of [show_edit_form] raises [KeyError] for a
    record without [submission_id]; with the connection down it reports
    the error of saving the edit and writes nothing; for a submission type
    other than [mess_waste] and [hostel_waste] it can only report that
    error, with the database unchanged. *)
Theorem edit_form_failures (record_data : pydict) (ty u : string)
    (f : form_values) (reason : string) (w : world) :
  (record_data !! "submission_id" = None ->
   show_edit_form record_data ty u f reason w = Raise KeyError)
  /\ (forall later, connects w = false :: later ->
      is_Some (record_data !! "submission_id") ->
      show_edit_form record_data ty u f reason w
      = Ok (ErrorSavingEdit, World (db w) later (clock w)))
  /\ (ty <> "mess_waste" -> ty <> "hostel_waste" ->
      forall o w',
        show_edit_form record_data ty u f reason w = Ok (o, w') ->
        o = ErrorSavingEdit /\ db w' = db w).
Proof.
  split; [|split].
  - intros H. unfold show_edit_form, dict_item. now rewrite H.
  - intros later Hc [v Hv]. unfold show_edit_form, dict_item. rewrite Hv.
    cbn [bind]. unfold save_pho_edit, get_db_connection. now rewrite Hc.
  - intros H1 H2 o w'. unfold show_edit_form, dict_item.
    destruct (record_data !! "submission_id") as [v|]; [|discriminate].
    cbn [bind].
    assert (E : fst (save_pho_edit v ty record_data
                       (prepare_edited_data ty f) u reason w) = false
                /\ db (snd (save_pho_edit v ty record_data
                              (prepare_edited_data ty f) u reason w)) = db w).
    { unfold save_pho_edit. pose proof (connection_keeps_db w) as Hdb.
      destruct (get_db_connection w) as [[] w1]; cbn [fst snd] in *; [|auto].
      destruct (json_dumps record_data); [|auto]. cbn [bind].
      destruct (json_dumps (prepare_edited_data ty f)); [|auto]. cbn [bind].
      unfold insert_pho_edit. destruct v; auto.
      apply String.eqb_neq in H1, H2. rewrite H1, H2.
      rewrite andb_false_r. cbn. auto. }
    destruct (save_pho_edit v ty record_data (prepare_edited_data ty f)
                u reason w) as [saved w1].
    cbn [fst snd] in E. destruct E as [-> Hdb]. now intros [= <- <-].
Qed.

(** * Hostel codes and the keys of the pending list *)

Lemma has_char_replace_char (a b : ascii) (s : string) :
  a <> b -> has_char a (replace_char a b s) = false.
Proof.
  intros Hab. induction s as [|c s IH]; [reflexivity|].
  cbn [replace_char has_char]. rewrite IH, orb_false_r.
  destruct (Ascii.eqb c a) eqn:E.
  - apply Ascii.eqb_neq. congruence.
  - exact E.
Qed.

Lemma replace_from_absent (old new s : string) :
  contains old s = false -> replace_from old new 0 s = s.
Proof.
  induction s as [|c s IH]; [reflexivity|].
  cbn [contains replace_from]. intros H.
  apply orb_false_iff in H as [-> H]. now rewrite IH.
Qed.

Lemma replace_from_skip (old new x s : string) :
  replace_from old new (String.length x) (x ++ s) = replace_from old new 0 s.
Proof. induction x as [|c x IH]; [reflexivity|exact IH]. Qed.

Lemma prefix_app (x s : string) : String.prefix x (x ++ s) = true.
Proof.
  induction x as [|c x IH]; [now destruct s|]. simpl.
  now destruct (ascii_dec c c).
Qed.

(** Removing [old] from a text that starts with it. *)
Lemma replace_leading (c : ascii) (old s : string) :
  replace (String c old) "" (String c old ++ s)
  = replace_from (String c old) "" 0 s.
Proof.
  unfold replace.
  change (replace_from (String c old) "" 0 (String c old ++ s))
    with (if String.prefix (String c old) (String c old ++ s)
          then "" ++ replace_from (String c old) ""
                       (String.length (String c old) - 1) (old ++ s)
          else String c (replace_from (String c old) "" 0 (old ++ s))).
  rewrite prefix_app.
  change ("" ++ ?x) with x.
  replace (String.length (String c old) - 1)%nat with (String.length old)
    by (simpl; lia).
  apply replace_from_skip.
Qed.

(** X16. A hostel code never contains an underscore, whatever the
    username: [get_hostel_from_username] turns every one that is left
    into a hyphen. *)
Theorem hostel_code_has_no_underscore (username : string) :
  has_char "_" (get_hostel_from_username username) = false.
Proof.
  unfold get_hostel_from_username.
  destruct (startswith "pho_supervisor_" username); [|reflexivity].
  now apply has_char_replace_char.
Qed.

(** X17. For the username [pho_supervisor_] followed by a text in which
    that prefix does not occur again, the hostel code is the text with
    its underscores turned into hyphens; a username without the prefix
    has the empty code. *)
Theorem hostel_code_of_supervisor (h : string) :
  contains "pho_supervisor_" h = false ->
  get_hostel_from_username ("pho_supervisor_" ++ h) = replace_char "_" "-" h
  /\ get_hostel_from_username h = "".
Proof.
  intros H. split.
  - unfold get_hostel_from_username, startswith.
    rewrite prefix_app. cbv zeta.
    now rewrite replace_leading, replace_from_absent.
  - unfold get_hostel_from_username, startswith.
    destruct h as [|c h]; [reflexivity|].
    cbn [contains] in H. apply orb_false_iff in H as [-> _]. reflexivity.
Qed.

Lemma split_once_app (sep : ascii) (x y : string) :
  has_char sep x = false -> split_once sep (x ++ String sep y) = Some (x, y).
Proof.
  induction x as [|c x IH]; simpl.
  - intros _. now rewrite Ascii.eqb_refl.
  - intros H. apply orb_false_iff in H as [-> H]. now rewrite IH.
Qed.

Lemma rsplit_once_none (sep : ascii) (y : string) :
  has_char sep y = false -> rsplit_once sep y = None.
Proof.
  induction y as [|c y IH]; [reflexivity|]. cbn [has_char rsplit_once].
  intros H. apply orb_false_iff in H as [-> H]. now rewrite IH.
Qed.

Lemma rsplit_once_app (sep : ascii) (x y : string) :
  has_char sep y = false -> rsplit_once sep (x ++ String sep y) = Some (x, y).
Proof.
  intros H. induction x as [|c x IH]; simpl.
  - now rewrite (rsplit_once_none _ _ H), Ascii.eqb_refl.
  - now rewrite IH.
Qed.

Lemma append_assoc (a b c : string) : (a ++ b) ++ c = a ++ (b ++ c).
Proof.
  induction a as [|x a IH]; [reflexivity|].
  change (String x ((a ++ b) ++ c) = String x (a ++ (b ++ c))).
  now rewrite IH.
Qed.

Lemma parse_pending_key_of (hostel date_str kind : string) :
  has_char "_" hostel = false ->
  parse_pending_key (hostel ++ "_" ++ date_str ++ "_" ++ kind ++ "_waste")
  = Some (hostel, date_str ++ "_" ++ kind, "waste").
Proof.
  intros H. unfold parse_pending_key.
  replace (hostel ++ "_" ++ date_str ++ "_" ++ kind ++ "_waste")
    with ((hostel ++ "_" ++ date_str ++ "_" ++ kind) ++ String "_" "waste")
    by (rewrite !append_assoc; reflexivity).
  rewrite rsplit_once_app by reflexivity.
  change (hostel ++ "_" ++ date_str ++ "_" ++ kind)
    with (hostel ++ String "_" (date_str ++ "_" ++ kind)).
  now rewrite split_once_app.
Qed.

(** X18. The dashboard takes the keys of the pending list apart with a
    split at the last and one at the first underscore.  For a hostel code
    without underscore it gets the hostel back, but reads [waste] as the
    waste type and the date with [_mess] or [_hostel] appended as the
    date. *)
Theorem pending_key_parse (hostel date_str : string) :
  has_char "_" hostel = false ->
  parse_pending_key (mess_waste_key hostel date_str)
  = Some (hostel, date_str ++ "_mess", "waste")
  /\ parse_pending_key (hostel_waste_key hostel date_str)
     = Some (hostel, date_str ++ "_hostel", "waste").
Proof.
  intros H. split.
  - apply (parse_pending_key_of hostel date_str "mess" H).
  - apply (parse_pending_key_of hostel date_str "hostel" H).
Qed.

(** * The session *)

Lemma fold_insert_absent (l : list (string * sval)) (s : session) :
  fold_left (fun s kv => match s !! fst kv with
                         | Some _ => s
                         | None => <[fst kv := snd kv]> s
                         end) l s
  = s ∪ list_to_map l.
Proof.
  revert s. induction l as [|[k v] l IH]; intros s.
  - cbn [fold_left]. rewrite list_to_map_nil. symmetry. apply map_union_empty.
  - cbn [fold_left fst snd]. rewrite IH, list_to_map_cons.
    apply map_eq. intros i. destruct (s !! k) as [x|] eqn:E.
    + rewrite !lookup_union. destruct (decide (i = k)) as [->|Hne].
      * rewrite E, lookup_insert_eq. now destruct (list_to_map l !! k).
      * now rewrite lookup_insert_ne.
    + rewrite !lookup_union. destruct (decide (i = k)) as [->|Hne].
      * rewrite E, !lookup_insert_eq. now destruct (list_to_map l !! k).
      * now rewrite !lookup_insert_ne.
Qed.

Lemma init_session_state_union (s : session) :
  init_session_state s = s ∪ list_to_map session_defaults.
Proof. apply fold_insert_absent. Qed.

Lemma session_defaults_lookup (k : string) (v : sval) :
  In (k, v) session_defaults ->
  (list_to_map session_defaults : session) !! k = Some v.
Proof.
  intros H. apply elem_of_list_to_map_1; [compute_done|].
  now apply list_elem_of_In.
Qed.

(** X19. [init_session_state] keeps every entry the session has, gives
    each missing key of the list its default and adds no other key; run
    a second time it changes nothing. *)
Theorem init_session_state_fills_gaps (s : session) :
  (forall k v, s !! k = Some v -> init_session_state s !! k = Some v)
  /\ (forall k v, In (k, v) session_defaults -> s !! k = None ->
        init_session_state s !! k = Some v)
  /\ (forall k, s !! k = None -> ~ In k (map fst session_defaults) ->
        init_session_state s !! k = None)
  /\ init_session_state (init_session_state s) = init_session_state s.
Proof.
  rewrite !init_session_state_union. repeat split.
  - intros k v H. now apply lookup_union_Some_l.
  - intros k v Hin H. rewrite lookup_union_r by exact H.
    now apply session_defaults_lookup.
  - intros k H Hn. apply lookup_union_None. split; [exact H|].
    apply not_elem_of_list_to_map. now rewrite list_elem_of_In.
  - rewrite <- (assoc_L (∪)). now rewrite (idemp_L (∪)).
Qed.

Lemma fold_delete_lookup (l : list string) (s : session) (k : string) :
  fold_left (fun s key => delete key s) l s !! k
  = if decide (k ∈ l) then None else s !! k.
Proof.
  revert s. induction l as [|x l IH]; intros s; cbn [fold_left].
  - reflexivity.
  - rewrite IH. destruct (decide (k ∈ l)) as [Hin|Hn].
    + rewrite decide_True; [reflexivity|]. now apply elem_of_cons; right.
    + destruct (decide (k = x)) as [->|Hne].
      * rewrite decide_True by (apply elem_of_cons; now left).
        apply lookup_delete_eq.
      * rewrite decide_False.
        -- now apply lookup_delete_ne.
        -- intros [?|?]%elem_of_cons; congruence.
Qed.

Lemma clear_session_state_lookup (s : session) (k : string) :
  clear_session_state s !! k
  = if decide (k ∈ keys_to_clear) then None else s !! k.
Proof. apply fold_delete_lookup. Qed.

Lemma preserve_falsy (p target : string) (s : session) :
  truthy (session_get s p) = false -> preserve p target s = s.
Proof.
  unfold preserve, session_get. destruct (s !! p) as [v|]; [|reflexivity].
  now intros ->.
Qed.

Lemma preserve_other (p target k : string) (s : session) :
  k <> target -> preserve p target s !! k = s !! k.
Proof.
  intros H. unfold preserve. destruct (s !! p) as [v|]; [|reflexivity].
  destruct (truthy v); [|reflexivity]. now apply lookup_insert_ne.
Qed.

(** X20. Logging out removes the identity of the user from the session
    and nothing else: form drafts and a record queued for verification
    or editing stay.  On the next run the user is not authenticated, and
    the validity check leaves the session as [init_session_state] made
    it. *)
Theorem clear_session_state_logs_out (s : session) :
  (forall k, In k keys_to_clear -> clear_session_state s !! k = None)
  /\ (forall k, ~ In k keys_to_clear -> clear_session_state s !! k = s !! k)
  /\ (forall now later,
        check_session_validity now later
          (init_session_state (clear_session_state s))
        = Ok (false, init_session_state (clear_session_state s))).
Proof.
  split; [|split].
  - intros k H. rewrite clear_session_state_lookup.
    apply decide_True. now apply list_elem_of_In.
  - intros k H. rewrite clear_session_state_lookup.
    apply decide_False. now rewrite list_elem_of_In.
  - intros now later.
    assert (Hk : forall k : string,
              k ∈ keys_to_clear ->
              session_get (init_session_state (clear_session_state s)) k
              = SNone).
    { intros k Hk. unfold session_get.
      rewrite init_session_state_union, lookup_union_r
        by (rewrite clear_session_state_lookup; now apply decide_True).
      revert Hk. unfold keys_to_clear. rewrite !elem_of_cons, elem_of_nil.
      intros H. repeat (destruct H as [->|H]; [reflexivity|]). destruct H. }
    unfold check_session_validity, preserve_session_state.
    set (s0 := init_session_state (clear_session_state s)) in *.
    rewrite (preserve_falsy "persistent_auth" _ s0)
      by (rewrite Hk; [reflexivity|in_cells]).
    rewrite (preserve_falsy "persistent_username" _ s0)
      by (rewrite Hk; [reflexivity|in_cells]).
    rewrite (preserve_falsy "persistent_name" _ s0)
      by (rewrite Hk; [reflexivity|in_cells]).
    rewrite (preserve_falsy "persistent_role" _ s0)
      by (rewrite Hk; [reflexivity|in_cells]).
    cbv zeta. rewrite Hk by in_cells. reflexivity.
Qed.

Lemma preserve_session_state_activity (s : session) :
  session_get (preserve_session_state s) "last_activity"
  = session_get s "last_activity".
Proof.
  unfold session_get, preserve_session_state.
  now rewrite !preserve_other by discriminate.
Qed.

Lemma preserve_session_state_authenticated (s : session) :
  truthy (session_get s "authentication_status") = true ->
  truthy (session_get (preserve_session_state s) "authentication_status")
  = true.
Proof.
  unfold session_get, preserve_session_state.
  rewrite !preserve_other by discriminate. unfold preserve.
  destruct (s !! "persistent_auth") as [v|]; [|auto].
  destruct (truthy v) eqn:E; [|auto]. now rewrite lookup_insert_eq.
Qed.

(** X21. For an authenticated user whose last activity was at time [t],
    [check_session_validity] logs the user out and asks for a rerun once
    3600 seconds or more have passed, and otherwise records the time of
    the run as the last activity.  An authenticated session without a
    recorded activity is never expired: the time is recorded. *)
Theorem check_session_validity_expiry (now later : Q) (s : session) :
  truthy (session_get s "authentication_status") = true ->
  let s' := preserve_session_state s in
  (session_get s "last_activity" = SNone ->
   check_session_validity now later s
   = Ok (false, update_activity_time now s'))
  /\ (forall t, session_get s "last_activity" = SNum t ->
        (SESSION_TIMEOUT <= now - t)%Q ->
        check_session_validity now later s
        = Ok (true, clear_session_state s')
        /\ session_get (clear_session_state s') "authentication_status"
           = SNone
        /\ session_get (clear_session_state s') "username" = SNone)
  /\ (forall t, session_get s "last_activity" = SNum t ->
        (now - t < SESSION_TIMEOUT)%Q ->
        check_session_validity now later s
        = Ok (false, update_activity_time later s')).
Proof.
  intros Hauth s'. unfold check_session_validity. fold s'.
  unfold s'. rewrite (preserve_session_state_authenticated s Hauth).
  unfold is_session_active. rewrite !preserve_session_state_activity.
  split; [|split].
  - now intros ->.
  - intros t -> Hle. cbn [seconds_of bind].
    apply Qle_bool_iff in Hle. rewrite Hle. cbn [negb].
    split; [reflexivity|]. unfold session_get.
    rewrite !clear_session_state_lookup. split; reflexivity.
  - intros t -> Hlt. cbn [seconds_of bind].
    destruct (Qle_bool SESSION_TIMEOUT (now - t)) eqn:E; [|reflexivity].
    apply Qle_bool_iff in E. exfalso. revert E. now apply Qlt_not_le.
Qed.

(** X22. A saved form draft is what [load_form_data] returns, also after
    a logout; saving under one key leaves what is loaded under another;
    once cleared, the default is returned, and an empty dictionary when
    the default is [None]. *)
Theorem form_draft_round_trip (form_key : string) (data default : sval)
    (s : session) :
  load_form_data form_key default (save_form_data form_key data s) = data
  /\ (~ In form_key keys_to_clear ->
      load_form_data form_key default
        (clear_session_state (save_form_data form_key data s)) = data)
  /\ (forall other, other <> form_key ->
        load_form_data other default (save_form_data form_key data s)
        = load_form_data other default s)
  /\ load_form_data form_key default (clear_form_data form_key s)
     = match default with SNone => SDict ∅ | d => d end.
Proof.
  unfold load_form_data, save_form_data, clear_form_data. repeat split.
  - now rewrite lookup_insert_eq.
  - intros H. rewrite clear_session_state_lookup, decide_False
      by now rewrite list_elem_of_In.
    now rewrite lookup_insert_eq.
  - intros other H. now rewrite lookup_insert_ne.
  - now rewrite lookup_delete_eq.
Qed.

(** * Intake *)

Section Intake.
Variables (sch : schema) (columns : list string).
Hypothesis Hid : column_type sch "submission_id" = Some (VARCHAR 100).
Hypothesis Hby : column_type sch "submitted_by" = Some (VARCHAR 50).
Hypothesis Hnd :
  NoDup ("submission_id" :: columns ++ ["image_paths"; "submitted_by"]).
Hypothesis Hdefaults :
  Forall (fun c => c ∉ "submission_id"
                         :: columns ++ ["image_paths"; "submitted_by"])
    ["status"; "verified_by"].

(** What an accepted [INSERT] of the intake has done. *)
Lemma intake_inv (u : string) (data : pydict) (t : Z) (now : string)
    (tbl tbl' : gmap string pydict) :
  (values <- intake_values columns u data t ;;
   insert_submission sch values now tbl) = Ok tbl' ->
  tbl !! pretty t = None
  /\ (String.length u <= 50)%nat
  /\ exists row : pydict,
       tbl' = <[pretty t := row]> tbl
       /\ row !! "submission_id" = Some (PStr (pretty t))
       /\ row !! "submitted_by" = Some (PStr u)
       /\ row !! "status" = Some (PStr "pending")
       /\ row !! "verified_by" = Some PNone
       /\ (forall c, c ∈ not_null_columns -> is_null row c = false)
       /\ (forall k, k ∈ columns ->
             exists x ty cell,
               data !! k = Some x /\ column_type sch k = Some ty
               /\ sql_store ty x = Ok cell /\ row !! k = Some cell).
Proof.
  unfold intake_values.
  destruct (dict_items data columns) as [fields|] eqn:Ef; [|discriminate].
  cbn [bind].
  set (values := ("submission_id", PStr (pretty t))
                 :: (fields ++ [("image_paths",
                                 dict_get data "image_paths" (PStr ""));
                                ("submitted_by", PStr u)])%list).
  assert (Hkeys : values.*1
                  = "submission_id"
                    :: (columns ++ ["image_paths"; "submitted_by"])%list).
  { unfold values. rewrite fmap_cons, fmap_app, (dict_items_keys _ _ _ Ef).
    reflexivity. }
  unfold insert_submission.
  destruct (store_row sch values) as [stored|] eqn:Es; [|discriminate].
  cbn [bind]. cbv zeta.
  set (row := (list_to_map stored ∪ submission_defaults now : pydict)).
  destruct (existsb (is_null row) not_null_columns) eqn:En; [discriminate|].
  assert (Hstored : forall c v, (c, v) ∈ values ->
            exists ty cell, column_type sch c = Some ty
                            /\ sql_store ty v = Ok cell
                            /\ row !! c = Some cell).
  { intros c v Hin.
    destruct (store_row_lookup sch values stored c v Es) as (ty & cell & A & B & C);
      [now rewrite Hkeys|exact Hin|].
    exists ty, cell. repeat split; try assumption.
    now apply lookup_union_Some_l. }
  assert (Hdefault : forall c, c ∈ ["status"; "verified_by"] ->
            row !! c = submission_defaults now !! c).
  { intros c Hc. apply lookup_union_r, not_elem_of_list_to_map_1.
    rewrite (store_row_keys _ _ _ Es), Hkeys.
    rewrite Forall_forall in Hdefaults. now apply Hdefaults. }
  destruct (Hstored "submission_id" (PStr (pretty t)))
    as (ty1 & c1 & T1 & S1 & R1); [apply elem_of_cons; now left|].
  rewrite Hid in T1. injection T1 as <-. cbn [sql_store] in S1.
  destruct (String.length (pretty t) <=? 100)%nat; [|discriminate].
  injection S1 as <-.
  destruct (Hstored "submitted_by" (PStr u))
    as (ty2 & c2 & T2 & S2 & R2).
  { apply elem_of_cons. right. apply elem_of_app. right.
    apply elem_of_cons. right. apply elem_of_cons. now left. }
  rewrite Hby in T2. injection T2 as <-. cbn [sql_store] in S2.
  destruct (String.length u <=? 50)%nat eqn:Eu; [|discriminate].
  injection S2 as <-. apply Nat.leb_le in Eu.
  rewrite R1. destruct (tbl !! pretty t) eqn:Et; [discriminate|].
  intros [= <-]. split; [reflexivity|]. split; [exact Eu|].
  exists row. repeat split; try assumption.
  - rewrite Hdefault by (apply elem_of_cons; now left). reflexivity.
  - rewrite Hdefault
      by (apply elem_of_cons; right; apply elem_of_cons; now left).
    reflexivity.
  - intros c Hc. apply list_elem_of_In in Hc.
    destruct (is_null row c) eqn:E; [|reflexivity].
    assert (existsb (is_null row) not_null_columns = true); [|congruence].
    apply existsb_exists. eauto.
  - intros k Hk.
    destruct (dict_items_lookup _ _ _ Ef k Hk) as (x & Hx & Hin).
    destruct (Hstored k x) as (ty & cell & A & B & C).
    { apply elem_of_cons. right. apply elem_of_app. now left. }
    exists x, ty, cell. auto.
Qed.

End Intake.

Lemma save_mess_waste_data_cases (u : string) (data : pydict) (t : Z)
    (w : world) :
  (fst (save_mess_waste_data u data t w) = false
   /\ db (snd (save_mess_waste_data u data t w)) = db w)
  \/ (fst (save_mess_waste_data u data t w) = true
      /\ exists tbl',
           (values <- intake_values mess_intake_columns u data t ;;
            insert_submission mess_waste_submissions_columns values (clock w)
              (mess_waste_submissions (db w))) = Ok tbl'
           /\ db (snd (save_mess_waste_data u data t w))
              = on_mess_submissions (fun _ => tbl') (db w)).
Proof.
  unfold save_mess_waste_data, get_db_connection.
  destruct (connects w) as [|[] later]; cbn [db clock];
    try (left; split; reflexivity);
    (match goal with
     | |- context [match ?m with Ok _ => _ | Raise _ => _ end] =>
         destruct m as [tbl'|] eqn:E
     end; [right; split; [reflexivity|]; now exists tbl'
          |left; split; reflexivity]).
Qed.

Lemma save_hostel_waste_data_cases (u : string) (data : pydict) (t : Z)
    (w : world) :
  (fst (save_hostel_waste_data u data t w) = false
   /\ db (snd (save_hostel_waste_data u data t w)) = db w)
  \/ (fst (save_hostel_waste_data u data t w) = true
      /\ exists tbl',
           (values <- intake_values hostel_intake_columns u data t ;;
            insert_submission hostel_waste_submissions_columns values
              (clock w) (hostel_waste_submissions (db w))) = Ok tbl'
           /\ db (snd (save_hostel_waste_data u data t w))
              = on_hostel_submissions (fun _ => tbl') (db w)).
Proof.
  unfold save_hostel_waste_data, get_db_connection.
  destruct (connects w) as [|[] later]; cbn [db clock];
    try (left; split; reflexivity);
    (match goal with
     | |- context [match ?m with Ok _ => _ | Raise _ => _ end] =>
         destruct m as [tbl'|] eqn:E
     end; [right; split; [reflexivity|]; now exists tbl'
          |left; split; reflexivity]).
Qed.

Lemma mess_intake_inv (u : string) (data : pydict) (t : Z) (now : string)
    (tbl tbl' : gmap string pydict) :
  (values <- intake_values mess_intake_columns u data t ;;
   insert_submission mess_waste_submissions_columns values now tbl)
  = Ok tbl' ->
  tbl !! pretty t = None
  /\ (String.length u <= 50)%nat
  /\ exists row : pydict,
       tbl' = <[pretty t := row]> tbl
       /\ row !! "submission_id" = Some (PStr (pretty t))
       /\ row !! "submitted_by" = Some (PStr u)
       /\ row !! "status" = Some (PStr "pending")
       /\ row !! "verified_by" = Some PNone
       /\ (forall c, c ∈ not_null_columns -> is_null row c = false)
       /\ (forall k, k ∈ mess_intake_columns ->
             exists x ty cell,
               data !! k = Some x
               /\ column_type mess_waste_submissions_columns k = Some ty
               /\ sql_store ty x = Ok cell /\ row !! k = Some cell).
Proof. apply intake_inv; try reflexivity; compute_done. Qed.

Lemma hostel_intake_inv (u : string) (data : pydict) (t : Z) (now : string)
    (tbl tbl' : gmap string pydict) :
  (values <- intake_values hostel_intake_columns u data t ;;
   insert_submission hostel_waste_submissions_columns values now tbl)
  = Ok tbl' ->
  tbl !! pretty t = None
  /\ (String.length u <= 50)%nat
  /\ exists row : pydict,
       tbl' = <[pretty t := row]> tbl
       /\ row !! "submission_id" = Some (PStr (pretty t))
       /\ row !! "submitted_by" = Some (PStr u)
       /\ row !! "status" = Some (PStr "pending")
       /\ row !! "verified_by" = Some PNone
       /\ (forall c, c ∈ not_null_columns -> is_null row c = false)
       /\ (forall k, k ∈ hostel_intake_columns ->
             exists x ty cell,
               data !! k = Some x
               /\ column_type hostel_waste_submissions_columns k = Some ty
               /\ sql_store ty x = Ok cell /\ row !! k = Some cell).
Proof. apply intake_inv; try reflexivity; compute_done. Qed.

(** X23. When [save_mess_waste_data] returns [True], the mess table has
    one new row, under the decimal text of the second of the call as its
    [submission_id], which no row had before: the row is pending and not
    verified, names the user as submitter and holds every field of the
    form as its column stores it.  No other submission and no other table
    has changed.  The same holds of [save_hostel_waste_data] and the
    table of hostel collections. *)
Theorem intake_stores_pending_submission (u : string) (data : pydict)
    (t : Z) (w : world) :
  (fst (save_mess_waste_data u data t w) = true ->
   let d' := db (snd (save_mess_waste_data u data t w)) in
   mess_waste_submissions (db w) !! pretty t = None
   /\ (exists row : pydict,
         mess_waste_submissions d' !! pretty t = Some row
         /\ row !! "submission_id" = Some (PStr (pretty t))
         /\ row !! "submitted_by" = Some (PStr u)
         /\ row !! "status" = Some (PStr "pending")
         /\ row !! "verified_by" = Some PNone
         /\ (forall k, In k mess_intake_columns ->
               exists x ty cell,
                 data !! k = Some x
                 /\ column_type mess_waste_submissions_columns k = Some ty
                 /\ sql_store ty x = Ok cell /\ row !! k = Some cell))
   /\ (forall sid, sid <> pretty t ->
         mess_waste_submissions d' !! sid
         = mess_waste_submissions (db w) !! sid)
   /\ hostel_waste_submissions d' = hostel_waste_submissions (db w)
   /\ master_waste_data d' = master_waste_data (db w)
   /\ pho_edits d' = pho_edits (db w))
  /\ (fst (save_hostel_waste_data u data t w) = true ->
      let d' := db (snd (save_hostel_waste_data u data t w)) in
      hostel_waste_submissions (db w) !! pretty t = None
      /\ (exists row : pydict,
            hostel_waste_submissions d' !! pretty t = Some row
            /\ row !! "submission_id" = Some (PStr (pretty t))
            /\ row !! "submitted_by" = Some (PStr u)
            /\ row !! "status" = Some (PStr "pending")
            /\ row !! "verified_by" = Some PNone
            /\ (forall k, In k hostel_intake_columns ->
                  exists x ty cell,
                    data !! k = Some x
                    /\ column_type hostel_waste_submissions_columns k
                       = Some ty
                    /\ sql_store ty x = Ok cell /\ row !! k = Some cell))
      /\ (forall sid, sid <> pretty t ->
            hostel_waste_submissions d' !! sid
            = hostel_waste_submissions (db w) !! sid)
      /\ mess_waste_submissions d' = mess_waste_submissions (db w)
      /\ master_waste_data d' = master_waste_data (db w)
      /\ pho_edits d' = pho_edits (db w)).
Proof.
  split; intros Hok; cbv zeta.
  - destruct (save_mess_waste_data_cases u data t w)
      as [[E _]|(_ & tbl' & Hi & ->)]; [congruence|].
    apply mess_intake_inv in Hi
      as (Hfresh & _ & row & -> & Rid & Rby & Rst & Rv & _ & Rk).
    cbn. split; [exact Hfresh|]. split; [|repeat split].
    + exists row. rewrite lookup_insert_eq. repeat split; try assumption.
      intros k Hk. apply Rk. now apply list_elem_of_In.
    + intros sid Hne. now apply lookup_insert_ne.
  - destruct (save_hostel_waste_data_cases u data t w)
      as [[E _]|(_ & tbl' & Hi & ->)]; [congruence|].
    apply hostel_intake_inv in Hi
      as (Hfresh & _ & row & -> & Rid & Rby & Rst & Rv & _ & Rk).
    cbn. split; [exact Hfresh|]. split; [|repeat split].
    + exists row. rewrite lookup_insert_eq. repeat split; try assumption.
      intros k Hk. apply Rk. now apply list_elem_of_In.
    + intros sid Hne. now apply lookup_insert_ne.
Qed.

(** X24. The [submission_id] is the second of the call and nothing else:
    after a submission has been saved, any further call of the same
    function in the same second, by whatever user and with whatever data,
    returns [False] and stores nothing. *)
Theorem intake_same_second_collides (u u2 : string) (data data2 : pydict)
    (t : Z) (w : world) :
  (fst (save_mess_waste_data u data t w) = true ->
   let w' := snd (save_mess_waste_data u data t w) in
   fst (save_mess_waste_data u2 data2 t w') = false
   /\ db (snd (save_mess_waste_data u2 data2 t w')) = db w')
  /\ (fst (save_hostel_waste_data u data t w) = true ->
      let w' := snd (save_hostel_waste_data u data t w) in
      fst (save_hostel_waste_data u2 data2 t w') = false
      /\ db (snd (save_hostel_waste_data u2 data2 t w')) = db w').
Proof.
  split; intros Hok; cbv zeta.
  - destruct (save_mess_waste_data_cases u data t w)
      as [[E _]|(_ & tbl' & Hi & Hdb)]; [congruence|].
    apply mess_intake_inv in Hi as (_ & _ & row & -> & _).
    destruct (save_mess_waste_data_cases u2 data2 t
                (snd (save_mess_waste_data u data t w)))
      as [H|(_ & tbl2 & Hi2 & _)]; [exact H|]. exfalso.
    apply mess_intake_inv in Hi2 as (Hfresh & _).
    rewrite Hdb in Hfresh. cbn in Hfresh.
    now rewrite lookup_insert_eq in Hfresh.
  - destruct (save_hostel_waste_data_cases u data t w)
      as [[E _]|(_ & tbl' & Hi & Hdb)]; [congruence|].
    apply hostel_intake_inv in Hi as (_ & _ & row & -> & _).
    destruct (save_hostel_waste_data_cases u2 data2 t
                (snd (save_hostel_waste_data u data t w)))
      as [H|(_ & tbl2 & Hi2 & _)]; [exact H|]. exfalso.
    apply hostel_intake_inv in Hi2 as (Hfresh & _).
    rewrite Hdb in Hfresh. cbn in Hfresh.
    now rewrite lookup_insert_eq in Hfresh.
Qed.

Lemma intake_rejects_null (row : pydict) (data : pydict) (k : string)
    (sch : schema) :
  k ∈ not_null_columns ->
  data !! k = Some PNone ->
  (exists x ty cell, data !! k = Some x /\ column_type sch k = Some ty
                     /\ sql_store ty x = Ok cell /\ row !! k = Some cell) ->
  is_null row k = true.
Proof.
  intros _ Hn (x & ty & cell & Hx & _ & Hs & Hr). unfold is_null.
  rewrite Hn in Hx. injection Hx as <-. cbn in Hs. injection Hs as <-.
  now rewrite Hr.
Qed.

(** X25. An intake that returns [False] has stored nothing.  Both
    functions return [False] when the form data lack a field the
    [INSERT] reads, when the date or the hostel is [None], and when the
    user's name exceeds the 50 characters of [submitted_by]. *)
Theorem intake_failures (u : string) (data : pydict) (t : Z) (w : world) :
  (fst (save_mess_waste_data u data t w) = false ->
   db (snd (save_mess_waste_data u data t w)) = db w)
  /\ (fst (save_hostel_waste_data u data t w) = false ->
      db (snd (save_hostel_waste_data u data t w)) = db w)
  /\ (forall k, In k mess_intake_columns -> data !! k = None ->
        fst (save_mess_waste_data u data t w) = false)
  /\ (forall k, In k hostel_intake_columns -> data !! k = None ->
        fst (save_hostel_waste_data u data t w) = false)
  /\ (forall k, In k ["submission_date"; "hostel"] ->
        data !! k = Some PNone ->
        fst (save_mess_waste_data u data t w) = false
        /\ fst (save_hostel_waste_data u data t w) = false)
  /\ ((50 < String.length u)%nat ->
      fst (save_mess_waste_data u data t w) = false
      /\ fst (save_hostel_waste_data u data t w) = false).
Proof.
  pose proof (save_mess_waste_data_cases u data t w) as Cm.
  pose proof (save_hostel_waste_data_cases u data t w) as Ch.
  split; [|split; [|split; [|split; [|split]]]].
  - intros H. destruct Cm as [[_ E]|[E _]]; [exact E|congruence].
  - intros H. destruct Ch as [[_ E]|[E _]]; [exact E|congruence].
  - intros k Hk Hn. destruct Cm as [[E _]|(_ & tbl' & Hi & _)]; [exact E|].
    apply mess_intake_inv in Hi as (_ & _ & row & _ & _ & _ & _ & _ & _ & Rk).
    destruct (Rk k) as (x & _ & _ & Hx & _); [now apply list_elem_of_In|].
    congruence.
  - intros k Hk Hn. destruct Ch as [[E _]|(_ & tbl' & Hi & _)]; [exact E|].
    apply hostel_intake_inv in Hi
      as (_ & _ & row & _ & _ & _ & _ & _ & _ & Rk).
    destruct (Rk k) as (x & _ & _ & Hx & _); [now apply list_elem_of_In|].
    congruence.
  - intros k Hk Hn.
    assert (Hnn : k ∈ not_null_columns).
    { cbn in Hk. destruct Hk as [<-|[<-|[]]]; in_cells. }
    split.
    + destruct Cm as [[E _]|(_ & tbl' & Hi & _)]; [exact E|].
      apply mess_intake_inv in Hi
        as (_ & _ & row & _ & _ & _ & _ & _ & Rn & Rk).
      assert (Hin : k ∈ mess_intake_columns).
      { cbn in Hk. destruct Hk as [<-|[<-|[]]]; in_cells. }
      pose proof (intake_rejects_null row data k _ Hnn Hn (Rk k Hin)).
      rewrite (Rn k Hnn) in H. discriminate.
    + destruct Ch as [[E _]|(_ & tbl' & Hi & _)]; [exact E|].
      apply hostel_intake_inv in Hi
        as (_ & _ & row & _ & _ & _ & _ & _ & Rn & Rk).
      assert (Hin : k ∈ hostel_intake_columns).
      { cbn in Hk. destruct Hk as [<-|[<-|[]]]; in_cells. }
      pose proof (intake_rejects_null row data k _ Hnn Hn (Rk k Hin)).
      rewrite (Rn k Hnn) in H. discriminate.
  - intros Hu. split.
    + destruct Cm as [[E _]|(_ & tbl' & Hi & _)]; [exact E|].
      apply mess_intake_inv in Hi as (_ & Hle & _). lia.
    + destruct Ch as [[E _]|(_ & tbl' & Hi & _)]; [exact E|].
      apply hostel_intake_inv in Hi as (_ & Hle & _). lia.
Qed.

(** * Users *)

Lemma insert_user_inv (username name hash r : string)
    (users users' : users_table) :
  insert_user username name hash r users = Ok users' ->
  users !! username = None
  /\ users' = <[username := User name hash r]> users
  /\ In r user_roles
  /\ (String.length username <= 50)%nat.
Proof.
  unfold insert_user.
  destruct (String.length username <=? 50)%nat eqn:E1; [|discriminate].
  destruct (_ && _)%bool; [|discriminate].
  destruct (bool_decide (r ∈ user_roles)) eqn:E2; [|discriminate].
  destruct (users !! username) eqn:E3; [discriminate|].
  intros [= <-]. repeat split.
  - apply list_elem_of_In. now apply bool_decide_eq_true in E2.
  - now apply Nat.leb_le.
Qed.

Lemma add_user_cases (hashpw : string -> string -> string)
    (username name password r salt : string) (users : users_table)
    (w : world) :
  (returned (add_user hashpw username name password r salt users w) = false
   /\ users_after (add_user hashpw username name password r salt users w)
      = users)
  \/ (returned (add_user hashpw username name password r salt users w) = true
      /\ exists users',
           insert_user username name (hashpw password salt) r users
           = Ok users'
           /\ users_after
                (add_user hashpw username name password r salt users w)
              = users').
Proof.
  unfold add_user. destruct (get_db_connection w) as [[] w1]; [|now left].
  destruct (insert_user _ _ _ _ _) as [users'|]; [|now left].
  right. split; [reflexivity|]. now exists users'.
Qed.

(** X26. A user that [add_user] has stored can log in: given that
    [checkpw] accepts a password against its own hash, once [add_user]
    returns [True] the username was free before, the role is one of the
    three the table admits, and with the database reachable
    [verify_password] accepts the password and [get_user_role] and
    [get_user_name] return what was entered.  No other user's row has
    changed. *)
Theorem added_user_can_log_in (hashpw : string -> string -> string)
    (checkpw : string -> string -> bool)
    (username name password r salt : string) (users : users_table)
    (w : world) :
  (forall p s, checkpw p (hashpw p s) = true) ->
  returned (add_user hashpw username name password r salt users w) = true ->
  let users' :=
    users_after (add_user hashpw username name password r salt users w) in
  users !! username = None
  /\ In r user_roles
  /\ (forall w2, connects w2 = [] ->
        verify_password checkpw username password users' w2 = (true, w2)
        /\ get_user_role username users' w2 = (r, w2)
        /\ get_user_name username users' w2 = (name, w2))
  /\ (forall other, other <> username -> users' !! other = users !! other).
Proof.
  intros Hbcrypt Hok. cbv zeta.
  destruct (add_user_cases hashpw username name password r salt users w)
    as [[E _]|(_ & users' & Hi & ->)]; [congruence|].
  apply insert_user_inv in Hi as (Hfree & -> & Hrole & _).
  split; [exact Hfree|]. split; [exact Hrole|]. split.
  - intros w2 Hup.
    unfold verify_password, get_user_role, get_user_name.
    rewrite (get_db_connection_up w2 Hup), !lookup_insert_eq.
    cbn [password_hash role full_name]. now rewrite Hbcrypt.
  - intros other Hne. now apply lookup_insert_ne.
Qed.

(** X27. An [add_user] that returns [False] has left the table of users
    as it was.  It returns [False] for a username that is taken, for a
    role the table does not admit, for a username of more than 50
    characters, and when the connection fails. *)
Theorem add_user_rejections (hashpw : string -> string -> string)
    (username name password r salt : string) (users : users_table)
    (w : world) :
  (returned (add_user hashpw username name password r salt users w) = false ->
   users_after (add_user hashpw username name password r salt users w)
   = users)
  /\ (is_Some (users !! username) ->
      returned (add_user hashpw username name password r salt users w)
      = false)
  /\ (~ In r user_roles ->
      returned (add_user hashpw username name password r salt users w)
      = false)
  /\ ((50 < String.length username)%nat ->
      returned (add_user hashpw username name password r salt users w)
      = false)
  /\ (forall later, connects w = false :: later ->
      add_user hashpw username name password r salt users w
      = Outcome false users (World (db w) later (clock w))).
Proof.
  pose proof (add_user_cases hashpw username name password r salt users w)
    as C.
  split; [|split; [|split; [|split]]].
  - intros H. destruct C as [[_ E]|[E _]]; [exact E|congruence].
  - intros [u Hu]. destruct C as [[E _]|(_ & users' & Hi & _)]; [exact E|].
    apply insert_user_inv in Hi as (Hfree & _). congruence.
  - intros Hr. destruct C as [[E _]|(_ & users' & Hi & _)]; [exact E|].
    apply insert_user_inv in Hi as (_ & _ & Hin & _). contradiction.
  - intros Hl. destruct C as [[E _]|(_ & users' & Hi & _)]; [exact E|].
    apply insert_user_inv in Hi as (_ & _ & _ & Hle). lia.
  - intros later H. unfold add_user, get_db_connection. now rewrite H.
Qed.

(** X28. With the database reachable [delete_user] returns [True],
    whether or not there is such a user; afterwards no password is
    accepted for the username, its role is the empty text, and every
    other user's row is as before. *)
Theorem deleted_user_cannot_log_in (checkpw : string -> string -> bool)
    (username : string) (users : users_table) (w : world) :
  connects w = [] ->
  delete_user username users w = Outcome true (delete username users) w
  /\ (forall password w2,
        fst (verify_password checkpw username password
               (delete username users) w2) = false
        /\ fst (get_user_role username (delete username users) w2) = "")
  /\ (forall other, other <> username ->
        delete username users !! other = users !! other).
Proof.
  intros Hup. split; [|split].
  - unfold delete_user. now rewrite (get_db_connection_up w Hup).
  - intros password w2. unfold verify_password, get_user_role.
    destruct (get_db_connection w2) as [[] w3]; rewrite ?lookup_delete_eq;
      split; reflexivity.
  - intros other Hne. now apply lookup_delete_ne.
Qed.

Lemma create_default_admin_cases (hashpw : string -> string -> string)
    (salt : string) (users : users_table) (w : world) :
  users_after (create_default_admin hashpw salt users w) = users
  \/ (users !! "admin" = None
      /\ returned (create_default_admin hashpw salt users w) = true
      /\ users_after (create_default_admin hashpw salt users w)
         = <["admin" := User "Administrator" (hashpw "admin123" salt)
                           "admin"]> users).
Proof.
  unfold create_default_admin.
  destruct (get_db_connection w) as [[] w1]; [|now left].
  destruct (users !! "admin") eqn:E; [now left|].
  destruct (insert_user _ _ _ _ _) as [users'|] eqn:Ei; [|now left].
  apply insert_user_inv in Ei as (_ & -> & _). now right.
Qed.

(** X29. [create_default_admin] never touches an existing user [admin]:
    the row, and with it a changed password, stays, and the call returns
    [True] when the database is reachable.  When there is none and the
    hash fits its column, the user [admin] is stored with the role
    [admin] and the hash of [admin123].  After a call that returned
    [True], a further call changes nothing. *)
Theorem create_default_admin_keeps_admin
    (hashpw : string -> string -> string) (salt : string)
    (users : users_table) (w : world) :
  (is_Some (users !! "admin") ->
   users_after (create_default_admin hashpw salt users w) = users
   /\ (connects w = [] ->
       returned (create_default_admin hashpw salt users w) = true))
  /\ (users !! "admin" = None -> connects w = [] ->
      (String.length (hashpw "admin123" salt) <= 255)%nat ->
      create_default_admin hashpw salt users w
      = Outcome true
          (<["admin" := User "Administrator" (hashpw "admin123" salt)
                          "admin"]> users) w)
  /\ (returned (create_default_admin hashpw salt users w) = true ->
      forall salt2 w2,
        users_after
          (create_default_admin hashpw salt2
             (users_after (create_default_admin hashpw salt users w)) w2)
        = users_after (create_default_admin hashpw salt users w)).
Proof.
  split; [|split].
  - intros [u Hu]. split.
    + destruct (create_default_admin_cases hashpw salt users w)
        as [E|(E & _)]; [exact E|congruence].
    + intros Hup. unfold create_default_admin.
      now rewrite (get_db_connection_up w Hup), Hu.
  - intros Hn Hup Hlen. unfold create_default_admin, insert_user.
    rewrite (get_db_connection_up w Hup), Hn.
    apply Nat.leb_le in Hlen. rewrite Hlen. reflexivity.
  - intros Hok salt2 w2.
    assert (Hadmin : is_Some
              (users_after (create_default_admin hashpw salt users w)
                 !! "admin")).
    { revert Hok. unfold create_default_admin.
      destruct (get_db_connection w) as [[] w1]; [|discriminate].
      destruct (users !! "admin") eqn:E.
      - intros _. cbn. rewrite E. eauto.
      - destruct (insert_user _ _ _ _ _) eqn:Ei; [|discriminate].
        intros _. cbn. apply insert_user_inv in Ei as (_ & -> & _).
        rewrite lookup_insert_eq. eauto. }
    destruct (create_default_admin_cases hashpw salt2
                (users_after (create_default_admin hashpw salt users w)) w2)
      as [E|(E & _)]; [exact E|].
    destruct Hadmin as [u Hu]. congruence.
Qed.

(** * The list of hostels *)

Lemma fold_add_hostel (rows : list (string * user)) (acc : gset string)
    (h : string) :
  h ∈ fold_left add_hostel rows acc
  <-> h ∈ acc
      \/ exists username u,
           (username, u) ∈ rows /\ role u = "pho_supervisor"
           /\ get_hostel_from_username username = h /\ h <> "".
Proof.
  revert acc. induction rows as [|[username u] rows IH]; intros acc.
  - cbn [fold_left]. split; [auto|]. intros [H|(? & ? & H & _)]; [exact H|].
    now apply elem_of_nil in H.
  - cbn [fold_left]. rewrite IH. unfold add_hostel. cbn [fst snd].
    destruct (String.eqb_spec (role u) "pho_supervisor") as [Hr|Hr].
    + destruct (String.eqb_spec (get_hostel_from_username username) "")
        as [He|He]; cbn [negb].
      * split.
        -- intros [H|(x & y & H & R)]; [auto|]. right. exists x, y.
           split; [|exact R]. apply elem_of_cons. now right.
        -- intros [H|(x & y & H & R1 & R2 & R3)]; [auto|].
           apply elem_of_cons in H as [[= -> ->]|H]; [congruence|].
           right. eauto 6.
      * rewrite elem_of_union, elem_of_singleton. split.
        -- intros [[->|H]|(x & y & H & R)]; [|auto|].
           ++ right. exists username, u. repeat split; try assumption.
              apply elem_of_cons. now left.
           ++ right. exists x, y. split; [|exact R].
              apply elem_of_cons. now right.
        -- intros [H|(x & y & H & R1 & R2 & R3)]; [auto|].
           apply elem_of_cons in H as [[= -> ->]|H]; [auto|].
           right. eauto 6.
    + split.
      * intros [H|(x & y & H & R)]; [auto|]. right. exists x, y.
        split; [|exact R]. apply elem_of_cons. now right.
      * intros [H|(x & y & H & R1 & R2 & R3)]; [auto|].
        apply elem_of_cons in H as [[= -> ->]|H]; [congruence|].
        right. eauto 6.
Qed.

Lemma hostels_of_users (users : users_table) (h : string) :
  h ∈ fold_left add_hostel (map_to_list users) ∅
  <-> supervised_hostel users h.
Proof.
  rewrite fold_add_hostel. unfold supervised_hostel. split.
  - intros [H|(x & y & H & R)]; [now apply elem_of_empty in H|].
    exists x, y. split; [|exact R]. now apply elem_of_map_to_list.
  - intros (x & y & H & R). right. exists x, y. split; [|exact R].
    now apply elem_of_map_to_list.
Qed.

#[local] Instance string_le_total : Total string_le.
Proof. intros a b. apply String.leb_total. Qed.

Lemma sorted_spec (hostels : gset string) :
  (forall h, In h (sorted hostels) <-> h ∈ hostels)
  /\ NoDup (sorted hostels)
  /\ Sorted string_le (sorted hostels).
Proof.
  unfold sorted. split; [|split].
  - intros h. rewrite <- list_elem_of_In, merge_sort_Permutation.
    apply elem_of_elements.
  - rewrite merge_sort_Permutation. apply NoDup_elements.
  - apply Sorted_merge_sort. apply _.
Qed.

(** X30. [get_dynamic_hostels] never returns an empty list.  When the
    connection fails, or no supervisor's username gives a hostel code, it
    returns the five hostels written into the code; otherwise it returns
    exactly the hostel codes of the supervisors, each once, in the order
    of their text. *)
Theorem get_dynamic_hostels_lists_supervised (users : users_table)
    (w : world) :
  fst (get_dynamic_hostels users w) <> []
  /\ (forall later, connects w = false :: later ->
        get_dynamic_hostels users w
        = (default_hostels, World (db w) later (clock w)))
  /\ (connects w = [] ->
      ((forall h, ~ supervised_hostel users h) ->
       fst (get_dynamic_hostels users w) = default_hostels)
      /\ (forall h0, supervised_hostel users h0 ->
            (forall h, In h (fst (get_dynamic_hostels users w))
                       <-> supervised_hostel users h)
            /\ NoDup (fst (get_dynamic_hostels users w))
            /\ Sorted string_le (fst (get_dynamic_hostels users w)))).
Proof.
  split; [|split].
  - unfold get_dynamic_hostels.
    destruct (get_all_users users w) as [rows w1]. cbv zeta. cbn [fst].
    destruct (decide (fold_left add_hostel rows ∅ = ∅)) as [E|E];
      [discriminate|].
    intros H. apply E. apply set_eq. intros h.
    destruct (sorted_spec (fold_left add_hostel rows ∅)) as (Hin & _).
    rewrite <- Hin, H. split; [intros []|]. intros X.
    now apply elem_of_empty in X.
  - intros later H. unfold get_dynamic_hostels, get_all_users, get_db_connection.
    rewrite H. reflexivity.
  - intros Hup. unfold get_dynamic_hostels, get_all_users.
    rewrite (get_db_connection_up w Hup). cbv zeta. cbn [fst]. split.
    + intros Hnone. rewrite decide_True; [reflexivity|].
      apply set_eq. intros h. rewrite hostels_of_users. split.
      * intros X. destruct (Hnone h X).
      * intros X. now apply elem_of_empty in X.
    + intros h0 H0. rewrite decide_False.
      * destruct (sorted_spec (fold_left add_hostel (map_to_list users) ∅))
          as (Hin & Hnd & Hs).
        split; [|split; assumption].
        intros h. rewrite Hin. apply hostels_of_users.
      * intros E. apply hostels_of_users in H0. rewrite E in H0.
        now apply elem_of_empty in H0.
Qed.

(** * Edit-then-approve on the rows the dashboard passes *)




(** * Several collections of one day *)

Lemma approve_hostel_record_up (record_data : pydict) (u sid : string)
    (w : world) :
  connects w = [] ->
  dict_has record_data "breakfast_students" = false ->
  record_data !! "submission_id" = Some (PStr sid) ->
  (String.length u <= 50)%nat ->
  approve_submission record_data u w
  = (true,
     commit (on_hostel_submissions (alter (mark_verified u (clock w)) sid))
       (add_to_master_file_hostel record_data w)).
Proof.
  intros Hup Hh Hsid Hu. unfold approve_submission.
  rewrite (get_db_connection_up w Hup), Hh. unfold dict_item.
  rewrite Hsid. cbn [bind]. unfold update_submission.
  rewrite store_verified_assignments by (reflexivity || assumption).
  reflexivity.
Qed.

Lemma add_to_master_file_hostel_up (data : pydict) (w : world) :
  connects w = [] ->
  connects (add_to_master_file_hostel data w) = []
  /\ add_to_master_file_hostel data w
     = match hostel_statement data with
       | Ok c => commit c w
       | Raise _ => w
       end.
Proof.
  intros Hup. rewrite add_to_master_file_hostel_run, run_statement_up
    by assumption.
  split; [|reflexivity]. now destruct (hostel_statement data).
Qed.

(** The master table after a hostel aggregation depends on the master
    table before it only. *)
Lemma add_to_master_file_hostel_master (data : pydict) (w w' : world) :
  connects w = [] -> connects w' = [] ->
  master_waste_data (db w) = master_waste_data (db w') ->
  master_waste_data (db (add_to_master_file_hostel data w))
  = master_waste_data (db (add_to_master_file_hostel data w')).
Proof.
  intros Hup Hup' Hm.
  destruct (add_to_master_file_hostel_up data w Hup) as [_ ->].
  destruct (add_to_master_file_hostel_up data w' Hup') as [_ ->].
  destruct (hostel_statement data) as [c|] eqn:E; [|exact Hm].
  apply hostel_statement_key in E as (ex & k & _ & ->). cbn.
  now rewrite Hm.
Qed.

(** C10 (as the code has it). Two hostel submissions of the same date
    and hostel are aggregated one after the other, the database being
    reachable.  When the upsert of the later one is accepted, the
    hostel-group columns of the master row are those the later one alone
    gives: every category holds its stored value and nothing of the
    earlier one remains.  When it is refused, the later one changes
    nothing and the row stays as the earlier one left it.
    [approve_all_collections] on the two records leaves the master table
    of the two aggregations in that order, and
    [aggregate_hostel_waste_collections] returns for every category the
    sum of both. *)
Theorem later_hostel_collection_overwrites
    (s1 s2 : pydict) (w : world) (key : string * string) :
  connects w = [] ->
  master_key s1 = Some key -> master_key s2 = Some key ->
  (is_ok (hostel_statement s2) = true ->
   exists r12 r2 : pydict,
     master_waste_data
       (db (add_to_master_file_hostel s2 (add_to_master_file_hostel s1 w)))
       !! key = Some r12
     /\ master_waste_data (db (add_to_master_file_hostel s2 w)) !! key
        = Some r2
     /\ (forall c, In c hostel_group -> r12 !! c = r2 !! c)
     /\ (forall c, In c waste_categories ->
           exists v,
             sql_store (DECIMAL 10 2) (dict_get s2 c (PNum 0)) = Ok v
             /\ r12 !! c = Some v))
  /\ (is_ok (hostel_statement s2) = false ->
      add_to_master_file_hostel s2 (add_to_master_file_hostel s1 w)
      = add_to_master_file_hostel s1 w)
  /\ (forall u sid1 sid2,
        dict_has s1 "breakfast_students" = false ->
        dict_has s2 "breakfast_students" = false ->
        s1 !! "submission_id" = Some (PStr sid1) ->
        s2 !! "submission_id" = Some (PStr sid2) ->
        (String.length u <= 50)%nat ->
        master_waste_data
          (db (snd (approve_all_collections [s1; s2] u w)))
        = master_waste_data
            (db (add_to_master_file_hostel s2
                   (add_to_master_file_hostel s1 w))))
  /\ ((forall r k, In r [s1; s2] -> In k collection_fields ->
                   numeric_field r k) ->
      exists totals,
        aggregate_hostel_waste_collections [s1; s2] = Ok totals
        /\ forall c, In c waste_categories ->
             totals !! c
             = Some (PNum (0 + field_num s1 c + field_num s2 c))).
Proof.
  intros Hup _ Hkey.
  destruct (add_to_master_file_hostel_up s1 w Hup) as [Hup1 _].
  split; [|split; [|split]].
  - intros Hok.
    destruct (hostel_statement s2) as [c2|] eqn:E2; [clear Hok|discriminate].
    destruct (hostel_statement_inv s2 c2 key E2 Hkey)
      as (ex & -> & Hgrp & Hcat).
    set (w1 := add_to_master_file_hostel s1 w) in *.
    destruct (add_to_master_file_hostel_up s2 w1 Hup1) as [_ ->].
    destruct (add_to_master_file_hostel_up s2 w Hup) as [_ ->].
    rewrite E2. unfold commit, on_master. cbn [db master_waste_data].
    assert (Hrow : forall tbl, exists row,
              upsert_row key ex hostel_update_columns tbl !! key = Some row
              /\ forall c, In c hostel_group -> row !! c = ex !! c).
    { intros tbl. destruct (tbl !! key) as [row|] eqn:E.
      - rewrite (upsert_row_existing _ _ _ _ _ E).
        eexists; split; [reflexivity|].
        intros c Hc. rewrite lookup_set_from_excluded.
        destruct (Hgrp c Hc) as [v ->].
        destruct (decide (c ∈ hostel_update_columns)) as [|Hn];
          [reflexivity|].
        exfalso. apply Hn. clear -Hc. each_field Hc ltac:(compute_done).
      - rewrite (upsert_row_new _ _ _ _ E). eexists; split; [reflexivity|].
        intros c Hc. destruct (Hgrp c Hc) as [v Hv]. rewrite Hv.
        now apply lookup_union_Some_l. }
    destruct (Hrow (master_waste_data (db w1))) as (r12 & E12 & H12).
    destruct (Hrow (master_waste_data (db w))) as (r2 & Er2 & Hr2).
    exists r12, r2. split; [exact E12|]. split; [exact Er2|]. split.
    + intros c Hc. now rewrite H12, Hr2.
    + intros c Hc. destruct (Hcat c Hc) as (v & Hv & Hex).
      exists v. split; [assumption|]. rewrite H12; [assumption|].
      clear -Hc. each_field Hc ltac:(in_fields).
  - intros Hno.
    destruct (add_to_master_file_hostel_up s2 _ Hup1) as [_ ->].
    now destruct (hostel_statement s2).
  - intros u sid1 sid2 Hh1 Hh2 Hs1 Hs2 Hu.
    cbn [approve_all_collections].
    rewrite (approve_hostel_record_up s1 u sid1 w Hup Hh1 Hs1 Hu).
    match goal with |- context [approve_submission s2 u ?w1] =>
      rewrite (approve_hostel_record_up s2 u sid2 w1) by assumption
    end.
    cbn [snd]. unfold commit at 1. cbn [db master_waste_data].
    unfold on_hostel_submissions at 1. cbn [master_waste_data].
    now apply add_to_master_file_hostel_master.
  - intros Hn. unfold aggregate_hostel_waste_collections.
    match goal with |- context [add_collections ?t [s1; s2]] =>
      destruct (add_collections_numeric [s1; s2] t 0 0 0 0 0 0)
        as (result & E & Hsum & _); try reflexivity; [exact Hn|];
      exists result; split; [exact E|]
    end.
    cbv zeta in Hsum. cbn [map fold_left] in Hsum.
    destruct Hsum as (S1 & S2 & S3 & S4 & S5 & _).
    intros c Hc. each_field Hc ltac:(assumption).
Qed.

(** * The further properties on the sample data *)

Import Sample2.

Lemma aggregations_commute_witness :
  add_to_master_file_hostel collection_2
    (add_to_master_file_mess mess_record world_up)
  = add_to_master_file_mess mess_record
      (add_to_master_file_hostel collection_2 world_up).
Proof.
  apply (aggregations_commute mess_record collection_2 world_up). reflexivity.
Defined.

(** A third of a kilogram per head is stored as 0.3333. *)
Lemma mess_aggregation_stores_totals_witness :
  exists row : pydict,
    master_waste_data (db (add_to_master_file_mess small_mess_record world_up))
      !! ("2024-01-12", "11") = Some row
    /\ (exists v, sql_store INTEGER (PNum 3) = Ok v
                  /\ row !! "total_students" = Some v)
    /\ (exists v, sql_store (DECIMAL 10 2) (PNum 1) = Ok v
                  /\ row !! "total_mess_waste" = Some v)
    /\ (exists v, sql_store (DECIMAL 10 2) (PNum 1) = Ok v
                  /\ row !! "total_mess_waste_no_peels" = Some v)
    /\ (exists v, sql_store (DECIMAL 10 4) (PNum (1 / 3)) = Ok v
                  /\ row !! "per_capita_mess_waste" = Some v)
    /\ (exists v, sql_store (DECIMAL 10 4) (PNum (1 / 3)) = Ok v
                  /\ row !! "per_capita_mess_waste_no_peels" = Some v).
Proof.
  apply (mess_aggregation_stores_totals small_mess_record world_up
           ("2024-01-12", "11") small_mess_totals); reflexivity.
Defined.

Example a_third_is_stored_to_four_places :
  sql_store (DECIMAL 10 4) (PNum (1 / 3)) = Ok (PNum (3333 # 10000))
  /\ master_waste_data (db (add_to_master_file_mess small_mess_record world_up))
       !! ("2024-01-12", "11")
       ≫= (fun row : pydict => row !! "per_capita_mess_waste")
     = Some (PNum (3333 # 10000)).
Proof. split; vm_compute; reflexivity. Qed.

Lemma approval_of_unknown_submission_witness :
  fst (approve_submission stray_collection "pho" world_up) = true
  /\ mess_waste_submissions
       (db (snd (approve_submission stray_collection "pho" world_up)))
     = mess_waste_submissions (db world_up)
  /\ hostel_waste_submissions
       (db (snd (approve_submission stray_collection "pho" world_up)))
     = hostel_waste_submissions (db world_up)
  /\ master_waste_data
       (db (snd (approve_submission stray_collection "pho" world_up)))
     = master_waste_data
         (db (if dict_has stray_collection "breakfast_students"
              then add_to_master_file_mess stray_collection world_up
              else add_to_master_file_hostel stray_collection world_up)).
Proof.
  apply (approval_of_unknown_submission stray_collection "pho" world_up
           "hostel_18_20240112").
  - reflexivity.
  - reflexivity.
  - simpl. lia.
  - reflexivity.
Defined.

Lemma approval_without_aggregate_witness :
  fst (approve_submission collection_with_null "pho" world_with_null) = true
  /\ master_waste_data
       (db (snd (approve_submission collection_with_null "pho"
                   world_with_null)))
     = master_waste_data (db world_with_null)
  /\ exists row',
       table_of_record collection_with_null
         (db (snd (approve_submission collection_with_null "pho"
                     world_with_null))) !! "hostel_10_20240112" = Some row'
       /\ row' !! "status" = Some (PStr "verified").
Proof.
  apply (approval_without_aggregate collection_with_null "pho" world_with_null
           "hostel_10_20240112" "wet_waste" collection_with_null).
  - reflexivity.
  - reflexivity.
  - simpl. lia.
  - reflexivity.
  - vm_compute. repeat (first [left; reflexivity | right]).
  - reflexivity.
Defined.

Lemma sample_collections_numeric (r : pydict) (k : string) :
  In r [collection_1; collection_2] -> In k collection_fields ->
  numeric_field r k.
Proof.
  intros [<-|[<-|[]]] Hk; each_key Hk ltac:(reflexivity).
Qed.

Lemma display_totals_are_sums_witness :
  exists totals,
    aggregate_hostel_waste_collections [collection_1; collection_2]
      = Ok totals
    /\ (forall k, In k collection_fields ->
          totals !! k
          = Some (PNum (fold_left Qplus
                          (map (fun r => field_num r k)
                             [collection_1; collection_2]) 0%Q)))
    /\ totals !! "collection_count"
       = Some (PNum (inject_Z (Z.of_nat (length [collection_1; collection_2]))))
    /\ totals !! "hostel" = Some (dict_get collection_1 "hostel" (PStr "N/A"))
    /\ totals !! "submission_date"
       = Some (dict_get collection_1 "submission_date" (PStr "N/A")).
Proof.
  exact (display_totals_are_sums collection_1 [collection_2]
           sample_collections_numeric).
Defined.

Lemma edit_stores_entered_values_witness :
  exists row',
    table_of_type "mess_waste"
      (db (snd (update_submission_with_edits (PStr "mess_2_20240110")
                  "mess_waste"
                  (prepare_edited_data "mess_waste" corrected_form)
                  "pho" world_up)))
      !! "mess_2_20240110" = Some row'
    /\ (forall k, In k (edit_columns_of_type "mess_waste") ->
          exists x colty cell,
            prepare_edited_data "mess_waste" corrected_form !! k = Some x
            /\ column_type (columns_of_type "mess_waste") k = Some colty
            /\ sql_store colty x = Ok cell
            /\ row' !! k = Some cell)
    /\ row' !! "status" = Some (PStr "verified")
    /\ row' !! "verified_by" = Some (PStr "pho")
    /\ (forall k,
          ~ In k (edit_columns_of_type "mess_waste"
                  ++ ["status"; "verified_by"; "verified_at"]) ->
          row' !! k = mess_record !! k).
Proof.
  apply (edit_stores_entered_values "mess_2_20240110" "mess_waste"
           (prepare_edited_data "mess_waste" corrected_form) "pho" world_up
           mess_record); reflexivity.
Defined.

Lemma edit_with_missing_field_fails_witness :
  fst (update_submission_with_edits (PStr "hostel_2_20240110_1")
         "hostel_waste" collection_1 "pho" world_up) = true
  /\ fst (update_submission_with_edits (PStr "hostel_2_20240110_1")
            "hostel_waste" (delete "e_waste" collection_1) "pho" world_up)
     = false
  /\ db (snd (update_submission_with_edits (PStr "hostel_2_20240110_1")
                "hostel_waste" (delete "e_waste" collection_1) "pho"
                world_up))
     = db world_up.
Proof.
  split; [reflexivity|].
  apply (edit_with_missing_field_fails (PStr "hostel_2_20240110_1")
           "hostel_waste" (delete "e_waste" collection_1) "pho" world_up
           "e_waste").
  - vm_compute. repeat (first [left; reflexivity | right]).
  - reflexivity.
Defined.

Lemma save_pho_edit_rejects_dates_witness :
  fst (save_pho_edit (PStr "mess_2_20240110") "mess_waste" mess_record_loaded
         (prepare_edited_data "mess_waste" corrected_form) "pho"
         "weighed again" world_up) = false
  /\ db (snd (save_pho_edit (PStr "mess_2_20240110") "mess_waste"
                mess_record_loaded
                (prepare_edited_data "mess_waste" corrected_form) "pho"
                "weighed again" world_up))
     = db world_up.
Proof.
  apply (save_pho_edit_rejects_dates _ _ _ _ _ _ _ "submission_date"
           "2024-01-10").
  reflexivity.
Defined.

(** ** Hostel codes, sessions, intake and users on the sample data *)

Example hostel_code_examples :
  get_hostel_from_username "pho_supervisor_12_13_14" = "12-13-14"
  /\ get_hostel_from_username "pho_supervisor_pho_supervisor_2" = "2"
  /\ get_hostel_from_username "pho_1" = ""
  /\ parse_pending_key (mess_waste_key "12-13-14" "2024-01-10")
     = Some ("12-13-14", "2024-01-10_mess", "waste")
  /\ parse_pending_key (mess_waste_key "12_13" "2024-01-10")
     = Some ("12", "13_2024-01-10_mess", "waste").
Proof. repeat split; vm_compute; reflexivity. Qed.

Lemma hostel_code_of_supervisor_witness :
  get_hostel_from_username ("pho_supervisor_" ++ "12_13_14")
  = replace_char "_" "-" "12_13_14"
  /\ get_hostel_from_username "12_13_14" = "".
Proof. apply (hostel_code_of_supervisor "12_13_14"). reflexivity. Defined.

Lemma pending_key_parse_witness :
  parse_pending_key (mess_waste_key "2" "2024-01-10")
  = Some ("2", "2024-01-10" ++ "_mess", "waste")
  /\ parse_pending_key (hostel_waste_key "2" "2024-01-10")
     = Some ("2", "2024-01-10" ++ "_hostel", "waste").
Proof. apply (pending_key_parse "2" "2024-01-10"). reflexivity. Defined.

(** The session of the sample expires at second 4600 and not before. *)
Lemma check_session_validity_expiry_witness :
  check_session_validity 4600 4601 logged_in_session
  = Ok (true, clear_session_state (preserve_session_state logged_in_session))
  /\ check_session_validity 4599 4600 logged_in_session
     = Ok (false,
           update_activity_time 4600
             (preserve_session_state logged_in_session)).
Proof.
  split.
  - pose proof (check_session_validity_expiry 4600 4601 logged_in_session
                  eq_refl) as H.
    cbv zeta in H. destruct H as (_ & H & _).
    destruct (H 1000%Q) as [E _]; [reflexivity| |exact E].
    unfold Qle. simpl. lia.
  - pose proof (check_session_validity_expiry 4599 4600 logged_in_session
                  eq_refl) as H.
    cbv zeta in H. destruct H as (_ & _ & H).
    apply (H 1000%Q); [reflexivity|]. unfold Qlt. simpl. lia.
Defined.

(** After the logout the draft of the mess form is still in the
    session. *)
Example draft_survives_logout :
  load_form_data "mess_form_data" SNone
    (init_session_state (clear_session_state logged_in_session))
  = SDict mess_form
  /\ session_get (init_session_state (clear_session_state logged_in_session))
       "username" = SNone.
Proof. split; vm_compute; reflexivity. Qed.

(** The forms of the sample are accepted; a second one in the same
    second is not. *)
Example sample_intake :
  fst (save_mess_waste_data "pho_supervisor_2" mess_form 1704900000 world_up)
  = true
  /\ fst (save_hostel_waste_data "pho_supervisor_2" collection_form
            1704900000 world_up) = true
  /\ fst (save_hostel_waste_data "pho_supervisor_2" collection_form
            1704900000
            (snd (save_hostel_waste_data "pho_supervisor_2" collection_form
                    1704900000 world_up))) = false
  /\ hostel_waste_submissions
       (db (snd (save_hostel_waste_data "pho_supervisor_2" collection_form
                   1704900000 world_up))) !! "1704900000"
     ≫= (fun row : pydict => row !! "status") = Some (PStr "pending").
Proof. repeat split; vm_compute; reflexivity. Qed.

Lemma toy_bcrypt (p s : string) : toy_checkpw p (toy_hashpw p s) = true.
Proof. apply prefix_app. Qed.

Lemma added_user_can_log_in_witness :
  sample_users !! "pho_supervisor_11" = None
  /\ In "pho_supervisor" user_roles
  /\ (forall w2, connects w2 = [] ->
        verify_password toy_checkpw "pho_supervisor_11" "secret"
          sample_users_added w2 = (true, w2)
        /\ get_user_role "pho_supervisor_11" sample_users_added w2
           = ("pho_supervisor", w2)
        /\ get_user_name "pho_supervisor_11" sample_users_added w2
           = ("Asha", w2))
  /\ (forall other, other <> "pho_supervisor_11" ->
        sample_users_added !! other = sample_users !! other).
Proof.
  apply (added_user_can_log_in toy_hashpw toy_checkpw "pho_supervisor_11"
           "Asha" "secret" "pho_supervisor" "s4" sample_users world_up).
  - exact toy_bcrypt.
  - reflexivity.
Defined.

Lemma deleted_user_cannot_log_in_witness :
  delete_user "pho_supervisor_2" sample_users world_up
  = Outcome true (delete "pho_supervisor_2" sample_users) world_up
  /\ (forall password w2,
        fst (verify_password toy_checkpw "pho_supervisor_2" password
               (delete "pho_supervisor_2" sample_users) w2) = false
        /\ fst (get_user_role "pho_supervisor_2"
                  (delete "pho_supervisor_2" sample_users) w2) = "")
  /\ (forall other, other <> "pho_supervisor_2" ->
        delete "pho_supervisor_2" sample_users !! other
        = sample_users !! other).
Proof.
  apply (deleted_user_cannot_log_in toy_checkpw "pho_supervisor_2"
           sample_users world_up).
  reflexivity.
Defined.

(** The hostels of the sample users, and the list once the supervisors
    are gone. *)
Example sample_hostels :
  fst (get_dynamic_hostels sample_users world_up) = ["12-13-14"; "2"]
  /\ fst (get_dynamic_hostels sample_users_added world_up)
     = ["11"; "12-13-14"; "2"]
  /\ fst (get_dynamic_hostels
            (delete "pho_supervisor_12_13_14"
               (delete "pho_supervisor_2" sample_users)) world_up)
     = default_hostels
  /\ fst (get_dynamic_hostels sample_users world_down) = default_hostels.
Proof. repeat split; vm_compute; reflexivity. Qed.

(** On an empty table the administrator is created and can log in with
    the built-in password; an administrator who is there is kept. *)
Example sample_default_admin :
  users_after (create_default_admin toy_hashpw "s9" ∅ world_up) !! "admin"
  = Some (User "Administrator" "admin123s9" "admin")
  /\ fst (verify_password toy_checkpw "admin" "admin123"
            (users_after (create_default_admin toy_hashpw "s9" ∅ world_up))
            world_up) = true
  /\ create_default_admin toy_hashpw "s9" sample_users world_up
     = Outcome true sample_users world_up.
Proof. repeat split; vm_compute; reflexivity. Qed.

(** ** Edit-then-approve and several collections on the stored rows *)




Lemma loaded_collections_numeric (r : pydict) (k : string) :
  In r [loaded_collection_1; loaded_collection_2] ->
  In k collection_fields -> numeric_field r k.
Proof.
  intros [<-|[<-|[]]] Hk; each_key Hk ltac:(reflexivity).
Qed.

Lemma later_hostel_collection_overwrites_witness :
  (is_ok (hostel_statement loaded_collection_2) = true ->
   exists r12 r2 : pydict,
     master_waste_data
       (db (add_to_master_file_hostel loaded_collection_2
              (add_to_master_file_hostel loaded_collection_1 world_stored)))
       !! key = Some r12
     /\ master_waste_data
          (db (add_to_master_file_hostel loaded_collection_2 world_stored))
          !! key = Some r2
     /\ (forall c, In c hostel_group -> r12 !! c = r2 !! c)
     /\ (forall c, In c waste_categories ->
           exists v,
             sql_store (DECIMAL 10 2)
               (dict_get loaded_collection_2 c (PNum 0)) = Ok v
             /\ r12 !! c = Some v))
  /\ (is_ok (hostel_statement loaded_collection_2) = false ->
      add_to_master_file_hostel loaded_collection_2
        (add_to_master_file_hostel loaded_collection_1 world_stored)
      = add_to_master_file_hostel loaded_collection_1 world_stored)
  /\ (forall u sid1 sid2,
        dict_has loaded_collection_1 "breakfast_students" = false ->
        dict_has loaded_collection_2 "breakfast_students" = false ->
        loaded_collection_1 !! "submission_id" = Some (PStr sid1) ->
        loaded_collection_2 !! "submission_id" = Some (PStr sid2) ->
        (String.length u <= 50)%nat ->
        master_waste_data
          (db (snd (approve_all_collections
                      [loaded_collection_1; loaded_collection_2] u
                      world_stored)))
        = master_waste_data
            (db (add_to_master_file_hostel loaded_collection_2
                   (add_to_master_file_hostel loaded_collection_1
                      world_stored))))
  /\ ((forall r k, In r [loaded_collection_1; loaded_collection_2] ->
                   In k collection_fields -> numeric_field r k) ->
      exists totals,
        aggregate_hostel_waste_collections
          [loaded_collection_1; loaded_collection_2] = Ok totals
        /\ forall c, In c waste_categories ->
             totals !! c
             = Some (PNum (0 + field_num loaded_collection_1 c
                           + field_num loaded_collection_2 c))).
Proof.
  apply (later_hostel_collection_overwrites loaded_collection_1
           loaded_collection_2 world_stored key); reflexivity.
Defined.

(** The two stored collections approved together: the master row keeps
    the 5 kg of dry waste of the second one, the display total is 6 kg. *)
Example last_collection_wins :
  is_ok (hostel_statement loaded_collection_2) = true
  /\ master_waste_data
       (db (snd (approve_all_collections
                   [loaded_collection_1; loaded_collection_2] "pho"
                   world_stored))) !! key
       ≫= (fun row : pydict => row !! "dry_waste") = Some (PNum 5)
  /\ (totals <- aggregate_hostel_waste_collections
                  [loaded_collection_1; loaded_collection_2] ;;
      Ok (totals !! "dry_waste")) = Ok (Some (PNum 6)).
Proof. repeat split; vm_compute; reflexivity. Qed.

(** A later collection that the aggregation refuses, here for its NULL
    wet waste, overwrites nothing: the row keeps the 1 kg of dry waste
    of the first collection, and alone it leaves no row at all. *)
Lemma later_refused_collection_changes_nothing :
  master_key loaded_collection_1 = Some key
  /\ master_key loaded_collection_3 = Some key
  /\ master_waste_data
       (db (add_to_master_file_hostel loaded_collection_3
              (add_to_master_file_hostel loaded_collection_1 world_stored)))
       !! key ≫= (fun row : pydict => row !! "dry_waste") = Some (PNum 1)
  /\ master_waste_data
       (db (add_to_master_file_hostel loaded_collection_3 world_stored))
       !! key = None.
Proof. repeat split; vm_compute; reflexivity. Qed.
